(** * FraudShield: the scoring pipeline, embedded and verified

    A shallow embedding of the Python sources

      - [backend/schemas.py]                     (the pydantic records),
      - [backend/utils/db.py]                    (the history store),
      - [backend/pipeline/feature_engineering.py] (the feature engineer),
      - [backend/pipeline/model_infer.py]        (the ensemble scorer),

    followed by the properties of the specification that concern them.

    Conventions of the embedding.
      - A Python [float] is an exact rational ([Qc]); rounding is not
        modelled.  A Python [int] is a [Z], a [str] a [string] of bytes.
      - A naive UTC [datetime] is the number of microseconds since the
        epoch, a [timedelta] a number of microseconds.
      - A call that can raise returns an [exc]; a method that mutates
        [self] is a state transformer ([ST]) on the object's fields, and
        the state survives a raised exception, as it does in Python.
      - What the sources call in third-party libraries ([math.log],
        [numpy.sqrt], [geopy]'s geodesic, the fitted models, the file
        system) is a field of a record of externals handed to the
        functions that use it. *)

From Stdlib Require Import ZArith QArith Qcanon String Ascii List Bool Lia Lqa.
From stdpp Require Import base decidable option numbers list strings gmap sorting.

Local Open Scope Z_scope.
Local Open Scope string_scope.

(* ===================================================================== *)
(** * Python run-time: exceptions, state, truthiness                      *)
(* ===================================================================== *)

(** The exceptions the modelled code can meet. *)
Inductive exception : Type :=
| ValidationError (field : string)      (* pydantic refuses a field *)
| DivisionByZeroError                   (* PostgreSQL, SQLSTATE 22012 *)
| InterfaceError                        (* no connection pool *)
| OSError                               (* file system *)
| NotFittedError                        (* sklearn estimator used before fit *)
| ValueError (msg : string)             (* e.g. math domain error *)
| RuntimeError (msg : string).          (* anything a library raises *)

Inductive exc (A : Type) : Type :=
| Ok (a : A)
| Raise (e : exception).
Arguments Ok {A} a.
Arguments Raise {A} e.

Definition exc_bind {A B} (c : exc A) (k : A -> exc B) : exc B :=
  match c with
  | Ok a => k a
  | Raise e => Raise e
  end.

Definition is_ok {A} (c : exc A) : bool :=
  match c with Ok _ => true | Raise _ => false end.

(** A method of an object with fields [S]: it returns or raises, and
    leaves the object in a new state either way. *)
Definition ST (S A : Type) : Type := S -> exc A * S.

Definition st_ret {S A} (a : A) : ST S A := fun s => (Ok a, s).
Definition st_raise {S A} (e : exception) : ST S A := fun s => (Raise e, s).
Definition st_bind {S A B} (c : ST S A) (k : A -> ST S B) : ST S B :=
  fun s => match c s with
           | (Ok a, s') => k a s'
           | (Raise e, s') => (Raise e, s')
           end.
Definition st_get {S} : ST S S := fun s => (Ok s, s).
Definition st_put {S} (s : S) : ST S unit := fun _ => (Ok tt, s).
Definition st_lift {S A} (c : exc A) : ST S A := fun s => (c, s).

(** [try: body / except Exception as e: handler e]. *)
Definition st_try {S A} (body : ST S A) (handler : exception -> ST S A) : ST S A :=
  fun s => match body s with
           | (Ok a, s') => (Ok a, s')
           | (Raise e, s') => handler e s'
           end.

Declare Scope st_scope.
Delimit Scope st_scope with st.
Notation "x <- c ;; k" := (st_bind c (fun x => k))
  (at level 100, c at next level, right associativity) : st_scope.

Declare Scope exc_scope.
Delimit Scope exc_scope with exc.
Notation "x <- c ;; k" := (exc_bind c (fun x => k))
  (at level 100, c at next level, right associativity) : exc_scope.

(* ===================================================================== *)
(** * Numbers                                                             *)
(* ===================================================================== *)

(** The decimal literal [n/d]. *)
Definition dec (n : Z) (d : positive) : Qc := Q2Qc (n # d).

Definition Qc_ltb (x y : Qc) : bool :=
  match (x ?= y)%Qc with Lt => true | _ => false end.
Definition Qc_leb (x y : Qc) : bool :=
  match (x ?= y)%Qc with Gt => false | _ => true end.

(** Python's [min(a, b)] returns [b] only when [b < a]; [max(a, b)]
    returns [b] only when [b > a]. *)
Definition py_min (a b : Qc) : Qc := if Qc_ltb b a then b else a.
Definition py_max (a b : Qc) : Qc := if Qc_ltb a b then b else a.

(** Truthiness of an optional float ([None] and [0.0] are falsy) and of
    an optional string ([None] and the empty string are falsy). *)
Definition truthy_float (o : option Qc) : bool :=
  match o with
  | Some x => negb (Qc_eq_bool x 0)
  | None => false
  end.

Definition truthy_str (o : option string) : bool :=
  match o with
  | Some s => negb (String.eqb s "")
  | None => false
  end.

(** [sum], [numpy.mean] and the mean of squared deviations that
    [numpy.std] takes the root of. *)
Definition Qc_sum (l : list Qc) : Qc := fold_right Qcplus 0%Qc l.

Definition np_mean (l : list Qc) : Qc :=
  (Qc_sum l / Qc_of_Z (Z.of_nat (length l)))%Qc.

Definition np_var (l : list Qc) : Qc :=
  let m := np_mean l in
  np_mean (map (fun x => ((x - m) * (x - m))%Qc) l).

(* ===================================================================== *)
(** * CPython's [hash] of a [str]                                         *)
(* ===================================================================== *)

(** CPython (3.11 and later) hashes the bytes of a string with
    SipHash-1-3 under a 128-bit key that is drawn once per process
    (from [PYTHONHASHSEED], or at random when it is unset).  The key is
    the only thing of the process the feature engineer depends on. *)
Module SipHash.

Definition mask64 : Z := Z.ones 64.
Definition w64 (x : Z) : Z := Z.land x mask64.

Definition rotl (x b : Z) : Z :=
  w64 (Z.lor (Z.shiftl x b) (Z.shiftr x (64 - b))).

Record state : Type := State { v0 : Z; v1 : Z; v2 : Z; v3 : Z }.

(** One SipRound. *)
Definition sipround (s : state) : state :=
  let v0 := w64 (v0 s + v1 s) in
  let v2 := w64 (v2 s + v3 s) in
  let v1 := Z.lxor (rotl (v1 s) 13) v0 in
  let v3 := Z.lxor (rotl (v3 s) 16) v2 in
  let v0 := rotl v0 32 in
  let v2 := w64 (v2 + v1) in
  let v0 := w64 (v0 + v3) in
  let v1 := Z.lxor (rotl v1 17) v2 in
  let v3 := Z.lxor (rotl v3 21) v0 in
  let v2 := rotl v2 32 in
  State v0 v1 v2 v3.

(** Little-endian value of at most eight bytes. *)
Fixpoint le_bytes (l : list Z) : Z :=
  match l with
  | [] => 0
  | b :: r => Z.lor b (Z.shiftl (le_bytes r) 8)
  end.

Definition absorb (s : state) (m : Z) : state :=
  let s1 := sipround (State (v0 s) (v1 s) (v2 s) (Z.lxor (v3 s) m)) in
  State (Z.lxor (v0 s1) m) (v1 s1) (v2 s1) (v3 s1).

(** The full eight-byte words first, then the tail, which carries the
    length in its top byte. *)
Fixpoint compress (fuel : nat) (len : Z) (s : state) (l : list Z) : state :=
  match fuel with
  | O => s
  | S fuel' =>
      if (8 <=? Z.of_nat (length l))%Z
      then compress fuel' len (absorb s (le_bytes (take 8 l))) (drop 8 l)
      else absorb s (Z.lor (Z.shiftl (Z.land len 255) 56) (le_bytes l))
  end.

Definition siphash13 (k0 k1 : Z) (data : list Z) : Z :=
  let s := State (Z.lxor k0 0x736f6d6570736575)
                 (Z.lxor k1 0x646f72616e646f6d)
                 (Z.lxor k0 0x6c7967656e657261)
                 (Z.lxor k1 0x7465646279746573) in
  let s := compress (S (length data)) (Z.of_nat (length data)) s data in
  let s := State (v0 s) (v1 s) (Z.lxor (v2 s) 255) (v3 s) in
  let s := sipround (sipround (sipround s)) in
  Z.lxor (Z.lxor (v0 s) (v1 s)) (Z.lxor (v2 s) (v3 s)).

End SipHash.

(** The per-process hash secret: the two key words of SipHash. *)
Record HashKey : Type := { k0 : Z; k1 : Z }.

Definition bytes_of_string (s : string) : list Z :=
  map (fun c => Z.of_N (N_of_ascii c)) (list_ascii_of_string s).

(** [hash(s)] for a [str]: zero for the empty string, else the SipHash
    of its bytes read as a signed 64-bit integer, with [-1] (the error
    value of the C API) replaced by [-2].  The bytes of the [string]
    are those CPython hashes for an ASCII [str]. *)
Definition py_hash (key : HashKey) (s : string) : Z :=
  match bytes_of_string s with
  | [] => 0
  | data =>
      let u := SipHash.siphash13 (k0 key) (k1 key) data in
      let x := if (2 ^ 63 <=? u)%Z then u - 2 ^ 64 else u in
      if (x =? -1)%Z then -2 else x
  end.

(** [hash(s) % 1000 / 1000.0]; Python's [%] takes the sign of the
    divisor, as [Z.modulo] does. *)
Definition hash_encode (key : HashKey) (s : string) : Qc :=
  (Qc_of_Z (py_hash key s mod 1000) / Qc_of_Z 1000)%Qc.

(** The keys CPython derives from [PYTHONHASHSEED=0] (randomisation
    off) and from [PYTHONHASHSEED=1]. *)
Definition hashseed_0 : HashKey := {| k0 := 0; k1 := 0 |}.
Definition hashseed_1 : HashKey :=
  {| k0 := 0xaed66ce184be2329; k1 := 0xebe9bbf1f1499052 |}.


(* ===================================================================== *)
(** * [backend/schemas.py]                                                *)
(* ===================================================================== *)

Inductive ChannelType : Type := CARD_PRESENT | WEB | APP | PHONE.

Definition ChannelType_eqb (a b : ChannelType) : bool :=
  match a, b with
  | CARD_PRESENT, CARD_PRESENT | WEB, WEB | APP, APP | PHONE, PHONE => true
  | _, _ => false
  end.

Record Transaction : Type := {
  txn_id : string;
  ts : Z;
  amount : Qc;
  merchant_cat : string;
  merchant_id : string;
  mcc : string;
  currency : string;
  country : string;
  city : string;
  lat : option Qc;
  lon : option Qc;
  channel : ChannelType;
  card_id : string;
  customer_id : string;
  device_id : option string;
  ip : option string;
  is_fraud : option bool
}.

(** What pydantic checks when a [Transaction] is built: [amount > 0]
    and the ranges of [lat] and [lon]. *)
Definition in_range (lo hi : Qc) (o : option Qc) : bool :=
  match o with
  | Some v => Qc_leb lo v && Qc_leb v hi
  | None => true
  end.

Definition Transaction_valid (t : Transaction) : bool :=
  Qc_ltb 0 (amount t)
  && in_range (dec (-90) 1) (dec 90 1) (lat t)
  && in_range (dec (-180) 1) (dec 180 1) (lon t).

(** A value of one of the Python types the feature engineer can hand to
    a [bool] field. *)
Inductive pyval : Type :=
| PyNone
| PyBool (b : bool)
| PyStr (s : string).

Definition py_truthy (v : pyval) : bool :=
  match v with
  | PyNone => false
  | PyBool b => b
  | PyStr s => negb (String.eqb s "")
  end.

(** [a and b]: the first operand when it is falsy, else the second. *)
Definition py_and (a b : pyval) : pyval := if py_truthy a then b else a.

Definition py_of_str (o : option string) : pyval :=
  match o with
  | Some s => PyStr s
  | None => PyNone
  end.

Definition lower_ascii (c : ascii) : ascii :=
  let n := N_of_ascii c in
  if (65 <=? n)%N && (n <=? 90)%N then ascii_of_N (n + 32) else c.

Fixpoint str_lower (s : string) : string :=
  match s with
  | EmptyString => EmptyString
  | String c r => String (lower_ascii c) (str_lower r)
  end.

Definition str_in (s : string) (l : list string) : bool :=
  existsb (String.eqb s) l.

(** pydantic's validation of a [bool] field: a [bool] passes, a string
    passes when its lower case is one of twelve words, anything else
    (and [None]) is refused. *)
Definition pydantic_bool (field : string) (v : pyval) : exc bool :=
  match v with
  | PyBool b => Ok b
  | PyStr s =>
      if str_in (str_lower s) ["1"; "on"; "t"; "true"; "y"; "yes"] then Ok true
      else if str_in (str_lower s) ["0"; "off"; "f"; "false"; "n"; "no"] then Ok false
      else Raise (ValidationError field)
  | PyNone => Raise (ValidationError field)
  end.

Record FeatureVector : Type := {
  (* Amount features *)
  fv_amount : Qc;
  amount_z_score : Qc;
  amount_log : Qc;
  amount_rolling_mean_1h : Qc;
  amount_rolling_std_1h : Qc;
  amount_rolling_mean_24h : Qc;
  amount_rolling_std_24h : Qc;
  (* Velocity features *)
  txn_count_5m : Z;
  txn_count_1h : Z;
  txn_count_24h : Z;
  distinct_merchants_5m : Z;
  distinct_merchants_1h : Z;
  distinct_merchants_24h : Z;
  (* Geographic features *)
  distance_from_home : Qc;
  speed_from_last_txn : option Qc;
  country_change : bool;
  city_change : bool;
  (* Time features *)
  hour_of_day : Z;
  day_of_week : Z;
  is_holiday : bool;
  is_weekend : bool;
  (* Merchant features *)
  merchant_fraud_rate : Qc;
  mcc_fraud_rate : Qc;
  merchant_txn_count : Z;
  (* Device/IP features *)
  device_rarity_score : Qc;
  ip_rarity_score : Qc;
  device_change : bool;
  ip_change : bool;
  (* Channel features *)
  channel_card_present : bool;
  channel_web : bool;
  channel_app : bool;
  (* Categorical encodings *)
  merchant_id_encoded : Qc;
  mcc_encoded : Qc;
  country_encoded : Qc
}.

Inductive RiskFactors : Type :=
  MkRiskFactors (high_amount high_velocity geographic_anomaly
                 suspicious_merchant device_anomaly : bool).

(** The two shapes of [ScoreResult.explanation]. *)
Inductive Explanation : Type :=
| Explained (ensemble_score isolation_forest_score autoencoder_score : Qc)
            (top_contributing_features : list (string * Qc))
            (counterfactuals : list string)
            (risk_factors : RiskFactors)
| ExplainError (error : string).

Record ScoreResult : Type := {
  score : Qc;
  threshold : Qc;
  is_alert : bool;
  model_used : string;
  explanation : Explanation;
  confidence : Qc
}.

Definition unit_interval (x : Qc) : bool := Qc_leb 0 x && Qc_leb x 1.

(** [ScoreResult(...)]: pydantic refuses a [score], [threshold] or
    [confidence] outside [0, 1] ([Field(..., ge=0, le=1)]). *)
Definition ScoreResult_new (score threshold : Qc) (is_alert : bool)
    (model_used : string) (explanation : Explanation) (confidence : Qc)
  : exc ScoreResult :=
  if negb (unit_interval score) then Raise (ValidationError "score")
  else if negb (unit_interval threshold) then Raise (ValidationError "threshold")
  else if negb (unit_interval confidence) then Raise (ValidationError "confidence")
  else Ok {| score := score; threshold := threshold; is_alert := is_alert;
             model_used := model_used; explanation := explanation;
             confidence := confidence |}.

(** The dictionary [get_merchant_stats] returns. *)
Record MerchantStats : Type := {
  total_transactions : Z;
  avg_amount : Qc;
  fraud_count : Z;
  fraud_rate : Qc
}.

(** A row of [get_customer_history], as a dictionary keyed by column. *)
Record HistoryRow : Type := {
  h_txn_id : string;
  h_ts : Z;
  h_amount : Qc;
  h_merchant_id : string;
  h_mcc : string;
  h_country : string;
  h_city : string;
  h_lat : option Qc;
  h_lon : option Qc;
  h_channel : ChannelType;
  h_device_id : option string;
  h_ip : option string;
  h_score : option Qc
}.

(* ===================================================================== *)
(** * [backend/utils/db.py]                                               *)
(* ===================================================================== *)

(** The three relations [store_transaction] writes, each with
    [txn_id] as its primary key. *)
Record Database : Type := {
  transactions : gmap string Transaction;
  features : gmap string FeatureVector;
  scores : gmap string ScoreResult
}.

(** [DatabaseManager]: [pool] is [None] until [connect] has run. *)
Record DatabaseManager : Type := { pool : option Database }.

(** [self.pool.acquire()]. *)
Definition acquire (dm : DatabaseManager) : exc Database :=
  match pool dm with
  | Some db => Ok db
  | None => Raise InterfaceError
  end.

(** [INSERT ... ON CONFLICT (txn_id) DO NOTHING]. *)
Definition insert_do_nothing {V} (k : string) (v : V) (m : gmap string V)
  : gmap string V :=
  match m !! k with
  | Some _ => m
  | None => <[k := v]> m
  end.

(** The three statements run one after the other on one connection,
    each in its own implicit transaction. *)
Definition store_transaction (transaction : Transaction)
    (features_ : FeatureVector) (score_result : ScoreResult)
  : ST DatabaseManager unit :=
  fun dm =>
    match acquire dm with
    | Raise e => (Raise e, dm)
    | Ok db =>
        let db1 := {| transactions :=
                        insert_do_nothing (txn_id transaction) transaction (transactions db);
                      features := features db; scores := scores db |} in
        let db2 := {| transactions := transactions db1;
                      features :=
                        insert_do_nothing (txn_id transaction) features_ (features db1);
                      scores := scores db1 |} in
        let db3 := {| transactions := transactions db2;
                      features := features db2;
                      scores :=
                        insert_do_nothing (txn_id transaction) score_result (scores db2) |} in
        (Ok tt, {| pool := Some db3 |})
    end.

(** Sorting in descending order ([ORDER BY ... DESC],
    [sorted(..., reverse=True)]) as a stable insertion sort; [leb y x]
    says that the key of [y] is at most the key of [x]. *)
Fixpoint insert_desc {A} (leb : A -> A -> bool) (x : A) (l : list A) : list A :=
  match l with
  | [] => [x]
  | y :: r => if leb y x then x :: y :: r else y :: insert_desc leb x r
  end.

Definition sort_desc {A} (leb : A -> A -> bool) (l : list A) : list A :=
  fold_right (insert_desc leb) [] l.

Definition hour_us : Z := 3600 * 1000000.
Definition minute_us : Z := 60 * 1000000.

Definition history_row (db : Database) (t : Transaction) : HistoryRow :=
  {| h_txn_id := txn_id t; h_ts := ts t; h_amount := amount t;
     h_merchant_id := merchant_id t; h_mcc := mcc t; h_country := country t;
     h_city := city t; h_lat := lat t; h_lon := lon t; h_channel := channel t;
     h_device_id := device_id t; h_ip := ip t;
     h_score := score <$> (scores db !! txn_id t) |}.

(** [get_customer_history]: the customer's transactions since
    [utcnow - hours], most recent first, each joined with its score.
    [utcnow] is the reading of the clock the call makes. *)
Definition get_customer_history (dm : DatabaseManager) (utcnow : Z)
    (customer : string) (hours : Z) : exc (list HistoryRow) :=
  (db <- acquire dm ;;
   let rows := filter (fun t => customer_id t = customer
                                /\ (utcnow - hours * hour_us <= ts t)%Z)
                      (snd <$> map_to_list (transactions db)) in
   Ok (history_row db <$> sort_desc (fun a b => (ts a <=? ts b)%Z) rows))%exc.

(** PostgreSQL's [float8 / float8]: a zero divisor is an error. *)
Definition sql_float_div (a b : Qc) : exc Qc :=
  if Qc_eq_bool b 0 then Raise DivisionByZeroError else Ok (a / b)%Qc.

(** [AVG] over no row is [NULL]. *)
Definition sql_avg (l : list Qc) : option Qc :=
  match l with
  | [] => None
  | _ => Some (np_mean l)
  end.

(** [float(v) if v else 0.0]. *)
Definition float_or_zero (o : option Qc) : Qc :=
  match o with
  | Some v => if Qc_eq_bool v 0 then 0%Qc else v
  | None => 0%Qc
  end.

(** [get_merchant_stats]: one aggregate row over the merchant's
    transactions; the select list divides by [COUNT( * )]. *)
Definition get_merchant_stats (dm : DatabaseManager) (merchant : string)
  : exc MerchantStats :=
  (db <- acquire dm ;;
   let rows := filter (fun t => merchant_id t = merchant)
                      (snd <$> map_to_list (transactions db)) in
   let total := Z.of_nat (length rows) in
   let avg := sql_avg (amount <$> rows) in
   let frauds := Z.of_nat (length (filter (fun t => is_fraud t = Some true) rows)) in
   rate <- sql_float_div (Qc_of_Z frauds) (Qc_of_Z total) ;;
   Ok {| total_transactions := total;
         avg_amount := float_or_zero avg;
         fraud_count := frauds;
         fraud_rate := float_or_zero (Some rate) |})%exc.

(* ===================================================================== *)
(** * [backend/pipeline/feature_engineering.py]                           *)
(* ===================================================================== *)

(** The numeric library functions the feature engineer calls: the
    natural logarithm and the square root on their domains, and
    [geopy]'s geodesic distance in kilometres between two
    [(lat, lon)] points, which can raise. *)
Record Libs : Type := {
  ln : Qc -> Qc;
  sqrt : Qc -> Qc;
  geodesic_km : Qc * Qc -> Qc * Qc -> exc Qc
}.

(** [math.log(x)] raises [ValueError] unless [x > 0]. *)
Definition math_log (L : Libs) (x : Qc) : exc Qc :=
  if Qc_ltb 0 x then Ok (ln L x) else Raise (ValueError "math domain error").

(** [numpy.std] (population standard deviation). *)
Definition np_std (L : Libs) (l : list Qc) : Qc := sqrt L (np_var l).

Record FeatureEngineer : Type := {
  customer_home_locations : gmap string (Qc * Qc);
  merchant_stats_cache : gmap string MerchantStats
}.

Definition FeatureEngineer_init : FeatureEngineer :=
  {| customer_home_locations := ∅; merchant_stats_cache := ∅ |}.

Record AmountFeatures : Type := {
  z_score : Qc;
  log_amount : Qc;
  rolling_mean_1h : Qc;
  rolling_std_1h : Qc;
  rolling_mean_24h : Qc;
  rolling_std_24h : Qc
}.

Definition _calculate_amount_features (L : Libs) (transaction : Transaction)
    (customer_history : list HistoryRow) : exc AmountFeatures :=
  let amounts := h_amount <$> filter (fun txn => Qc_ltb 0 (h_amount txn) = true)
                                     customer_history in
  match amounts with
  | [] =>
      (log_amount <- math_log L (amount transaction + 1)%Qc ;;
       Ok {| z_score := 0%Qc; log_amount := log_amount;
             rolling_mean_1h := 0%Qc; rolling_std_1h := 1%Qc;
             rolling_mean_24h := 0%Qc; rolling_std_24h := 1%Qc |})%exc
  | _ =>
      let mean_amount := np_mean amounts in
      let std_amount := if (1 <? length amounts)%nat then np_std L amounts else 1%Qc in
      let z_score := if Qc_ltb 0 std_amount
                     then ((amount transaction - mean_amount) / std_amount)%Qc
                     else 0%Qc in
      let one_hour_ago := ts transaction - hour_us in
      let recent_amounts :=
        h_amount <$> filter (fun txn => (one_hour_ago <= h_ts txn)%Z
                                        /\ Qc_ltb 0 (h_amount txn) = true)
                            customer_history in
      (log_amount <- math_log L (amount transaction + 1)%Qc ;;
       Ok {| z_score := z_score; log_amount := log_amount;
             rolling_mean_1h :=
               match recent_amounts with [] => 0%Qc | _ => np_mean recent_amounts end;
             rolling_std_1h :=
               if (1 <? length recent_amounts)%nat then np_std L recent_amounts else 1%Qc;
             rolling_mean_24h := mean_amount;
             rolling_std_24h := std_amount |})%exc
  end.

Record VelocityFeatures : Type := {
  v_txn_count_5m : Z;
  v_txn_count_1h : Z;
  v_txn_count_24h : Z;
  v_distinct_merchants_5m : Z;
  v_distinct_merchants_1h : Z;
  v_distinct_merchants_24h : Z
}.

(** [[txn for txn in customer_history if txn['ts'] >= since]]. *)
Definition recent (since : Z) (customer_history : list HistoryRow) : list HistoryRow :=
  filter (fun txn => (since <= h_ts txn)%Z) customer_history.

(** [len(set(txn['merchant_id'] for txn in rows))]. *)
Definition distinct_merchants (rows : list HistoryRow) : Z :=
  Z.of_nat (size (list_to_set (h_merchant_id <$> rows) : gset string)).

Definition _calculate_velocity_features (transaction : Transaction)
    (customer_history : list HistoryRow) : VelocityFeatures :=
  let five_min_ago := ts transaction - 5 * minute_us in
  let one_hour_ago := ts transaction - 1 * hour_us in
  let one_day_ago := ts transaction - 24 * hour_us in
  let recent_5m := recent five_min_ago customer_history in
  let recent_1h := recent one_hour_ago customer_history in
  let recent_24h := recent one_day_ago customer_history in
  {| v_txn_count_5m := Z.of_nat (length recent_5m);
     v_txn_count_1h := Z.of_nat (length recent_1h);
     v_txn_count_24h := Z.of_nat (length recent_24h);
     v_distinct_merchants_5m := distinct_merchants recent_5m;
     v_distinct_merchants_1h := distinct_merchants recent_1h;
     v_distinct_merchants_24h := distinct_merchants recent_24h |}.

Record GeoFeatures : Type := {
  g_distance_from_home : Qc;
  g_speed_from_last_txn : option Qc;
  g_country_change : bool;
  g_city_change : bool
}.

(** [(a - b).total_seconds() / 3600]. *)
Definition hours_between (a b : Z) : Qc :=
  (Qc_of_Z (a - b) / Qc_of_Z 1000000 / Qc_of_Z 3600)%Qc.

Definition _calculate_geo_features (L : Libs) (transaction : Transaction)
    (customer_history : list HistoryRow) : GeoFeatures :=
  match customer_history with
  | [] =>
      {| g_distance_from_home := 0%Qc; g_speed_from_last_txn := None;
         g_country_change := false; g_city_change := false |}
  | last_txn :: _ =>
      let speed :=
        if truthy_float (lat transaction) && truthy_float (lon transaction)
           && truthy_float (h_lat last_txn) && truthy_float (h_lon last_txn)
        then
          match lat transaction, lon transaction, h_lat last_txn, h_lon last_txn with
          | Some tlat, Some tlon, Some hlat, Some hlon =>
              (* try: ... except: pass *)
              match geodesic_km L (hlat, hlon) (tlat, tlon) with
              | Ok distance =>
                  let time_diff := hours_between (ts transaction) (h_ts last_txn) in
                  Some (if Qc_ltb 0 time_diff then (distance / time_diff)%Qc else 0%Qc)
              | Raise _ => None
              end
          | _, _, _, _ => None
          end
        else None in
      {| g_distance_from_home := 0%Qc;
         g_speed_from_last_txn := speed;
         g_country_change := negb (String.eqb (h_country last_txn) (country transaction));
         g_city_change := negb (String.eqb (h_city last_txn) (city transaction)) |}
  end.

Record TimeFeatures : Type := {
  t_hour_of_day : Z;
  t_day_of_week : Z;
  t_is_holiday : bool;
  t_is_weekend : bool
}.

(** [ts.hour] and [ts.weekday()] (Monday is 0; the epoch was a Thursday). *)
Definition hour (t : Z) : Z := (t / hour_us) mod 24.
Definition weekday (t : Z) : Z := (t / (24 * hour_us) + 3) mod 7.

Definition _calculate_time_features (transaction : Transaction) : TimeFeatures :=
  {| t_hour_of_day := hour (ts transaction);
     t_day_of_week := weekday (ts transaction);
     t_is_holiday := false;
     t_is_weekend := (5 <=? weekday (ts transaction))%Z |}.

Record MerchantFeatures : Type := {
  m_fraud_rate : Qc;
  m_mcc_fraud_rate : Qc;
  m_txn_count : Z
}.

Definition _calculate_merchant_features (transaction : Transaction)
    (merchant_stats : MerchantStats) : MerchantFeatures :=
  {| m_fraud_rate := fraud_rate merchant_stats;
     m_mcc_fraud_rate := dec 1 100;
     m_txn_count := total_transactions merchant_stats |}.

(** [device_change] and [ip_change] are whatever the chained [and]
    evaluates to. *)
Record DeviceFeatures : Type := {
  d_device_rarity : Qc;
  d_ip_rarity : Qc;
  d_device_change : pyval;
  d_ip_change : pyval
}.

Definition changed (last_value current : option string) : pyval :=
  py_and (py_and (PyBool (bool_decide (last_value <> current)))
                 (py_of_str current))
         (py_of_str last_value).

Definition _calculate_device_features (transaction : Transaction)
    (customer_history : list HistoryRow) : DeviceFeatures :=
  match customer_history with
  | [] =>
      {| d_device_rarity := 1%Qc; d_ip_rarity := 1%Qc;
         d_device_change := PyBool false; d_ip_change := PyBool false |}
  | last_txn :: _ =>
      {| d_device_rarity := 1%Qc; d_ip_rarity := 1%Qc;
         d_device_change := changed (h_device_id last_txn) (device_id transaction);
         d_ip_change := changed (h_ip last_txn) (ip transaction) |}
  end.

Record ChannelFeatures : Type := {
  c_card_present : bool;
  c_web : bool;
  c_app : bool
}.

Definition _calculate_channel_features (transaction : Transaction) : ChannelFeatures :=
  {| c_card_present := ChannelType_eqb (channel transaction) CARD_PRESENT;
     c_web := ChannelType_eqb (channel transaction) WEB;
     c_app := ChannelType_eqb (channel transaction) APP |}.

(** [_get_merchant_stats]: the cache first, the database on a miss. *)
Definition _get_merchant_stats (merchant : string) (db : DatabaseManager)
  : ST FeatureEngineer MerchantStats :=
  (self <- st_get ;;
   match merchant_stats_cache self !! merchant with
   | Some stats => st_ret stats
   | None =>
       stats <- st_lift (get_merchant_stats db merchant) ;;
       self <- st_get ;;
       _ <- st_put {| customer_home_locations := customer_home_locations self;
                      merchant_stats_cache :=
                        <[merchant := stats]> (merchant_stats_cache self) |} ;;
       st_ret stats
   end)%st.

(** [FeatureVector(...)]: pydantic validates the keyword arguments; the
    two that the feature engineer may pass with another type than
    their field's are [device_change] and [ip_change]. *)
Definition FeatureVector_new
    (amount_ amount_z_score_ amount_log_ amount_rolling_mean_1h_
     amount_rolling_std_1h_ amount_rolling_mean_24h_ amount_rolling_std_24h_ : Qc)
    (txn_count_5m_ txn_count_1h_ txn_count_24h_ distinct_merchants_5m_
     distinct_merchants_1h_ distinct_merchants_24h_ : Z)
    (distance_from_home_ : Qc) (speed_from_last_txn_ : option Qc)
    (country_change_ city_change_ : bool)
    (hour_of_day_ day_of_week_ : Z) (is_holiday_ is_weekend_ : bool)
    (merchant_fraud_rate_ mcc_fraud_rate_ : Qc) (merchant_txn_count_ : Z)
    (device_rarity_score_ ip_rarity_score_ : Qc)
    (device_change_ ip_change_ : pyval)
    (channel_card_present_ channel_web_ channel_app_ : bool)
    (merchant_id_encoded_ mcc_encoded_ country_encoded_ : Qc)
  : exc FeatureVector :=
  (device_change_ <- pydantic_bool "device_change" device_change_ ;;
   ip_change_ <- pydantic_bool "ip_change" ip_change_ ;;
   Ok {| fv_amount := amount_;
         amount_z_score := amount_z_score_;
         amount_log := amount_log_;
         amount_rolling_mean_1h := amount_rolling_mean_1h_;
         amount_rolling_std_1h := amount_rolling_std_1h_;
         amount_rolling_mean_24h := amount_rolling_mean_24h_;
         amount_rolling_std_24h := amount_rolling_std_24h_;
         txn_count_5m := txn_count_5m_;
         txn_count_1h := txn_count_1h_;
         txn_count_24h := txn_count_24h_;
         distinct_merchants_5m := distinct_merchants_5m_;
         distinct_merchants_1h := distinct_merchants_1h_;
         distinct_merchants_24h := distinct_merchants_24h_;
         distance_from_home := distance_from_home_;
         speed_from_last_txn := speed_from_last_txn_;
         country_change := country_change_;
         city_change := city_change_;
         hour_of_day := hour_of_day_;
         day_of_week := day_of_week_;
         is_holiday := is_holiday_;
         is_weekend := is_weekend_;
         merchant_fraud_rate := merchant_fraud_rate_;
         mcc_fraud_rate := mcc_fraud_rate_;
         merchant_txn_count := merchant_txn_count_;
         device_rarity_score := device_rarity_score_;
         ip_rarity_score := ip_rarity_score_;
         device_change := device_change_;
         ip_change := ip_change_;
         channel_card_present := channel_card_present_;
         channel_web := channel_web_;
         channel_app := channel_app_;
         merchant_id_encoded := merchant_id_encoded_;
         mcc_encoded := mcc_encoded_;
         country_encoded := country_encoded_ |})%exc.

(** The [try] block of [engineer_features] once the history and the
    merchant statistics have been read: the seven groups of features
    and the construction of the vector. *)
Definition assemble_features (L : Libs) (key : HashKey) (transaction : Transaction)
    (customer_history : list HistoryRow) (merchant_stats : MerchantStats)
  : exc FeatureVector :=
  (amount_features <- _calculate_amount_features L transaction customer_history ;;
   let velocity_features := _calculate_velocity_features transaction customer_history in
   let geo_features := _calculate_geo_features L transaction customer_history in
   let time_features := _calculate_time_features transaction in
   let merchant_features := _calculate_merchant_features transaction merchant_stats in
   let device_features := _calculate_device_features transaction customer_history in
   let channel_features := _calculate_channel_features transaction in
   FeatureVector_new
     (amount transaction)
     (z_score amount_features)
     (log_amount amount_features)
     (rolling_mean_1h amount_features)
     (rolling_std_1h amount_features)
     (rolling_mean_24h amount_features)
     (rolling_std_24h amount_features)
     (v_txn_count_5m velocity_features)
     (v_txn_count_1h velocity_features)
     (v_txn_count_24h velocity_features)
     (v_distinct_merchants_5m velocity_features)
     (v_distinct_merchants_1h velocity_features)
     (v_distinct_merchants_24h velocity_features)
     (g_distance_from_home geo_features)
     (g_speed_from_last_txn geo_features)
     (g_country_change geo_features)
     (g_city_change geo_features)
     (t_hour_of_day time_features)
     (t_day_of_week time_features)
     (t_is_holiday time_features)
     (t_is_weekend time_features)
     (m_fraud_rate merchant_features)
     (m_mcc_fraud_rate merchant_features)
     (m_txn_count merchant_features)
     (d_device_rarity device_features)
     (d_ip_rarity device_features)
     (d_device_change device_features)
     (d_ip_change device_features)
     (c_card_present channel_features)
     (c_web channel_features)
     (c_app channel_features)
     (hash_encode key (merchant_id transaction))
     (hash_encode key (mcc transaction))
     (hash_encode key (country transaction)))%exc.

(** [_get_default_features]: every argument has the type of its
    field, so only [math.log] can raise. *)
Definition _get_default_features (L : Libs) (transaction : Transaction)
  : exc FeatureVector :=
  (amount_log_ <- math_log L (amount transaction + 1)%Qc ;;
   Ok {| fv_amount := amount transaction;
         amount_z_score := 0%Qc;
         amount_log := amount_log_;
         amount_rolling_mean_1h := 0%Qc;
         amount_rolling_std_1h := 1%Qc;
         amount_rolling_mean_24h := 0%Qc;
         amount_rolling_std_24h := 1%Qc;
         txn_count_5m := 0;
         txn_count_1h := 0;
         txn_count_24h := 0;
         distinct_merchants_5m := 0;
         distinct_merchants_1h := 0;
         distinct_merchants_24h := 0;
         distance_from_home := 0%Qc;
         speed_from_last_txn := None;
         country_change := false;
         city_change := false;
         hour_of_day := hour (ts transaction);
         day_of_week := weekday (ts transaction);
         is_holiday := false;
         is_weekend := (5 <=? weekday (ts transaction))%Z;
         merchant_fraud_rate := 0%Qc;
         mcc_fraud_rate := dec 1 100;
         merchant_txn_count := 0;
         device_rarity_score := 1%Qc;
         ip_rarity_score := 1%Qc;
         device_change := false;
         ip_change := false;
         channel_card_present := ChannelType_eqb (channel transaction) CARD_PRESENT;
         channel_web := ChannelType_eqb (channel transaction) WEB;
         channel_app := ChannelType_eqb (channel transaction) APP;
         merchant_id_encoded := dec 1 2;
         mcc_encoded := dec 1 2;
         country_encoded := dec 1 2 |})%exc.

(** The [try] block of [engineer_features]. *)
Definition engineer_features_try (L : Libs) (key : HashKey) (utcnow : Z)
    (transaction : Transaction) (db : DatabaseManager)
  : ST FeatureEngineer FeatureVector :=
  (customer_history <-
     st_lift (get_customer_history db utcnow (customer_id transaction) 24) ;;
   merchant_stats <- _get_merchant_stats (merchant_id transaction) db ;;
   st_lift (assemble_features L key transaction customer_history merchant_stats))%st.

(** [engineer_features]: any exception of the [try] block is logged
    and answered with the default features. *)
Definition engineer_features (L : Libs) (key : HashKey) (utcnow : Z)
    (transaction : Transaction) (db : DatabaseManager)
  : ST FeatureEngineer FeatureVector :=
  st_try (engineer_features_try L key utcnow transaction db)
         (fun _ => st_lift (_get_default_features L transaction)).

(* ===================================================================== *)
(** * [backend/pipeline/model_infer.py]                                   *)
(* ===================================================================== *)

(** The three model objects, by what the scorer calls on them: the
    anomaly score of the one row ([score_samples(a)[0]]), the forward
    pass of the network, the scaler's [transform]. *)
Record IsolationForest : Type := { score_samples : list Qc -> exc Qc }.
Record Autoencoder : Type := { forward : list Qc -> exc (list Qc) }.
Record StandardScaler : Type := { transform : list Qc -> exc (list Qc) }.

Record FraudDetector : Type := {
  isolation_forest : option IsolationForest;
  autoencoder : option Autoencoder;
  scaler : option StandardScaler;
  self_threshold : Qc;
  model_loaded : bool
}.

(** [FraudDetector()]. *)
Definition FraudDetector_init : FraudDetector :=
  {| isolation_forest := None; autoencoder := None; scaler := None;
     self_threshold := dec 95 100; model_loaded := false |}.

(** The files under [data/artifacts]: [None] when the path does not
    exist, else what loading the file gives. *)
Record Artifacts : Type := {
  isolation_forest_joblib : option (exc IsolationForest);
  autoencoder_pth : option (exc Autoencoder);
  scaler_joblib : option (exc StandardScaler)
}.

(** The detector and the disk it loads from and saves to. *)
Record Process : Type := { self : FraudDetector; disk : Artifacts }.

(** What the library calls of [load_models] and of the training
    methods do; each can raise.  An outcome is fixed for the length of
    one call of [score]. *)
Record Env : Type := {
  makedirs : exc unit;
  new_isolation_forest : exc IsolationForest;
  fit_isolation_forest : IsolationForest -> exc IsolationForest;
  new_scaler : exc StandardScaler;
  fit_scaler : StandardScaler -> exc StandardScaler;
  new_autoencoder : Z -> exc Autoencoder;
  train_autoencoder : Autoencoder -> exc Autoencoder;
  dump : exc unit
}.

Definition set_isolation_forest (m : IsolationForest) : ST Process unit :=
  fun p => (Ok tt,
            {| self := {| isolation_forest := Some m;
                          autoencoder := autoencoder (self p);
                          scaler := scaler (self p);
                          self_threshold := self_threshold (self p);
                          model_loaded := model_loaded (self p) |};
               disk := disk p |}).

Definition set_autoencoder (m : Autoencoder) : ST Process unit :=
  fun p => (Ok tt,
            {| self := {| isolation_forest := isolation_forest (self p);
                          autoencoder := Some m;
                          scaler := scaler (self p);
                          self_threshold := self_threshold (self p);
                          model_loaded := model_loaded (self p) |};
               disk := disk p |}).

Definition set_scaler (m : StandardScaler) : ST Process unit :=
  fun p => (Ok tt,
            {| self := {| isolation_forest := isolation_forest (self p);
                          autoencoder := autoencoder (self p);
                          scaler := Some m;
                          self_threshold := self_threshold (self p);
                          model_loaded := model_loaded (self p) |};
               disk := disk p |}).

Definition set_model_loaded (b : bool) : ST Process unit :=
  fun p => (Ok tt,
            {| self := {| isolation_forest := isolation_forest (self p);
                          autoencoder := autoencoder (self p);
                          scaler := scaler (self p);
                          self_threshold := self_threshold (self p);
                          model_loaded := b |};
               disk := disk p |}).

(** [joblib.dump(self.isolation_forest, ...)] and its two siblings. *)
Definition dump_isolation_forest (E : Env) : ST Process unit :=
  (_ <- st_lift (dump E) ;;
   fun p => (Ok tt,
             {| self := self p;
                disk := {| isolation_forest_joblib := Ok <$> isolation_forest (self p);
                           autoencoder_pth := autoencoder_pth (disk p);
                           scaler_joblib := scaler_joblib (disk p) |} |}))%st.

Definition dump_autoencoder (E : Env) : ST Process unit :=
  (_ <- st_lift (dump E) ;;
   fun p => (Ok tt,
             {| self := self p;
                disk := {| isolation_forest_joblib := isolation_forest_joblib (disk p);
                           autoencoder_pth := Ok <$> autoencoder (self p);
                           scaler_joblib := scaler_joblib (disk p) |} |}))%st.

Definition dump_scaler (E : Env) : ST Process unit :=
  (_ <- st_lift (dump E) ;;
   fun p => (Ok tt,
             {| self := self p;
                disk := {| isolation_forest_joblib := isolation_forest_joblib (disk p);
                           autoencoder_pth := autoencoder_pth (disk p);
                           scaler_joblib := Ok <$> scaler (self p) |} |}))%st.

Definition _train_isolation_forest (E : Env) : ST Process unit :=
  st_try
    (m <- st_lift (new_isolation_forest E) ;;
     _ <- set_isolation_forest m ;;
     m <- st_lift (fit_isolation_forest E m) ;;
     _ <- set_isolation_forest m ;;
     _ <- st_lift (makedirs E) ;;
     dump_isolation_forest E)%st
    (fun _ =>
       (* a simple fallback model *)
       m <- st_lift (new_isolation_forest E) ;;
       set_isolation_forest m)%st.

Definition _train_autoencoder (E : Env) : ST Process unit :=
  st_try
    (s <- st_lift (new_scaler E) ;;
     _ <- set_scaler s ;;
     s <- st_lift (fit_scaler E s) ;;
     _ <- set_scaler s ;;
     m <- st_lift (new_autoencoder E 34) ;;
     _ <- set_autoencoder m ;;
     m <- st_lift (train_autoencoder E m) ;;
     _ <- set_autoencoder m ;;
     _ <- st_lift (makedirs E) ;;
     _ <- dump_autoencoder E ;;
     dump_scaler E)%st
    (fun _ =>
       (* a simple fallback model *)
       m <- st_lift (new_autoencoder E 35) ;;
       _ <- set_autoencoder m ;;
       s <- st_lift (new_scaler E) ;;
       set_scaler s)%st.

Definition _train_models (E : Env) : ST Process unit :=
  (_ <- _train_isolation_forest E ;;
   _train_autoencoder E)%st.

Definition load_models (E : Env) : ST Process unit :=
  st_try
    (_ <- st_lift (makedirs E) ;;
     p <- st_get ;;
     _ <- match isolation_forest_joblib (disk p) with
          | Some file => m <- st_lift file ;; set_isolation_forest m
          | None => _train_isolation_forest E
          end ;;
     p <- st_get ;;
     _ <- match autoencoder_pth (disk p) with
          | Some file => m <- st_lift file ;; set_autoencoder m
          | None => _train_autoencoder E
          end ;;
     p <- st_get ;;
     _ <- match scaler_joblib (disk p) with
          | Some file => s <- st_lift file ;; set_scaler s
          | None => s <- st_lift (new_scaler E) ;; set_scaler s
          end ;;
     set_model_loaded true)%st
    (fun _ =>
       (* train new models if loading fails *)
       _train_models E).

Definition Qc_of_bool (b : bool) : Qc := if b then 1%Qc else 0%Qc.

(** [_features_to_array]: the 34 fields in their canonical order;
    [speed_from_last_txn or 0]. *)
Definition _features_to_array (f : FeatureVector) : list Qc :=
  [ fv_amount f; amount_z_score f; amount_log f;
    amount_rolling_mean_1h f; amount_rolling_std_1h f;
    amount_rolling_mean_24h f; amount_rolling_std_24h f;
    Qc_of_Z (txn_count_5m f); Qc_of_Z (txn_count_1h f); Qc_of_Z (txn_count_24h f);
    Qc_of_Z (distinct_merchants_5m f); Qc_of_Z (distinct_merchants_1h f);
    Qc_of_Z (distinct_merchants_24h f);
    distance_from_home f; float_or_zero (speed_from_last_txn f);
    Qc_of_bool (country_change f); Qc_of_bool (city_change f);
    Qc_of_Z (hour_of_day f); Qc_of_Z (day_of_week f);
    Qc_of_bool (is_holiday f); Qc_of_bool (is_weekend f);
    merchant_fraud_rate f; mcc_fraud_rate f; Qc_of_Z (merchant_txn_count f);
    device_rarity_score f; ip_rarity_score f;
    Qc_of_bool (device_change f); Qc_of_bool (ip_change f);
    Qc_of_bool (channel_card_present f); Qc_of_bool (channel_web f);
    Qc_of_bool (channel_app f);
    merchant_id_encoded f; mcc_encoded f; country_encoded f ].

(** [_isolation_forest_score]: the negated anomaly score clamped to
    [0, 1]; [0.5] without a model or when the model raises. *)
Definition _isolation_forest_score (d : FraudDetector) (feature_array : list Qc) : Qc :=
  match isolation_forest d with
  | None => dec 1 2
  | Some forest =>
      match score_samples forest feature_array with
      | Ok s => py_max 0 (py_min 1 (- s))
      | Raise _ => dec 1 2
      end
  end.

(** [nn.MSELoss()(reconstructed, X)]: the mean of the squared
    differences; tensors of different sizes are refused, and the mean
    over no element is not a number ([None] here). *)
Definition mse_loss (reconstructed X : list Qc) : exc (option Qc) :=
  if negb (length reconstructed =? length X)%nat
  then Raise (RuntimeError "size mismatch")
  else match X with
       | [] => Ok None
       | _ => Ok (Some (np_mean (zip_with (fun r x => ((r - x) * (r - x))%Qc)
                                          reconstructed X)))
       end.

(** [_autoencoder_score]: ten times the reconstruction error, capped
    at 1; [0.5] without a model or a scaler, or when either raises. *)
Definition _autoencoder_score (d : FraudDetector) (feature_array : list Qc) : Qc :=
  match autoencoder d, scaler d with
  | Some net, Some sc =>
      match (normalized_features <- transform sc feature_array ;;
             reconstructed <- forward net normalized_features ;;
             mse_loss reconstructed normalized_features)%exc with
      | Ok (Some mse) => py_min 1 (mse * dec 10 1)
      | Ok None => 1%Qc            (* min(1.0, nan) is 1.0 *)
      | Raise _ => dec 1 2
      end
  | _, _ => dec 1 2
  end.

Definition Qc_abs (x : Qc) : Qc := if Qc_ltb x 0 then (- x)%Qc else x.

Definition _generate_explanation (f : FeatureVector)
    (ensemble_score if_score ae_score : Qc) : Explanation :=
  let feature_contributions :=
    [ ("amount_z_score", Qc_abs (amount_z_score f));
      ("txn_count_1h", (Qc_of_Z (txn_count_1h f) / dec 10 1)%Qc);
      ("distance_from_home", (distance_from_home f / dec 100 1)%Qc);
      ("merchant_fraud_rate", merchant_fraud_rate f);
      ("device_rarity_score", device_rarity_score f);
      ("country_change", Qc_of_bool (country_change f)) ] in
  let sorted_features :=
    sort_desc (fun a b => Qc_leb (snd a) (snd b)) feature_contributions in
  let top_features := take 3 sorted_features in
  let counterfactuals :=
    ((if Qc_ltb (dec 2 1) (amount_z_score f) then ["Reduce transaction amount"] else [])
     ++ (if (5 <? txn_count_1h f)%Z then ["Reduce transaction frequency"] else [])
     ++ (if country_change f then ["Use card in home country"] else []))%list in
  Explained ensemble_score if_score ae_score top_features counterfactuals
    (MkRiskFactors
       (Qc_ltb (dec 2 1) (amount_z_score f))
       (5 <? txn_count_1h f)%Z
       (country_change f)
       (Qc_ltb (dec 1 10) (merchant_fraud_rate f))
       (Qc_ltb (dec 8 10) (device_rarity_score f))).

(** The ensemble of the two sub-scores. *)
Definition ensemble (if_score ae_score : Qc) : Qc :=
  (dec 4 10 * if_score + dec 6 10 * ae_score)%Qc.

(** The [try] block of [score]. *)
Definition FraudDetector_score_try (E : Env) (features_ : FeatureVector) : ST Process ScoreResult :=
  (p <- st_get ;;
   _ <- (if model_loaded (self p) then st_ret tt else load_models E) ;;
   let feature_array := _features_to_array features_ in
   p <- st_get ;;
   let if_score := _isolation_forest_score (self p) feature_array in
   let ae_score := _autoencoder_score (self p) feature_array in
   let ensemble_score := ensemble if_score ae_score in
   let threshold := self_threshold (self p) in
   let is_alert := Qc_ltb threshold ensemble_score in
   let explanation := _generate_explanation features_ ensemble_score if_score ae_score in
   st_lift (ScoreResult_new ensemble_score threshold is_alert "ensemble" explanation
                            (py_min (ensemble_score * dec 12 10) 1)))%st.

(** [score]: any exception of the [try] block is logged and answered
    with the default score. *)
Definition FraudDetector_score (E : Env) (features_ : FeatureVector) : ST Process ScoreResult :=
  st_try (FraudDetector_score_try E features_)
         (fun _ =>
            p <- st_get ;;
            st_lift (ScoreResult_new (dec 1 2) (self_threshold (self p)) false "fallback"
                                     (ExplainError "Model scoring failed") 0%Qc))%st.

(* ===================================================================== *)
(** * Concrete inputs                                                     *)
(* ===================================================================== *)

(** Inputs on which the definitions above are evaluated below. *)
Module Sample.

(** Numeric libraries for evaluation.  The geodesic distance of a
    point to itself is zero; between different points it is taken to
    be the 5570 km from New York to London.  The values of [ln] and
    [sqrt] play no part in what is evaluated. *)
Definition libs : Libs :=
  {| ln := fun x => x;
     sqrt := fun x => x;
     geodesic_km := fun a b => Ok (if decide (a = b) then 0%Qc else dec 5570 1) |}.

Definition new_york : option Qc * option Qc :=
  (Some (dec 407128 10000), Some (dec (-740060) 10000)).
Definition london : option Qc * option Qc :=
  (Some (dec 515074 10000), Some (dec (-1278) 10000)).

(** An earlier transaction of the customer, and the one being scored
    ten minutes later from another device. *)
Definition earlier : Transaction :=
  {| txn_id := "txn-1"; ts := 1700000000000000; amount := dec 80 1;
     merchant_cat := "retail"; merchant_id := "TEST_MERCH"; mcc := "5411";
     currency := "USD"; country := "US"; city := "New York";
     lat := fst new_york; lon := snd new_york;
     channel := CARD_PRESENT; card_id := "TEST_CARD"; customer_id := "TEST_CUST";
     device_id := Some "dev-A"; ip := Some "192.168.1.1"; is_fraud := None |}.

Definition current : Transaction :=
  {| txn_id := "txn-2"; ts := 1700000600000000; amount := dec 100 1;
     merchant_cat := "retail"; merchant_id := "TEST_MERCH"; mcc := "5411";
     currency := "USD"; country := "US"; city := "New York";
     lat := fst new_york; lon := snd new_york;
     channel := CARD_PRESENT; card_id := "TEST_CARD"; customer_id := "TEST_CUST";
     device_id := Some "dev-B"; ip := Some "192.168.1.1"; is_fraud := None |}.

(** The same purchase made from the device of the earlier one. *)
Definition same_device : Transaction :=
  {| txn_id := "txn-3"; ts := 1700000600000000; amount := dec 100 1;
     merchant_cat := "retail"; merchant_id := "TEST_MERCH"; mcc := "5411";
     currency := "USD"; country := "UK"; city := "London";
     lat := fst london; lon := snd london;
     channel := WEB; card_id := "TEST_CARD"; customer_id := "TEST_CUST";
     device_id := Some "dev-A"; ip := Some "192.168.1.1"; is_fraud := None |}.

(** A second purchase at the very place and instant of [earlier]. *)
Definition simultaneous : Transaction :=
  {| txn_id := "txn-4"; ts := 1700000000000000; amount := dec 20 1;
     merchant_cat := "retail"; merchant_id := "TEST_MERCH"; mcc := "5411";
     currency := "USD"; country := "US"; city := "New York";
     lat := fst new_york; lon := snd new_york;
     channel := CARD_PRESENT; card_id := "TEST_CARD"; customer_id := "TEST_CUST";
     device_id := Some "dev-A"; ip := Some "192.168.1.1"; is_fraud := None |}.

Definition utcnow : Z := 1700000600000000.

Definition empty_db : Database :=
  {| transactions := ∅; features := ∅; scores := ∅ |}.
Definition db_with_earlier : Database :=
  {| transactions := {[ "txn-1" := earlier ]}; features := ∅; scores := ∅ |}.

Definition history : list HistoryRow := [history_row db_with_earlier earlier].

Definition stats : MerchantStats :=
  {| total_transactions := 1; avg_amount := dec 80 1;
     fraud_count := 0; fraud_rate := 0%Qc |}.

(** A feature vector to score. *)
Definition vector : FeatureVector :=
  {| fv_amount := dec 100 1; amount_z_score := dec 5 2; amount_log := dec 46 10;
     amount_rolling_mean_1h := dec 80 1; amount_rolling_std_1h := 1%Qc;
     amount_rolling_mean_24h := dec 80 1; amount_rolling_std_24h := 1%Qc;
     txn_count_5m := 0; txn_count_1h := 1; txn_count_24h := 1;
     distinct_merchants_5m := 0; distinct_merchants_1h := 1;
     distinct_merchants_24h := 1;
     distance_from_home := 0%Qc; speed_from_last_txn := None;
     country_change := true; city_change := true;
     hour_of_day := 22; day_of_week := 1; is_holiday := false; is_weekend := false;
     merchant_fraud_rate := 0%Qc; mcc_fraud_rate := dec 1 100;
     merchant_txn_count := 1;
     device_rarity_score := 1%Qc; ip_rarity_score := 1%Qc;
     device_change := false; ip_change := false;
     channel_card_present := false; channel_web := true; channel_app := false;
     merchant_id_encoded := dec 702 1000; mcc_encoded := dec 607 1000;
     country_encoded := dec 745 1000 |}.

(** The default result of [score]. *)
Definition default_result : ScoreResult :=
  {| score := dec 1 2; threshold := dec 95 100; is_alert := false;
     model_used := "fallback";
     explanation := ExplainError "Model scoring failed";
     confidence := 0%Qc |}.

(** A forest that finds every row mildly anomalous, a network that
    reconstructs its input up to a tenth in the first coordinate, and
    a scaler that leaves its input alone. *)
Definition forest : IsolationForest :=
  {| score_samples := fun _ => Ok (dec (-45) 100) |}.
Definition net : Autoencoder :=
  {| forward := fun x => Ok match x with
                            | [] => []
                            | a :: r => (a + dec 1 10)%Qc :: r
                            end |}.
Definition std_scaler : StandardScaler := {| transform := fun x => Ok x |}.

Definition no_artifacts : Artifacts :=
  {| isolation_forest_joblib := None; autoencoder_pth := None;
     scaler_joblib := None |}.

(** A fresh detector in a process that has not loaded its models. *)
Definition fresh : Process :=
  {| self := FraudDetector_init; disk := no_artifacts |}.

(** Every library call succeeds. *)
Definition good_env : Env :=
  {| makedirs := Ok tt;
     new_isolation_forest := Ok {| score_samples := fun _ => Raise NotFittedError |};
     fit_isolation_forest := fun _ => Ok forest;
     new_scaler := Ok {| transform := fun _ => Raise NotFittedError |};
     fit_scaler := fun _ => Ok std_scaler;
     new_autoencoder := fun _ => Ok net;
     train_autoencoder := fun m => Ok m;
     dump := Ok tt |}.

(** Fitting the forest fails, so that the detector keeps the unfitted
    fallback forest. *)
Definition unfit_env : Env :=
  {| makedirs := Ok tt;
     new_isolation_forest := Ok {| score_samples := fun _ => Raise NotFittedError |};
     fit_isolation_forest := fun _ => Raise (ValueError "fit");
     new_scaler := Ok {| transform := fun _ => Raise NotFittedError |};
     fit_scaler := fun _ => Ok std_scaler;
     new_autoencoder := fun _ => Ok net;
     train_autoencoder := fun m => Ok m;
     dump := Ok tt |}.

(** The artifact directory cannot be created, and building the
    fallback network fails as well. *)
Definition bad_env : Env :=
  {| makedirs := Raise OSError;
     new_isolation_forest := Ok {| score_samples := fun _ => Raise NotFittedError |};
     fit_isolation_forest := fun _ => Ok forest;
     new_scaler := Ok {| transform := fun _ => Raise NotFittedError |};
     fit_scaler := fun _ => Ok std_scaler;
     new_autoencoder := fun d => if (d =? 35)%Z
                                 then Raise (RuntimeError "out of memory")
                                 else Ok net;
     train_autoencoder := fun m => Ok m;
     dump := Ok tt |}.

End Sample.

(* ===================================================================== *)
(** * Vocabulary of the properties                                        *)
(* ===================================================================== *)

(** The chain of inequalities between the six velocity features. *)
Definition velocity_monotone (count_5m count_1h count_24h
                              merchants_5m merchants_1h merchants_24h : Z) : Prop :=
  (count_5m <= count_1h /\ count_1h <= count_24h
   /\ merchants_5m <= merchants_1h /\ merchants_1h <= merchants_24h
   /\ merchants_5m <= count_5m /\ merchants_1h <= count_1h
   /\ merchants_24h <= count_24h)%Z.

(** The fields derived from the history and the merchant statistics
    have the values they take for an empty history and a merchant
    without statistics. *)
Definition empty_history_defaults (fv : FeatureVector) : Prop :=
  amount_z_score fv = 0%Qc
  /\ amount_rolling_mean_1h fv = 0%Qc /\ amount_rolling_std_1h fv = 1%Qc
  /\ amount_rolling_mean_24h fv = 0%Qc /\ amount_rolling_std_24h fv = 1%Qc
  /\ txn_count_5m fv = 0 /\ txn_count_1h fv = 0 /\ txn_count_24h fv = 0
  /\ distinct_merchants_5m fv = 0 /\ distinct_merchants_1h fv = 0
  /\ distinct_merchants_24h fv = 0
  /\ distance_from_home fv = 0%Qc /\ speed_from_last_txn fv = None
  /\ country_change fv = false /\ city_change fv = false
  /\ merchant_fraud_rate fv = 0%Qc /\ merchant_txn_count fv = 0
  /\ device_change fv = false /\ ip_change fv = false.

(** The fields that only depend on the transaction are computed from it. *)
Definition transaction_fields (L : Libs) (t : Transaction) (fv : FeatureVector) : Prop :=
  fv_amount fv = amount t
  /\ amount_log fv = ln L (amount t + 1)%Qc
  /\ hour_of_day fv = hour (ts t) /\ day_of_week fv = weekday (ts t)
  /\ is_weekend fv = (5 <=? weekday (ts t))%Z
  /\ channel_card_present fv = ChannelType_eqb (channel t) CARD_PRESENT
  /\ channel_web fv = ChannelType_eqb (channel t) WEB
  /\ channel_app fv = ChannelType_eqb (channel t) APP.





(** A method that leaves [self.threshold] as it found it, whether it
    returns or raises. *)
Definition keeps_threshold {A} (c : ST Process A) : Prop :=
  forall p, self_threshold (self (snd (c p))) = self_threshold (self p).

(** The states a detector process can be in: a detector as
    constructed, over any artifact directory, then any number of calls
    of [load_models] (the application awaits it at startup) and of
    [score]. *)
Inductive reachable : Process -> Prop :=
| reachable_init (d : Artifacts) :
    reachable {| self := FraudDetector_init; disk := d |}
| reachable_load (E : Env) (p : Process) :
    reachable p -> reachable (snd (load_models E p))
| reachable_score (E : Env) (f : FeatureVector) (p : Process) :
    reachable p -> reachable (snd (FraudDetector_score E f p)).

(** An order given by a boolean test that is total and transitive. *)
Definition leb_total {A} (leb : A -> A -> bool) : Prop :=
  forall a b, leb a b = false -> leb b a = true.
Definition leb_trans {A} (leb : A -> A -> bool) : Prop :=
  forall a b c, leb a b = true -> leb b c = true -> leb a c = true.

(** The channel a triple of channel flags stands for. *)
Definition channel_of_flags (card_present web app : bool) : ChannelType :=
  if card_present then CARD_PRESENT
  else if web then WEB
  else if app then APP
  else PHONE.

(** The six contributions [_generate_explanation] ranks, in the order
    of the dictionary. *)
Definition feature_contributions (f : FeatureVector) : list (string * Qc) :=
  [ ("amount_z_score", Qc_abs (amount_z_score f));
    ("txn_count_1h", (Qc_of_Z (txn_count_1h f) / dec 10 1)%Qc);
    ("distance_from_home", (distance_from_home f / dec 100 1)%Qc);
    ("merchant_fraud_rate", merchant_fraud_rate f);
    ("device_rarity_score", device_rarity_score f);
    ("country_change", Qc_of_bool (country_change f)) ].

(** One contribution is ranked no lower than another. *)
Definition ranks_before (x y : string * Qc) : Prop := (snd y <= snd x)%Qc.

(** A property of the process that a method never destroys, and one
    that holds whenever the method returns. *)
Definition preserves {A} (I : Process -> Prop) (c : ST Process A) : Prop :=
  forall p, I p -> I (snd (c p)).
Definition establishes {A} (Q : Process -> Prop) (c : ST Process A) : Prop :=
  forall p a p', c p = (Ok a, p') -> Q p'.

Definition has_isolation_forest (p : Process) : Prop :=
  is_Some (isolation_forest (self p)).
Definition has_autoencoder (p : Process) : Prop := is_Some (autoencoder (self p)).
Definition has_scaler (p : Process) : Prop := is_Some (scaler (self p)).
Definition loaded_is (b : bool) (p : Process) : Prop := model_loaded (self p) = b.
Definition autoencoder_pth_is (x : option (exc Autoencoder)) (p : Process) : Prop :=
  autoencoder_pth (disk p) = x.
Definition isolation_forest_joblib_is (x : option (exc IsolationForest))
    (p : Process) : Prop :=
  isolation_forest_joblib (disk p) = x.

(** [health_check] of the detector. *)
Definition FraudDetector_health_check (d : FraudDetector) : bool :=
  model_loaded d && bool_decide (isolation_forest d <> None)
  && bool_decide (autoencoder d <> None).

(** A forest and a network that find every row anomalous: the forest
    answers with the anomaly score -1, the network is off by 2 in the
    first coordinate; and a library whose training yields them. *)
Module Alarm.

Definition forest : IsolationForest :=
  {| score_samples := fun _ => Ok (dec (-1) 1) |}.

Definition net : Autoencoder :=
  {| forward := fun x => Ok match x with
                            | [] => []
                            | a :: r => (a + dec 2 1)%Qc :: r
                            end |}.

Definition env : Env :=
  {| makedirs := Ok tt;
     new_isolation_forest := Ok {| score_samples := fun _ => Raise NotFittedError |};
     fit_isolation_forest := fun _ => Ok forest;
     new_scaler := Ok {| transform := fun _ => Raise NotFittedError |};
     fit_scaler := fun _ => Ok Sample.std_scaler;
     new_autoencoder := fun _ => Ok net;
     train_autoencoder := fun m => Ok m;
     dump := Ok tt |}.

End Alarm.


(* ===================================================================== *)
(** * [backend/utils/db.py]: the alerts                                   *)
(* ===================================================================== *)

(** [AlertStatus], a [str] enumeration, and its values. *)
Inductive AlertStatus : Type := NEW | REVIEWING | RESOLVED | FALSE_POSITIVE.

Definition AlertStatus_value (s : AlertStatus) : string :=
  match s with
  | NEW => "new"
  | REVIEWING => "reviewing"
  | RESOLVED => "resolved"
  | FALSE_POSITIVE => "false_positive"
  end.

(** [AlertStatus(value)]. *)
Definition AlertStatus_of_value (v : string) : exc AlertStatus :=
  if String.eqb v "new" then Ok NEW
  else if String.eqb v "reviewing" then Ok REVIEWING
  else if String.eqb v "resolved" then Ok RESOLVED
  else if String.eqb v "false_positive" then Ok FALSE_POSITIVE
  else Raise (ValueError "not a valid AlertStatus").

(** The dictionary an alert carries as its explanation: that of a
    score result, or the empty one. *)
Inductive AlertExplanation : Type :=
| EmptyDict
| OfScore (explanation : Explanation).

(** The pydantic model [Alert]. *)
Record Alert : Type := {
  alert_id : string;
  alert_txn_id : string;
  alert_score : Qc;
  timestamp : Z;
  status : AlertStatus;
  alert_explanation : AlertExplanation;
  analyst_notes : option string;
  resolution : option string
}.

(** A row of the relation [alerts], column by column. *)
Record AlertRow : Type := {
  row_alert_id : string;              (* VARCHAR(36) PRIMARY KEY *)
  row_txn_id : string;                (* VARCHAR(36) REFERENCES transactions *)
  row_score : Qc;                     (* DECIMAL(10,4) NOT NULL *)
  row_timestamp : Z;                  (* TIMESTAMP NOT NULL *)
  row_status : string;                (* VARCHAR(20) NOT NULL *)
  row_explanation : option AlertExplanation; (* JSONB *)
  row_analyst_notes : option string;  (* TEXT *)
  row_resolution : option string      (* TEXT *)
}.

(** The number of characters of a string in UTF-8, and its split after
    [n] characters. *)
Definition is_continuation (c : ascii) : bool :=
  (128 <=? N_of_ascii c)%N && (N_of_ascii c <? 192)%N.

Fixpoint utf8_length (s : string) : nat :=
  match s with
  | EmptyString => 0
  | String c r => ((if is_continuation c then 0 else 1) + utf8_length r)%nat
  end.

Fixpoint utf8_split (n : nat) (s : string) : string * string :=
  match s with
  | EmptyString => (EmptyString, EmptyString)
  | String c r =>
      if is_continuation c
      then let (p, q) := utf8_split n r in (String c p, q)
      else match n with
           | O => (EmptyString, s)
           | S m => let (p, q) := utf8_split m r in (String c p, q)
           end
  end.

Fixpoint all_spaces (s : string) : bool :=
  match s with
  | EmptyString => true
  | String c r => Ascii.eqb c " " && all_spaces r
  end.

Fixpoint has_nul (s : string) : bool :=
  match s with
  | EmptyString => false
  | String c r => Ascii.eqb c Ascii.zero || has_nul r
  end.

(** Storing a string into a [VARCHAR(n)] column: PostgreSQL has no
    text with a NUL character, refuses a value that is too long, and
    cuts it when the excess is spaces only. *)
Definition varchar (n : nat) (s : string) : exc string :=
  if has_nul s then Raise (RuntimeError "CharacterNotInRepertoireError")
  else let (p, q) := utf8_split n s in
       match q with
       | EmptyString => Ok s
       | _ => if all_spaces q then Ok p
              else Raise (RuntimeError "StringDataRightTruncationError")
       end.

(** Storing a number into a [DECIMAL(10,4)] column: it is rounded to
    four decimals, ties away from zero, and must then stay below
    [10^6] in absolute value. *)
Definition round_half_away (q : Q) : Z :=
  Z.sgn (Qnum q) * ((2 * Z.abs (Qnum q) + Z.pos (Qden q)) / (2 * Z.pos (Qden q))).

Definition decimal_10_4 (x : Qc) : exc Qc :=
  let units := round_half_away (this x * 10000) in
  if (Z.abs units <? 10000000000)%Z then Ok (dec units 10000)
  else Raise (RuntimeError "NumericValueOutOfRangeError").

(** The manager and the relation [alerts] of the database its pool
    connects to. *)
Record Storage : Type := {
  manager : DatabaseManager;
  alerts : gmap string AlertRow
}.

(** [store_alert]: [INSERT ... ON CONFLICT (alert_id) DO NOTHING].  The
    values are first coerced to their columns; the foreign key is
    checked for a row that is inserted.  [analyst_notes] and
    [resolution] are not among the columns written. *)
Definition store_alert (alert : Alert) : ST Storage unit :=
  fun st =>
    match (db <- acquire (manager st) ;;
           id <- varchar 36 (alert_id alert) ;;
           txn <- varchar 36 (alert_txn_id alert) ;;
           score_ <- decimal_10_4 (alert_score alert) ;;
           status_ <- varchar 20 (AlertStatus_value (status alert)) ;;
           let row := {| row_alert_id := id; row_txn_id := txn;
                         row_score := score_;
                         row_timestamp := timestamp alert;
                         row_status := status_;
                         row_explanation := Some (alert_explanation alert);
                         row_analyst_notes := None;
                         row_resolution := None |} in
           match alerts st !! id with
           | Some _ => Ok (alerts st)
           | None =>
               match transactions db !! txn with
               | Some _ => Ok (<[id := row]> (alerts st))
               | None => Raise (RuntimeError "ForeignKeyViolationError")
               end
           end)%exc with
    | Ok alerts' => (Ok tt, {| manager := manager st; alerts := alerts' |})
    | Raise e => (Raise e, st)
    end.

(** The [Alert] the two readers build from a row. *)
Definition Alert_of_row (row : AlertRow) : exc Alert :=
  (status_ <- AlertStatus_of_value (row_status row) ;;
   Ok {| alert_id := row_alert_id row;
         alert_txn_id := row_txn_id row;
         alert_score := row_score row;
         timestamp := row_timestamp row;
         status := status_;
         alert_explanation := default EmptyDict (row_explanation row);
         analyst_notes := row_analyst_notes row;
         resolution := row_resolution row |})%exc.

(** A text parameter of a query. *)
Definition text_param (s : string) : exc string :=
  if has_nul s then Raise (RuntimeError "CharacterNotInRepertoireError") else Ok s.

(** An [int] passed for [LIMIT] or [OFFSET]: a 64-bit integer that
    PostgreSQL refuses when it is negative. *)
Definition row_count_param (n : Z) : exc nat :=
  if (n <? - 2 ^ 63)%Z || (2 ^ 63 <=? n)%Z then Raise (RuntimeError "OverflowError")
  else if (n <? 0)%Z then Raise (RuntimeError "InvalidRowCountError")
  else Ok (Z.to_nat n).

Fixpoint exc_mapM {A B} (f : A -> exc B) (l : list A) : exc (list B) :=
  match l with
  | [] => Ok []
  | x :: r => (y <- f x ;; ys <- exc_mapM f r ;; Ok (y :: ys))%exc
  end.

(** The rows [get_alerts] and [get_alert_count] select. *)
Definition alerts_since (st : Storage) (since : Z) : list AlertRow :=
  filter (fun row => (since <= row_timestamp row)%Z)
         (snd <$> map_to_list (alerts st)).

(** [get_alerts]: the alerts since [since], most recent first, [limit]
    of them from the one at [offset]. *)
Definition get_alerts (st : Storage) (since limit offset : Z) : exc (list Alert) :=
  (_ <- acquire (manager st) ;;
   limit_ <- row_count_param limit ;;
   offset_ <- row_count_param offset ;;
   let rows := sort_desc (fun a b => (row_timestamp a <=? row_timestamp b)%Z)
                         (alerts_since st since) in
   exc_mapM Alert_of_row (take limit_ (drop offset_ rows)))%exc.

Definition get_alert_count (st : Storage) (since : Z) : exc Z :=
  (_ <- acquire (manager st) ;;
   Ok (Z.of_nat (length (alerts_since st since))))%exc.

(** [get_alert]: the alert under an identifier, or [None]. *)
Definition get_alert (st : Storage) (id : string) : exc (option Alert) :=
  (_ <- acquire (manager st) ;;
   id <- text_param id ;;
   match alerts st !! id with
   | None => Ok None
   | Some row => alert <- Alert_of_row row ;; Ok (Some alert)
   end)%exc.

(** [store_transaction] next to the alerts. *)
Definition store_transaction_in (transaction : Transaction)
    (features_ : FeatureVector) (score_result : ScoreResult) : ST Storage unit :=
  fun st =>
    let (r, dm) := store_transaction transaction features_ score_result (manager st) in
    (r, {| manager := dm; alerts := alerts st |}).

(** The stores the application can build: the empty one, under any
    connection state, then any number of stored transactions and
    alerts. *)
Inductive storable : Storage -> Prop :=
| storable_empty (dm : DatabaseManager) :
    storable {| manager := dm; alerts := ∅ |}
| storable_transaction (t : Transaction) (f : FeatureVector) (s : ScoreResult)
    (st : Storage) :
    storable st -> storable (snd (store_transaction_in t f s st))
| storable_alert (a : Alert) (st : Storage) :
    storable st -> storable (snd (store_alert a st)).

(** What every row of [alerts] written by the application looks like:
    it sits under its own identifier, its status is one of the four,
    it has an explanation and no notes, and its transaction is
    stored. *)
Definition alert_row_ok (st : Storage) (k : string) (row : AlertRow) : Prop :=
  row_alert_id row = k
  /\ (exists s, row_status row = AlertStatus_value s)
  /\ is_Some (row_explanation row)
  /\ row_analyst_notes row = None /\ row_resolution row = None
  /\ exists db, pool (manager st) = Some db
                /\ is_Some (transactions db !! row_txn_id row).

(** An alert on the stored transaction of the samples, with a score
    of more than four decimals and a note of the analyst; and a store
    that holds this transaction and no alert. *)
Module Desk.

Definition alert : Alert :=
  {| alert_id := "alert-1"; alert_txn_id := "txn-1";
     alert_score := dec 973162 1000000; timestamp := Sample.utcnow;
     status := REVIEWING;
     alert_explanation := OfScore (ExplainError "Model scoring failed");
     analyst_notes := Some "called the customer"; resolution := None |}.

Definition storage : Storage :=
  {| manager := {| pool := Some Sample.db_with_earlier |}; alerts := ∅ |}.

End Desk.

(* ===================================================================== *)
(** * [backend/utils/kafka.py]                                            *)
(* ===================================================================== *)

(** Two exceptions of the interpreter, by name. *)
Definition TypeError : exception := RuntimeError "TypeError".
Definition AttributeError : exception := RuntimeError "AttributeError".

(** A call [f(k1=..., k2=...)] of a function whose parameters are
    [params]: a keyword that names no parameter is a [TypeError]. *)
Definition bind_keywords (params keywords : list string) : exc unit :=
  if forallb (fun k => str_in k params) keywords then Ok tt else Raise TypeError.

(** [getattr(obj, name)] on an instance of a class with the attributes
    [attributes]. *)
Definition getattr (attributes : list string) (name : string) : exc unit :=
  if str_in name attributes then Ok tt else Raise AttributeError.

(** The module imports [KafkaProducer] and [KafkaConsumer] from the
    package [kafka] and then defines two classes of these names: in
    the module, and so in the bodies of its methods, the names denote
    the classes defined here.  An instance of the first holds the
    servers and, once connected, what [KafkaProducer(...)] returned. *)
#[warnings="-register-all"]
Inductive KafkaProducer : Type :=
  MkKafkaProducer (bootstrap_servers : string) (producer : option KafkaProducer).

Definition bootstrap_servers (self : KafkaProducer) : string :=
  match self with MkKafkaProducer s _ => s end.
Definition producer (self : KafkaProducer) : option KafkaProducer :=
  match self with MkKafkaProducer _ p => p end.

(** [bootstrap_servers or os.getenv("KAFKA_BOOTSTRAP_SERVERS",
    "localhost:9092")]; [environ] is the value of the variable. *)
Definition servers_or_default (environ : option string)
    (bootstrap_servers_ : option string) : string :=
  if truthy_str bootstrap_servers_ then default "" bootstrap_servers_
  else default "localhost:9092" environ.

(** A call [KafkaProducer(...)] with the keywords [keywords]: the
    constructor defined in the module takes [bootstrap_servers] and
    nothing else. *)
Definition KafkaProducer_new (environ : option string) (keywords : list string)
    (bootstrap_servers_ : option string) : exc KafkaProducer :=
  (_ <- bind_keywords ["bootstrap_servers"] keywords ;;
   Ok (MkKafkaProducer (servers_or_default environ bootstrap_servers_) None))%exc.

Definition KafkaProducer_attributes : list string :=
  ["bootstrap_servers"; "producer"; "connect"; "close"; "send_transaction";
   "health_check"].

(** [connect]: the exception of the constructor is logged and raised
    again. *)
Definition KafkaProducer_connect (environ : option string) : ST KafkaProducer unit :=
  fun self =>
    match KafkaProducer_new environ
            ["bootstrap_servers"; "value_serializer"; "key_serializer"; "acks";
             "retries"]
            (Some (bootstrap_servers self)) with
    | Ok p => (Ok tt, MkKafkaProducer (bootstrap_servers self) (Some p))
    | Raise e => (Raise e, self)
    end.

(** [send_transaction]: connects first when there is no producer, then
    calls [self.producer.send]; only a [KafkaError] is handled. *)
Definition KafkaProducer_send_transaction (environ : option string)
  : ST KafkaProducer unit :=
  (self <- st_get ;;
   _ <- match producer self with
        | None => KafkaProducer_connect environ
        | Some _ => st_ret tt
        end ;;
   st_lift (getattr KafkaProducer_attributes "send"))%st.

(** [health_check]: any exception is logged and answered [False]. *)
Definition KafkaProducer_health_check (environ : option string)
  : ST KafkaProducer bool :=
  st_try
    (self <- st_get ;;
     _ <- match producer self with
          | None => KafkaProducer_connect environ
          | Some _ => st_ret tt
          end ;;
     _ <- st_lift (getattr KafkaProducer_attributes "partitions_for") ;;
     st_ret true)%st
    (fun _ => st_ret false).


(* ===================================================================== *)
(** * [backend/app.py]                                                    *)
(* ===================================================================== *)

(** [ScoreRequest], which FastAPI validates before the handler runs:
    [amount > 0] and a [currency] of at most three characters. *)
Record ScoreRequest : Type := {
  req_amount : Qc;
  req_merchant_cat : string;
  req_merchant_id : string;
  req_mcc : string;
  req_currency : string;
  req_country : string;
  req_city : string;
  req_lat : option Qc;
  req_lon : option Qc;
  req_channel : ChannelType;
  req_card_id : string;
  req_customer_id : string;
  req_device_id : option string;
  req_ip : option string
}.

Definition ScoreRequest_valid (r : ScoreRequest) : bool :=
  Qc_ltb 0 (req_amount r) && (utf8_length (req_currency r) <=? 3)%nat.

(** [Transaction(...)]: the checks of the fields and of the three
    validators. *)
Definition Transaction_new (t : Transaction) : exc Transaction :=
  if negb (Qc_ltb 0 (amount t)) then Raise (ValidationError "amount")
  else if negb (utf8_length (currency t) <=? 3)%nat
       then Raise (ValidationError "currency")
  else if negb (in_range (dec (-90) 1) (dec 90 1) (lat t))
       then Raise (ValidationError "lat")
  else if negb (in_range (dec (-180) 1) (dec 180 1) (lon t))
       then Raise (ValidationError "lon")
  else Ok t.

Record ScoreResponse : Type := {
  resp_txn_id : string;
  resp_score : Qc;
  resp_threshold : Qc;
  resp_is_alert : bool;
  resp_model_used : string;
  resp_explanation : Explanation
}.

(** [ScoreResponse(...)]: [score] and [threshold] within [0, 1]. *)
Definition ScoreResponse_new (txn_id_ : string) (r : ScoreResult) : exc ScoreResponse :=
  if negb (unit_interval (score r)) then Raise (ValidationError "score")
  else if negb (unit_interval (threshold r)) then Raise (ValidationError "threshold")
  else Ok {| resp_txn_id := txn_id_; resp_score := score r;
             resp_threshold := threshold r; resp_is_alert := is_alert r;
             resp_model_used := model_used r;
             resp_explanation := explanation r |}.

(** What a handler answers: its value, or the [HTTPException] it
    raised. *)
Inductive Response (A : Type) : Type :=
| Status200 (body : A)
| Status404 (detail : string)
| Status500 (detail : exception).
Arguments Status200 {A} body.
Arguments Status404 {A} detail.
Arguments Status500 {A} detail.

(** A task handed to [BackgroundTasks]: a topic and the dictionary to
    send to it. *)
Inductive Message : Type :=
| TransactionMessage (t : Transaction)
| AlertMessage (a : Alert).

(** The global instances of the module, the database behind [get_db],
    and the tasks waiting to run after the response. *)
Record App : Type := {
  fraud_detector : Process;
  feature_engineer : FeatureEngineer;
  kafka_producer : KafkaProducer;
  storage : Storage;
  background_tasks : list (string * Message)
}.

(** What a call reads from outside: the external libraries, the hash
    key of the process, the environment, and in the order of the calls
    the identifiers [uuid.uuid4()] draws and the readings of the clock. *)
Record World : Type := {
  libs : Libs;
  hash_key : HashKey;
  env : Env;
  environ : option string;
  txn_uuid : string;
  txn_now : Z;
  history_now : Z;
  alert_uuid : string;
  alert_now : Z
}.

Definition on_detector {A} (c : ST Process A) : ST App A :=
  fun app =>
    let (r, p) := c (fraud_detector app) in
    (r, {| fraud_detector := p; feature_engineer := feature_engineer app;
           kafka_producer := kafka_producer app; storage := storage app;
           background_tasks := background_tasks app |}).

Definition on_engineer {A} (c : DatabaseManager -> ST FeatureEngineer A) : ST App A :=
  fun app =>
    let (r, fe) := c (manager (storage app)) (feature_engineer app) in
    (r, {| fraud_detector := fraud_detector app; feature_engineer := fe;
           kafka_producer := kafka_producer app; storage := storage app;
           background_tasks := background_tasks app |}).

Definition on_storage {A} (c : ST Storage A) : ST App A :=
  fun app =>
    let (r, st) := c (storage app) in
    (r, {| fraud_detector := fraud_detector app;
           feature_engineer := feature_engineer app;
           kafka_producer := kafka_producer app; storage := st;
           background_tasks := background_tasks app |}).

Definition on_producer {A} (c : ST KafkaProducer A) : ST App A :=
  fun app =>
    let (r, k) := c (kafka_producer app) in
    (r, {| fraud_detector := fraud_detector app;
           feature_engineer := feature_engineer app;
           kafka_producer := k; storage := storage app;
           background_tasks := background_tasks app |}).

(** [background_tasks.add_task(kafka_producer.send_transaction, topic, data)]. *)
Definition add_task (topic : string) (data : Message) : ST App unit :=
  fun app =>
    (Ok tt, {| fraud_detector := fraud_detector app;
               feature_engineer := feature_engineer app;
               kafka_producer := kafka_producer app; storage := storage app;
               background_tasks := (background_tasks app ++ [(topic, data)])%list |}).

Definition Transaction_of_request (W : World) (request : ScoreRequest) : Transaction :=
  {| txn_id := txn_uuid W; ts := txn_now W; amount := req_amount request;
     merchant_cat := req_merchant_cat request;
     merchant_id := req_merchant_id request; mcc := req_mcc request;
     currency := req_currency request; country := req_country request;
     city := req_city request; lat := req_lat request; lon := req_lon request;
     channel := req_channel request; card_id := req_card_id request;
     customer_id := req_customer_id request;
     device_id := req_device_id request; ip := req_ip request;
     is_fraud := None |}.

(** The [try] block of [score_transaction]. *)
Definition score_transaction_try (W : World) (request : ScoreRequest)
  : ST App ScoreResponse :=
  (transaction <- st_lift (Transaction_new (Transaction_of_request W request)) ;;
   features_ <- on_engineer
                  (engineer_features (libs W) (hash_key W) (history_now W) transaction) ;;
   score_result <- on_detector (FraudDetector_score (env W) features_) ;;
   response <- st_lift (ScoreResponse_new (txn_id transaction) score_result) ;;
   _ <- on_storage (store_transaction_in transaction features_ score_result) ;;
   _ <- add_task "transactions.raw" (TransactionMessage transaction) ;;
   _ <- (if is_alert score_result
         then
           let alert := {| alert_id := alert_uuid W;
                           alert_txn_id := txn_id transaction;
                           alert_score := score score_result;
                           timestamp := alert_now W;
                           status := NEW;
                           alert_explanation := OfScore (explanation score_result);
                           analyst_notes := None; resolution := None |} in
           _ <- on_storage (store_alert alert) ;;
           add_task "alerts.suspicious" (AlertMessage alert)
         else st_ret tt) ;;
   st_ret response)%st.

Definition set_background_tasks (tasks : list (string * Message)) (app : App) : App :=
  {| fraud_detector := fraud_detector app;
     feature_engineer := feature_engineer app;
     kafka_producer := kafka_producer app; storage := storage app;
     background_tasks := tasks |}.

(** [score_transaction]: the request comes with no task; any exception
    of the [try] block becomes a response 500, and the tasks of a
    request that ends so are dropped.  The counters and histograms the
    handler also feeds are left out. *)
Definition score_transaction (W : World) (request : ScoreRequest)
  : App -> Response ScoreResponse * App :=
  fun app =>
    match score_transaction_try W request (set_background_tasks [] app) with
    | (Ok response, app') => (Status200 response, app')
    | (Raise e, app') => (Status500 e, set_background_tasks [] app')
    end.

(** The tasks run one after the other once the response is out; the
    first that raises ends the run. *)
Fixpoint run_tasks (W : World) (tasks : list (string * Message))
  : ST KafkaProducer unit :=
  match tasks with
  | [] => st_ret tt
  | _ :: rest =>
      (_ <- KafkaProducer_send_transaction (environ W) ;; run_tasks W rest)%st
  end.

Definition run_background_tasks (W : World) : ST App unit :=
  fun app =>
    let (r, k) := run_tasks W (background_tasks app) (kafka_producer app) in
    (r, set_background_tasks []
          {| fraud_detector := fraud_detector app;
             feature_engineer := feature_engineer app;
             kafka_producer := k; storage := storage app;
             background_tasks := background_tasks app |}).

(** [startup_event]: the models, then the producer. *)
Definition startup_event (W : World) : ST App unit :=
  (_ <- on_detector (load_models (env W)) ;;
   on_producer (KafkaProducer_connect (environ W)))%st.

(** The handlers of [GET /alerts] and [GET /alerts/{alert_id}]. *)
Record AlertList : Type := {
  list_alerts : list Alert;
  list_total : Z;
  list_limit : Z;
  list_offset : Z
}.

Definition app_get_alerts (utcnow : Z) (since : option Z) (limit offset : Z)
    (app : App) : exc AlertList :=
  let since := default (utcnow - 24 * hour_us) since in
  (alerts_ <- get_alerts (storage app) since limit offset ;;
   total <- get_alert_count (storage app) since ;;
   Ok {| list_alerts := alerts_; list_total := total;
         list_limit := limit; list_offset := offset |})%exc.

Definition app_get_alert (id : string) (app : App) : exc (Response Alert) :=
  (alert <- get_alert (storage app) id ;;
   match alert with
   | Some a => Ok (Status200 a)
   | None => Ok (Status404 "Alert not found")
   end)%exc.

(** A service as the module builds it, over the store of [Desk] and
    with the library of [Alarm]; a request for the purchase
    [Sample.current]; the same from a latitude of 100 degrees. *)
Module Service.

Definition world : World :=
  {| libs := Sample.libs; hash_key := hashseed_0; env := Alarm.env;
     environ := None;
     txn_uuid := "0b0f7f0e-5f0c-4c58-9d55-6c1f0a3b8f01";
     txn_now := Sample.utcnow; history_now := Sample.utcnow;
     alert_uuid := "7a9c1d62-3e47-4b1a-8c2e-2f6d9e0b4a02";
     alert_now := Sample.utcnow |}.

Definition request : ScoreRequest :=
  {| req_amount := dec 100 1; req_merchant_cat := "retail";
     req_merchant_id := "TEST_MERCH"; req_mcc := "5411"; req_currency := "USD";
     req_country := "US"; req_city := "New York";
     req_lat := fst Sample.new_york; req_lon := snd Sample.new_york;
     req_channel := CARD_PRESENT; req_card_id := "TEST_CARD";
     req_customer_id := "TEST_CUST"; req_device_id := Some "dev-A";
     req_ip := Some "192.168.1.1" |}.

Definition far_north : ScoreRequest :=
  {| req_amount := dec 100 1; req_merchant_cat := "retail";
     req_merchant_id := "TEST_MERCH"; req_mcc := "5411"; req_currency := "USD";
     req_country := "US"; req_city := "New York";
     req_lat := Some (dec 100 1); req_lon := snd Sample.new_york;
     req_channel := CARD_PRESENT; req_card_id := "TEST_CARD";
     req_customer_id := "TEST_CUST"; req_device_id := Some "dev-A";
     req_ip := Some "192.168.1.1" |}.

Definition app : App :=
  {| fraud_detector := Sample.fresh; feature_engineer := FeatureEngineer_init;
     kafka_producer := MkKafkaProducer "localhost:9092" None;
     storage := Desk.storage; background_tasks := [] |}.

End Service.

(* ===================================================================== *)
(** * [backend/pipeline/explain.py]                                       *)
(* ===================================================================== *)

Definition IndexError : exception := RuntimeError "IndexError".

(** [_features_to_dict]: the dictionary in the order of its keys; an
    [int] is the rational of the same value. *)
Definition _features_to_dict (f : FeatureVector) : list (string * Qc) :=
  [ ("amount", fv_amount f);
    ("amount_z_score", amount_z_score f);
    ("amount_log", amount_log f);
    ("amount_rolling_mean_1h", amount_rolling_mean_1h f);
    ("amount_rolling_std_1h", amount_rolling_std_1h f);
    ("amount_rolling_mean_24h", amount_rolling_mean_24h f);
    ("amount_rolling_std_24h", amount_rolling_std_24h f);
    ("txn_count_5m", Qc_of_Z (txn_count_5m f));
    ("txn_count_1h", Qc_of_Z (txn_count_1h f));
    ("txn_count_24h", Qc_of_Z (txn_count_24h f));
    ("distinct_merchants_5m", Qc_of_Z (distinct_merchants_5m f));
    ("distinct_merchants_1h", Qc_of_Z (distinct_merchants_1h f));
    ("distinct_merchants_24h", Qc_of_Z (distinct_merchants_24h f));
    ("distance_from_home", distance_from_home f);
    ("speed_from_last_txn", float_or_zero (speed_from_last_txn f));
    ("country_change", Qc_of_bool (country_change f));
    ("city_change", Qc_of_bool (city_change f));
    ("hour_of_day", Qc_of_Z (hour_of_day f));
    ("day_of_week", Qc_of_Z (day_of_week f));
    ("is_holiday", Qc_of_bool (is_holiday f));
    ("is_weekend", Qc_of_bool (is_weekend f));
    ("merchant_fraud_rate", merchant_fraud_rate f);
    ("mcc_fraud_rate", mcc_fraud_rate f);
    ("merchant_txn_count", Qc_of_Z (merchant_txn_count f));
    ("device_rarity_score", device_rarity_score f);
    ("ip_rarity_score", ip_rarity_score f);
    ("device_change", Qc_of_bool (device_change f));
    ("ip_change", Qc_of_bool (ip_change f));
    ("channel_card_present", Qc_of_bool (channel_card_present f));
    ("channel_web", Qc_of_bool (channel_web f));
    ("channel_app", Qc_of_bool (channel_app f));
    ("merchant_id_encoded", merchant_id_encoded f);
    ("mcc_encoded", mcc_encoded f);
    ("country_encoded", country_encoded f) ].

Definition normal_ranges : list (string * (Qc * Qc)) :=
  [ ("amount_z_score", (dec (-2) 1, dec 2 1));
    ("txn_count_1h", (0%Qc, dec 5 1));
    ("txn_count_24h", (0%Qc, dec 20 1));
    ("distance_from_home", (0%Qc, dec 50 1));
    ("merchant_fraud_rate", (0%Qc, dec 5 100));
    ("device_rarity_score", (0%Qc, dec 5 10));
    ("ip_rarity_score", (0%Qc, dec 5 10));
    ("amount_rolling_std_1h", (0%Qc, dec 100 1));
    ("speed_from_last_txn", (0%Qc, dec 500 1)) ].

(** [d[key]] for a key the dictionary may lack. *)
Definition dict_get {V} (d : list (string * V)) (key : string) : option V :=
  snd <$> head (filter (fun kv => fst kv = key) d).

Record ImportanceScore : Type := {
  feature : string;
  value : Qc;
  normal_range : Qc * Qc;
  deviation : Qc;
  contribution : Qc
}.

(** The deviation of a value from a range, before it is capped. *)
Definition range_deviation (value min_val max_val : Qc) : Qc :=
  if Qc_ltb value min_val
  then if Qc_eq_bool min_val 0 then 1%Qc
       else (Qc_abs (value - min_val) / Qc_abs min_val)%Qc
  else if Qc_ltb max_val value
  then if Qc_eq_bool max_val 0 then 1%Qc
       else (Qc_abs (value - max_val) / Qc_abs max_val)%Qc
  else 0%Qc.

(** The body of the loop of [_calculate_feature_importance] for one
    item of the dictionary. *)
Definition importance_of (item : string * Qc) : list ImportanceScore :=
  match dict_get normal_ranges (fst item) with
  | Some (min_val, max_val) =>
      let normalized_deviation :=
        py_min 1 (range_deviation (snd item) min_val max_val) in
      [ {| feature := fst item; value := snd item;
           normal_range := (min_val, max_val);
           deviation := normalized_deviation;
           contribution := (normalized_deviation * dec 100 1)%Qc |} ]
  | None => []
  end.

Definition _calculate_feature_importance (f : FeatureVector) : list ImportanceScore :=
  let importance_scores := mbind importance_of (_features_to_dict f) in
  take 10 (sort_desc (fun a b => Qc_leb (contribution a) (contribution b))
                     importance_scores).

(** The description of a counterfactual: a text, or the sentence that
    names the amount and the suggested one, each printed with two
    decimals. *)
Inductive Description : Type :=
| Text (s : string)
| ReduceAmount (from_amount to_amount : Qc).

Record Counterfactual : Type := {
  cf_type : string;
  cf_description : Description;
  cf_expected_impact : string;
  cf_reasoning : string
}.

Definition _generate_counterfactuals (f : FeatureVector) (score_result : ScoreResult)
  : list Counterfactual :=
  ((if Qc_ltb (dec 2 1) (amount_z_score f)
    then [ {| cf_type := "amount_reduction";
              cf_description := ReduceAmount (fv_amount f) (fv_amount f * dec 5 10)%Qc;
              cf_expected_impact := "High";
              cf_reasoning :=
                "Amount is significantly higher than customer's normal pattern" |} ]
    else [])
   ++ (if (5 <? txn_count_1h f)%Z
       then [ {| cf_type := "velocity_reduction";
                 cf_description := Text "Wait before making additional transactions";
                 cf_expected_impact := "Medium";
                 cf_reasoning := "Transaction frequency is unusually high" |} ]
       else [])
   ++ (if country_change f
       then [ {| cf_type := "geographic_consistency";
                 cf_description :=
                   Text "Use card in home country or notify bank of travel";
                 cf_expected_impact := "High";
                 cf_reasoning :=
                   "Transaction location differs from customer's usual pattern" |} ]
       else [])
   ++ (if Qc_ltb (dec 1 10) (merchant_fraud_rate f)
       then [ {| cf_type := "merchant_selection";
                 cf_description := Text "Use a different merchant or payment method";
                 cf_expected_impact := "Medium";
                 cf_reasoning := "Merchant has high historical fraud rate" |} ]
       else [])
   ++ (if Qc_ltb (dec 8 10) (device_rarity_score f)
       then [ {| cf_type := "device_verification";
                 cf_description :=
                   Text "Use a previously used device or verify device";
                 cf_expected_impact := "Medium";
                 cf_reasoning := "Device is rarely used by this customer" |} ]
       else []))%list.

(** A value or a threshold of a risk factor: a number or a text. *)
Inductive Scalar : Type :=
| Num (q : Qc)
| Str (s : string).

Record RiskItem : Type := {
  factor : string;
  item_value : Scalar;
  item_threshold : Scalar
}.

Record RiskAnalysis : Type := {
  high_risk : list RiskItem;
  medium_risk : list RiskItem;
  low_risk : list RiskItem
}.

Definition _analyze_risk_factors (f : FeatureVector) : RiskAnalysis :=
  {| high_risk :=
       ((if Qc_ltb (dec 3 1) (amount_z_score f)
         then [ {| factor := "Extreme amount deviation";
                   item_value := Num (amount_z_score f);
                   item_threshold := Num (dec 3 1) |} ]
         else [])
        ++ (if country_change f
            then [ {| factor := "Country change"; item_value := Str "True";
                      item_threshold := Str "False" |} ]
            else [])
        ++ (if (10 <? txn_count_1h f)%Z
            then [ {| factor := "Very high transaction velocity";
                      item_value := Num (Qc_of_Z (txn_count_1h f));
                      item_threshold := Num (dec 10 1) |} ]
            else []))%list;
     medium_risk :=
       ((if Qc_ltb (dec 2 1) (amount_z_score f)
         then [ {| factor := "High amount deviation";
                   item_value := Num (amount_z_score f);
                   item_threshold := Num (dec 2 1) |} ]
         else [])
        ++ (if Qc_ltb (dec 5 100) (merchant_fraud_rate f)
            then [ {| factor := "Suspicious merchant";
                      item_value := Num (merchant_fraud_rate f);
                      item_threshold := Num (dec 5 100) |} ]
            else [])
        ++ (if Qc_ltb (dec 7 10) (device_rarity_score f)
            then [ {| factor := "Unusual device";
                      item_value := Num (device_rarity_score f);
                      item_threshold := Num (dec 7 10) |} ]
            else []))%list;
     low_risk :=
       ((if (hour_of_day f <? 6)%Z || (22 <? hour_of_day f)%Z
         then [ {| factor := "Unusual hour";
                   item_value := Num (Qc_of_Z (hour_of_day f));
                   item_threshold := Str "6-22" |} ]
         else [])
        ++ (if is_weekend f
            then [ {| factor := "Weekend transaction"; item_value := Str "True";
                      item_threshold := Str "False" |} ]
            else []))%list |}.

Record HourAnalysis : Type := {
  ha_hour : Z;
  ha_risk_level : string;
  ha_reasoning : string;
  ha_is_usual : bool
}.

Definition _analyze_hour_pattern (hour_ : Z) : HourAnalysis :=
  let usual := (6 <=? hour_)%Z && (hour_ <=? 22)%Z in
  let late := ((22 <=? hour_)%Z && (hour_ <=? 23)%Z)
              || ((0 <=? hour_)%Z && (hour_ <=? 5)%Z) in
  {| ha_hour := hour_;
     ha_risk_level := if usual then "Low" else if late then "Medium" else "High";
     ha_reasoning := if usual then "Normal business hours"
                     else if late then "Late night/early morning hours"
                     else "Unusual hour";
     ha_is_usual := usual |}.

(** [names[day]]: a negative index counts from the end; an index
    outside the list is an [IndexError]. *)
Definition list_index {A} (l : list A) (i : Z) : exc A :=
  let n := Z.of_nat (length l) in
  let j := if (i <? 0)%Z then i + n else i in
  if (j <? 0)%Z then Raise IndexError
  else match l !! Z.to_nat j with
       | Some x => Ok x
       | None => Raise IndexError
       end.

Record DayAnalysis : Type := {
  da_day : Z;
  da_day_name : string;
  da_risk_level : string;
  da_reasoning : string;
  da_is_weekend : bool
}.

Definition _analyze_day_pattern (day : Z) : exc DayAnalysis :=
  (day_name <- list_index ["Monday"; "Tuesday"; "Wednesday"; "Thursday"; "Friday";
                           "Saturday"; "Sunday"] day ;;
   Ok {| da_day := day; da_day_name := day_name;
         da_risk_level := if (day <? 5)%Z then "Low" else "Medium";
         da_reasoning := if (day <? 5)%Z then "Weekday transaction"
                         else "Weekend transaction";
         da_is_weekend := (5 <=? day)%Z |})%exc.

(** The risk level of a count against two thresholds. *)
Definition count_risk_level (count high medium : Z) : string :=
  if (high <? count)%Z then "High" else if (medium <? count)%Z then "Medium" else "Low".

Record VelocityAnalysis : Type := {
  short_term : Z * string;
  medium_term : Z * string;
  long_term : Z * string
}.

Definition _analyze_velocity_pattern (f : FeatureVector) : VelocityAnalysis :=
  {| short_term := (txn_count_5m f, count_risk_level (txn_count_5m f) 3 1);
     medium_term := (txn_count_1h f, count_risk_level (txn_count_1h f) 8 3);
     long_term := (txn_count_24h f, count_risk_level (txn_count_24h f) 30 15) |}.

Record SeasonalAnalysis : Type := {
  sa_is_holiday : bool;
  sa_is_weekend : bool;
  sa_risk_level : string;
  sa_reasoning : string
}.

Definition _analyze_seasonal_pattern (f : FeatureVector) : SeasonalAnalysis :=
  {| sa_is_holiday := is_holiday f; sa_is_weekend := is_weekend f;
     sa_risk_level := if is_holiday f then "Medium" else "Low";
     sa_reasoning := "Holiday transactions may have different patterns" |}.

Record TimelineAnalysis : Type := {
  hour_analysis : HourAnalysis;
  day_analysis : DayAnalysis;
  velocity_analysis : VelocityAnalysis;
  seasonal_analysis : SeasonalAnalysis
}.

Definition _analyze_timeline_patterns (f : FeatureVector) : exc TimelineAnalysis :=
  (day_analysis_ <- _analyze_day_pattern (day_of_week f) ;;
   Ok {| hour_analysis := _analyze_hour_pattern (hour_of_day f);
         day_analysis := day_analysis_;
         velocity_analysis := _analyze_velocity_pattern f;
         seasonal_analysis := _analyze_seasonal_pattern f |})%exc.

Definition _generate_recommendations (f : FeatureVector) (score_result : ScoreResult)
  : list string :=
  let recommendations :=
    ((if is_alert score_result
      then ["Review this transaction manually";
            "Contact customer for verification if necessary"]
      else [])
     ++ (if Qc_ltb (dec 2 1) (amount_z_score f)
         then ["Consider amount-based limits for this customer"] else [])
     ++ (if (5 <? txn_count_1h f)%Z
         then ["Implement velocity-based restrictions"] else [])
     ++ (if country_change f
         then ["Enable travel notifications for this customer"] else [])
     ++ (if Qc_ltb (dec 1 10) (merchant_fraud_rate f)
         then ["Monitor transactions with this merchant category"] else []))%list in
  match recommendations with
  | [] => ["Transaction appears normal - continue monitoring"]
  | _ => recommendations
  end.

Record ScoreBreakdown : Type := {
  sb_ensemble_score : Qc;
  sb_threshold : Qc;
  sb_is_alert : bool;
  sb_confidence : Qc
}.

(** What [generate_explanation] returns: the comprehensive
    explanation, or the answer of its [except] clause. *)
Inductive EngineExplanation : Type :=
| Comprehensive (score_breakdown : ScoreBreakdown)
                (feature_importance : list ImportanceScore)
                (counterfactuals : list Counterfactual)
                (risk_factors : RiskAnalysis)
                (timeline_analysis : TimelineAnalysis)
                (recommendations : list string)
| Failed (error : string) (score_ : Qc) (is_alert_ : bool).

Definition generate_explanation (f : FeatureVector) (score_result : ScoreResult)
  : EngineExplanation :=
  match (let feature_importance := _calculate_feature_importance f in
         let counterfactuals := _generate_counterfactuals f score_result in
         let risk_factors := _analyze_risk_factors f in
         timeline_analysis <- _analyze_timeline_patterns f ;;
         Ok (Comprehensive
               {| sb_ensemble_score := score score_result;
                  sb_threshold := threshold score_result;
                  sb_is_alert := is_alert score_result;
                  sb_confidence := confidence score_result |}
               feature_importance counterfactuals risk_factors timeline_analysis
               (_generate_recommendations f score_result)))%exc with
  | Ok explanation => explanation
  | Raise _ => Failed "Failed to generate explanation" (score score_result)
                 (is_alert score_result)
  end.

(* ===================================================================== *)
(** * Properties                                                          *)
(* ===================================================================== *)

(** ** CPython's [hash]

    The model of [hash] agrees with CPython 3.11 run under
    [PYTHONHASHSEED=0] and [PYTHONHASHSEED=1], on strings shorter than
    a word, of exactly one and two words, and longer. *)

Example py_hash_seed0_US : py_hash hashseed_0 "US" = 7005344284607616745.
Proof. vm_compute. reflexivity. Qed.

Example py_hash_seed1_US : py_hash hashseed_1 "US" = -2640986748553966440.
Proof. vm_compute. reflexivity. Qed.

Example py_hash_seed0_word : py_hash hashseed_0 "TEST_MER" = 3536732701984825331.
Proof. vm_compute. reflexivity. Qed.

Example py_hash_seed1_two_words :
  py_hash hashseed_1 "0123456789abcdef" = 3673576830174574914.
Proof. vm_compute. reflexivity. Qed.

Example py_hash_seed1_long :
  py_hash hashseed_1 "aaaaaaaaaaaaaaaaaaaa" = 6515188088311800068.
Proof. vm_compute. reflexivity. Qed.

Example hash_encode_seed0_merchant :
  hash_encode hashseed_0 "TEST_MERCH" = dec 702 1000.
Proof. now apply Qc_is_canon. Qed.

Example hash_encode_seed1_merchant :
  hash_encode hashseed_1 "TEST_MERCH" = dec 784 1000.
Proof. now apply Qc_is_canon. Qed.

(** ** Comparisons, minimum and maximum *)

Lemma Qc_ltb_lt (x y : Qc) : Qc_ltb x y = true <-> (x < y)%Qc.
Proof.
  unfold Qc_ltb. rewrite Qclt_alt.
  destruct (x ?= y)%Qc; split; congruence.
Qed.

Lemma Qc_leb_le (x y : Qc) : Qc_leb x y = true <-> (x <= y)%Qc.
Proof.
  unfold Qc_leb. rewrite Qcle_alt.
  destruct (x ?= y)%Qc; split; congruence.
Qed.

Lemma Qc_ltb_ge (x y : Qc) : Qc_ltb x y = false <-> (y <= x)%Qc.
Proof.
  rewrite <- not_true_iff_false, Qc_ltb_lt. split.
  - apply Qcnot_lt_le.
  - auto using Qcle_not_lt.
Qed.

Lemma unit_interval_spec (x : Qc) :
  unit_interval x = true <-> (0 <= x /\ x <= 1)%Qc.
Proof. unfold unit_interval. rewrite andb_true_iff, !Qc_leb_le. tauto. Qed.

Lemma py_min_comm (a b : Qc) : py_min a b = py_min b a.
Proof.
  unfold py_min.
  destruct (Qc_ltb b a) eqn:Hba, (Qc_ltb a b) eqn:Hab; try reflexivity.
  - apply Qc_ltb_lt in Hba, Hab.
    destruct (Qclt_not_le _ _ Hba). now apply Qclt_le_weak.
  - apply Qc_ltb_ge in Hba, Hab. now apply Qcle_antisym.
Qed.

Lemma py_min_le_l (a b : Qc) : (py_min a b <= a)%Qc.
Proof.
  unfold py_min. destruct (Qc_ltb b a) eqn:H.
  - apply Qclt_le_weak. now apply Qc_ltb_lt.
  - apply Qcle_refl.
Qed.

Lemma py_min_glb (a b c : Qc) : (c <= a -> c <= b -> c <= py_min a b)%Qc.
Proof. unfold py_min. now destruct (Qc_ltb b a). Qed.

Lemma py_max_ge_l (a b : Qc) : (a <= py_max a b)%Qc.
Proof.
  unfold py_max. destruct (Qc_ltb a b) eqn:H.
  - apply Qclt_le_weak. now apply Qc_ltb_lt.
  - apply Qcle_refl.
Qed.

Lemma py_max_lub (a b c : Qc) : (a <= c -> b <= c -> py_max a b <= c)%Qc.
Proof. unfold py_max. now destruct (Qc_ltb a b). Qed.

(** ** Means of non-negative numbers *)

Lemma Qc_sum_nonneg (l : list Qc) :
  Forall (fun x => (0 <= x)%Qc) l -> (0 <= Qc_sum l)%Qc.
Proof.
  induction 1 as [|x l Hx _ IH]; simpl.
  - apply Qcle_refl.
  - now apply Qcplus_nonneg_nonneg.
Qed.

Lemma Qc_square_nonneg (x : Qc) : (0 <= x * x)%Qc.
Proof.
  unfold Qcle. cbn [this Qcmult Q2Qc]. rewrite !Qred_correct.
  unfold Qle, Qmult. cbn [Qnum Qden]. rewrite Z.mul_1_r. apply Z.square_nonneg.
Qed.

Lemma Qc_div_nonneg (x y : Qc) : (0 <= x -> 0 <= y -> 0 <= x / y)%Qc.
Proof.
  unfold Qcle, Qcdiv, Qcmult, Qcinv, Q2Qc. simpl. intros Hx Hy.
  rewrite !Qred_correct. apply Qmult_le_0_compat; [assumption|].
  now apply Qinv_le_0_compat.
Qed.

Lemma Qc_of_Z_nonneg (n : Z) : (0 <= n)%Z -> (0 <= Qc_of_Z n)%Qc.
Proof.
  intros H. unfold Qcle, Qc_of_Z. simpl. unfold Qle. simpl. lia.
Qed.

Lemma np_mean_nonneg (l : list Qc) :
  Forall (fun x => (0 <= x)%Qc) l -> (0 <= np_mean l)%Qc.
Proof.
  intros H. unfold np_mean. apply Qc_div_nonneg.
  - now apply Qc_sum_nonneg.
  - apply Qc_of_Z_nonneg. lia.
Qed.

Lemma squared_errors_nonneg (r x : list Qc) :
  Forall (fun e => (0 <= e)%Qc) (zip_with (fun a b => ((a - b) * (a - b))%Qc) r x).
Proof.
  revert x. induction r as [|a r IH]; intros [|b x]; simpl; constructor.
  - apply Qc_square_nonneg.
  - apply IH.
Qed.

(** ** The scorer: [FraudDetector.score] *)

Lemma keeps_ret {A} (a : A) : keeps_threshold (st_ret a).
Proof. now intros p. Qed.

Lemma keeps_lift {A} (c : exc A) : keeps_threshold (st_lift c).
Proof. now intros p. Qed.

Lemma keeps_get : keeps_threshold st_get.
Proof. now intros p. Qed.

Lemma keeps_bind {A B} (c : ST Process A) (k : A -> ST Process B) :
  keeps_threshold c -> (forall a, keeps_threshold (k a)) ->
  keeps_threshold (st_bind c k).
Proof.
  intros Hc Hk p. unfold st_bind. specialize (Hc p).
  destruct (c p) as [[a|e] p1]; simpl in *; [rewrite Hk|]; exact Hc.
Qed.

Lemma keeps_try {A} (c : ST Process A) (h : exception -> ST Process A) :
  keeps_threshold c -> (forall e, keeps_threshold (h e)) ->
  keeps_threshold (st_try c h).
Proof.
  intros Hc Hh p. unfold st_try. specialize (Hc p).
  destruct (c p) as [[a|e] p1]; simpl in *; [|rewrite Hh]; exact Hc.
Qed.

Lemma keeps_set_isolation_forest m : keeps_threshold (set_isolation_forest m).
Proof. now intros p. Qed.
Lemma keeps_set_autoencoder m : keeps_threshold (set_autoencoder m).
Proof. now intros p. Qed.
Lemma keeps_set_scaler m : keeps_threshold (set_scaler m).
Proof. now intros p. Qed.
Lemma keeps_set_model_loaded b : keeps_threshold (set_model_loaded b).
Proof. now intros p. Qed.

Lemma keeps_dump_isolation_forest E : keeps_threshold (dump_isolation_forest E).
Proof. intros p. unfold dump_isolation_forest, st_bind, st_lift. now destruct (dump E). Qed.
Lemma keeps_dump_autoencoder E : keeps_threshold (dump_autoencoder E).
Proof. intros p. unfold dump_autoencoder, st_bind, st_lift. now destruct (dump E). Qed.
Lemma keeps_dump_scaler E : keeps_threshold (dump_scaler E).
Proof. intros p. unfold dump_scaler, st_bind, st_lift. now destruct (dump E). Qed.

Create HintDb keeps discriminated.
#[local] Hint Resolve keeps_ret keeps_lift keeps_get keeps_set_isolation_forest
  keeps_set_autoencoder keeps_set_scaler keeps_set_model_loaded
  keeps_dump_isolation_forest keeps_dump_autoencoder keeps_dump_scaler : keeps.

Ltac keeps :=
  repeat first
    [ progress auto with keeps
    | apply keeps_bind; [|intros ?]
    | apply keeps_try; [|intros ?]
    | match goal with
      | |- keeps_threshold (match ?x with _ => _ end) => destruct x
      | |- keeps_threshold (if ?x then _ else _) => destruct x
      end ].

Lemma keeps_train_isolation_forest E : keeps_threshold (_train_isolation_forest E).
Proof. unfold _train_isolation_forest. keeps. Qed.

Lemma keeps_train_autoencoder E : keeps_threshold (_train_autoencoder E).
Proof. unfold _train_autoencoder. keeps. Qed.

#[local] Hint Resolve keeps_train_isolation_forest keeps_train_autoencoder : keeps.

Lemma keeps_load_models E : keeps_threshold (load_models E).
Proof. unfold load_models, _train_models. keeps. Qed.

#[local] Hint Resolve keeps_load_models : keeps.

Lemma keeps_score_try E f : keeps_threshold (FraudDetector_score_try E f).
Proof. unfold FraudDetector_score_try. keeps. Qed.

(** What a [ScoreResult] that pydantic accepted was built from. *)
Lemma ScoreResult_new_ok s t a m x c r :
  ScoreResult_new s t a m x c = Ok r ->
  unit_interval s = true /\ unit_interval t = true /\ unit_interval c = true
  /\ r = {| score := s; threshold := t; is_alert := a; model_used := m;
            explanation := x; confidence := c |}.
Proof.
  unfold ScoreResult_new.
  destruct (unit_interval s), (unit_interval t), (unit_interval c);
    simpl; intros H; try discriminate.
  injection H as <-. auto.
Qed.

(** The [try] block returns what the constructor returns for the
    ensemble of the sub-scores of the detector it leaves behind. *)
Lemma score_try_ok E f p r p' :
  FraudDetector_score_try E f p = (Ok r, p') ->
  let feature_array := _features_to_array f in
  let if_score := _isolation_forest_score (self p') feature_array in
  let ae_score := _autoencoder_score (self p') feature_array in
  let ensemble_score := ensemble if_score ae_score in
  ScoreResult_new ensemble_score (self_threshold (self p'))
    (Qc_ltb (self_threshold (self p')) ensemble_score) "ensemble"
    (_generate_explanation f ensemble_score if_score ae_score)
    (py_min (ensemble_score * dec 12 10) 1) = Ok r.
Proof.
  unfold FraudDetector_score_try, st_bind, st_get, st_lift.
  destruct ((if model_loaded (self p) then st_ret tt else load_models E) p)
    as [[[]|e] p1]; [|discriminate].
  intros H. injection H as H <-. exact H.
Qed.

Lemma isolation_forest_score_bounds d a :
  (0 <= _isolation_forest_score d a /\ _isolation_forest_score d a <= 1)%Qc.
Proof.
  assert (Hhalf : (0 <= dec 1 2 /\ dec 1 2 <= 1)%Qc)
    by (split; apply Qc_leb_le; reflexivity).
  unfold _isolation_forest_score.
  destruct (isolation_forest d) as [forest|]; [|exact Hhalf].
  destruct (score_samples forest a) as [s|]; [|exact Hhalf].
  split.
  - apply py_max_ge_l.
  - apply py_max_lub; [apply Qc_leb_le; reflexivity | apply py_min_le_l].
Qed.

Lemma mse_loss_nonneg r x mse : mse_loss r x = Ok (Some mse) -> (0 <= mse)%Qc.
Proof.
  unfold mse_loss. destruct (negb _); [discriminate|].
  destruct x; [discriminate|]. intros H. injection H as <-.
  apply np_mean_nonneg, squared_errors_nonneg.
Qed.

Lemma autoencoder_score_bounds d a :
  (0 <= _autoencoder_score d a /\ _autoencoder_score d a <= 1)%Qc.
Proof.
  assert (Hhalf : (0 <= dec 1 2 /\ dec 1 2 <= 1)%Qc)
    by (split; apply Qc_leb_le; reflexivity).
  assert (Hone : (0 <= 1 /\ 1 <= 1)%Qc)
    by (split; apply Qc_leb_le; reflexivity).
  unfold _autoencoder_score.
  destruct (autoencoder d) as [net|]; [|exact Hhalf].
  destruct (scaler d) as [sc|]; [|exact Hhalf].
  destruct (transform sc a) as [n|]; simpl; [|exact Hhalf].
  destruct (forward net n) as [rec|]; simpl; [|exact Hhalf].
  destruct (mse_loss rec n) as [[mse|]|] eqn:Hm; [|exact Hone|exact Hhalf].
  apply mse_loss_nonneg in Hm. split.
  - apply py_min_glb; [apply Qc_leb_le; reflexivity|].
    rewrite <- (Qcmult_0_l (dec 10 1)).
    apply Qcmult_le_compat_r; [exact Hm | apply Qc_leb_le; reflexivity].
  - apply py_min_le_l.
Qed.

Lemma keeps_score E f : keeps_threshold (FraudDetector_score E f).
Proof. unfold FraudDetector_score. keeps. Qed.

(** A reachable detector still has the threshold it was built with. *)
Lemma reachable_threshold (p : Process) :
  reachable p -> self_threshold (self p) = dec 95 100.
Proof.
  induction 1 as [d | E p _ IH | E f p _ IH].
  - reflexivity.
  - now rewrite keeps_load_models.
  - now rewrite keeps_score.
Qed.

(** C1.  Whenever the [try] block of [score] returns, [score] returns
    that very result; its score is 0.4 times the isolation-forest
    sub-score plus 0.6 times the autoencoder sub-score, both sub-scores
    lie in [0, 1], so do the score and the threshold, the threshold is
    the detector's (0.95 as constructed, and in every reachable state),
    and [is_alert] holds exactly when the score exceeds the threshold. *)
Theorem score_is_weighted_ensemble
    (E : Env) (f : FeatureVector) (p p' : Process) (r : ScoreResult) :
  FraudDetector_score_try E f p = (Ok r, p') ->
  let feature_array := _features_to_array f in
  let if_score := _isolation_forest_score (self p') feature_array in
  let ae_score := _autoencoder_score (self p') feature_array in
  FraudDetector_score E f p = (Ok r, p')
  /\ score r = (dec 4 10 * if_score + dec 6 10 * ae_score)%Qc
  /\ (0 <= if_score /\ if_score <= 1)%Qc
  /\ (0 <= ae_score /\ ae_score <= 1)%Qc
  /\ (0 <= score r /\ score r <= 1)%Qc
  /\ (0 <= threshold r /\ threshold r <= 1)%Qc
  /\ threshold r = self_threshold (self p)
  /\ (is_alert r = true <-> (threshold r < score r)%Qc)
  /\ self_threshold FraudDetector_init = dec 95 100
  /\ (reachable p -> threshold r = dec 95 100).
Proof.
  intros Htry feature_array if_score ae_score.
  pose proof (keeps_score_try E f p) as Hthr. rewrite Htry in Hthr. simpl in Hthr.
  apply score_try_ok in Htry as Hnew. cbv zeta in Hnew.
  apply ScoreResult_new_ok in Hnew as (Hs & Ht & _ & ->). simpl.
  apply unit_interval_spec in Hs, Ht.
  split; [unfold FraudDetector_score, st_try; now rewrite Htry|].
  split; [reflexivity|].
  split; [apply isolation_forest_score_bounds|].
  split; [apply autoencoder_score_bounds|].
  split; [exact Hs|].
  split; [exact Ht|].
  split; [exact Hthr|].
  split; [apply Qc_ltb_lt|].
  split; [reflexivity|].
  intros Hreach. rewrite Hthr. now apply reachable_threshold.
Qed.

Lemma score_is_weighted_ensemble_witness :
  exists r p',
    FraudDetector_score Sample.good_env Sample.vector Sample.fresh = (Ok r, p')
    /\ model_used r = "ensemble"
    /\ (0 <= score r /\ score r <= 1)%Qc
    /\ threshold r = dec 95 100
    /\ is_alert r = false.
Proof.
  destruct (FraudDetector_score_try Sample.good_env Sample.vector Sample.fresh)
    as [[r|e] p'] eqn:Htry; [|vm_compute in Htry; discriminate].
  destruct (score_is_weighted_ensemble _ _ _ _ _ Htry)
    as (Hscore & _ & _ & _ & Hs & _ & Ht & _ & _).
  exists r, p'. split; [exact Hscore|]. split; [|split; [exact Hs|split; [exact Ht|]]].
  - vm_compute in Htry. injection Htry as <- _. reflexivity.
  - vm_compute in Htry. injection Htry as <- _. reflexivity.
Defined.

(** An exception inside a sub-scorer does not leave it: the
    sub-score is 0.5. *)
Lemma isolation_forest_score_on_raise d forest a e :
  isolation_forest d = Some forest -> score_samples forest a = Raise e ->
  _isolation_forest_score d a = dec 1 2.
Proof. intros Hd Hs. unfold _isolation_forest_score. now rewrite Hd, Hs. Qed.

Lemma autoencoder_score_on_raise d net sc a e :
  autoencoder d = Some net -> scaler d = Some sc ->
  (normalized_features <- transform sc a ;;
   reconstructed <- forward net normalized_features ;;
   mse_loss reconstructed normalized_features)%exc = Raise e ->
  _autoencoder_score d a = dec 1 2.
Proof. intros Hn Hs Hr. unfold _autoencoder_score. now rewrite Hn, Hs, Hr. Qed.

(** C2 fails for an exception raised inside a sub-scorer.  When
    fitting the forest failed, the detector scores with the unfitted
    fallback forest: [score_samples] raises, [_isolation_forest_score]
    answers 0.5, and [score] returns an ensemble result, not the
    default one. *)
Lemma fallback_counterexample :
  exists forest r p',
    FraudDetector_score Sample.unfit_env Sample.vector Sample.fresh = (Ok r, p')
    /\ isolation_forest (self p') = Some forest
    /\ score_samples forest (_features_to_array Sample.vector) = Raise NotFittedError
    /\ model_used r = "ensemble"
    /\ score r <> dec 1 2.
Proof.
  destruct (FraudDetector_score Sample.unfit_env Sample.vector Sample.fresh)
    as [[r|e] p'] eqn:H; [|vm_compute in H; discriminate].
  exists {| score_samples := fun _ => Raise NotFittedError |}, r, p'.
  split; [reflexivity|].
  vm_compute in H. injection H as <- <-.
  split; [reflexivity|]. split; [reflexivity|]. split; [reflexivity|].
  intros C. apply (f_equal this) in C. vm_compute in C. discriminate.
Qed.

(** With a threshold in [0, 1] the default result passes pydantic,
    so [score] returns whatever happens in its [try] block. *)
Lemma score_total (E : Env) (f : FeatureVector) (p : Process) :
  (0 <= self_threshold (self p) /\ self_threshold (self p) <= 1)%Qc ->
  exists r p',
    FraudDetector_score E f p = (Ok r, p')
    /\ (forall e p1, FraudDetector_score_try E f p = (Raise e, p1) ->
          score r = dec 1 2 /\ is_alert r = false /\ model_used r = "fallback")
    /\ (forall r1 p1, FraudDetector_score_try E f p = (Ok r1, p1) ->
          r = r1 /\ model_used r = "ensemble").
Proof.
  intros Hthr. pose proof (keeps_score_try E f p) as Hkeep.
  unfold FraudDetector_score, st_try.
  destruct (FraudDetector_score_try E f p) as [[r|e] p1] eqn:Htry; simpl in Hkeep.
  - exists r, p1. split; [reflexivity|]. split; [discriminate|].
    intros r1 p2 Heq. injection Heq as <- <-. split; [reflexivity|].
    apply score_try_ok in Htry. cbv zeta in Htry.
    now apply ScoreResult_new_ok in Htry as (_ & _ & _ & ->).
  - unfold st_bind, st_get, st_lift, ScoreResult_new.
    rewrite Hkeep. apply unit_interval_spec in Hthr. rewrite Hthr.
    change (unit_interval (dec 1 2)) with true.
    change (unit_interval 0%Qc) with true. simpl.
    eexists _, _. split; [reflexivity|]. split; [|discriminate].
    intros _ _ _. simpl. auto.
Qed.

(** C2, amended.  In every state a detector process can reach,
    [score] returns: it never raises.  When an exception leaves its
    [try] block, what it returns is the default result: score 0.5, no
    alert, model ["fallback"]; otherwise it returns the ensemble
    result.  An exception raised inside one of the two sub-scorers
    never leaves it: that sub-score is 0.5. *)
Theorem score_falls_back_and_never_raises
    (E : Env) (f : FeatureVector) (p : Process) :
  reachable p ->
  (exists r p',
     FraudDetector_score E f p = (Ok r, p')
     /\ (forall e p1, FraudDetector_score_try E f p = (Raise e, p1) ->
           score r = dec 1 2 /\ is_alert r = false /\ model_used r = "fallback")
     /\ (forall r1 p1, FraudDetector_score_try E f p = (Ok r1, p1) ->
           r = r1 /\ model_used r = "ensemble"))
  /\ (forall d forest e,
        isolation_forest d = Some forest ->
        score_samples forest (_features_to_array f) = Raise e ->
        _isolation_forest_score d (_features_to_array f) = dec 1 2)
  /\ (forall d net sc e,
        autoencoder d = Some net -> scaler d = Some sc ->
        (normalized_features <- transform sc (_features_to_array f) ;;
         reconstructed <- forward net normalized_features ;;
         mse_loss reconstructed normalized_features)%exc = Raise e ->
        _autoencoder_score d (_features_to_array f) = dec 1 2).
Proof.
  intros Hreach. split; [|split].
  - apply score_total. rewrite (reachable_threshold p Hreach).
    split; apply Qc_leb_le; reflexivity.
  - intros d forest e. apply isolation_forest_score_on_raise.
  - intros d net sc e. apply autoencoder_score_on_raise.
Qed.

Lemma score_falls_back_and_never_raises_witness :
  exists r p',
    FraudDetector_score Sample.bad_env Sample.vector Sample.fresh = (Ok r, p')
    /\ score r = dec 1 2 /\ is_alert r = false /\ model_used r = "fallback".
Proof.
  destruct (score_falls_back_and_never_raises Sample.bad_env Sample.vector
              Sample.fresh (reachable_init Sample.no_artifacts))
    as ((r & p' & Hscore & Hfallback & _) & _).
  exists r, p'. split; [exact Hscore|].
  apply (Hfallback (RuntimeError "out of memory")
                   (snd (FraudDetector_score_try Sample.bad_env Sample.vector
                           Sample.fresh))).
  vm_compute. reflexivity.
Defined.

(** C3 fails on the fallback path: there the score is 0.5 and the
    confidence 0, not [min(1, 0.5 * 1.2) = 0.6]. *)
Lemma confidence_counterexample :
  exists r p',
    FraudDetector_score Sample.bad_env Sample.vector Sample.fresh = (Ok r, p')
    /\ model_used r = "fallback"
    /\ confidence r <> py_min 1 (score r * dec 12 10).
Proof.
  destruct (FraudDetector_score Sample.bad_env Sample.vector Sample.fresh)
    as [[r|e] p'] eqn:H; [|vm_compute in H; discriminate].
  exists r, p'. split; [reflexivity|].
  vm_compute in H. injection H as <- _. split; [reflexivity|].
  intros C. apply (f_equal this) in C. vm_compute in C. discriminate.
Qed.

(** C3, amended.  A result of [score] is either the ensemble's, and
    then its confidence is [min(1, score * 1.2)], or the default one,
    with score 0.5 and confidence 0. *)
Theorem confidence_of_score
    (E : Env) (f : FeatureVector) (p p' : Process) (r : ScoreResult) :
  FraudDetector_score E f p = (Ok r, p') ->
  (model_used r = "ensemble" /\ confidence r = py_min 1 (score r * dec 12 10))
  \/ (model_used r = "fallback" /\ score r = dec 1 2 /\ confidence r = 0%Qc).
Proof.
  unfold FraudDetector_score, st_try.
  destruct (FraudDetector_score_try E f p) as [[r0|e] p1] eqn:Htry.
  - intros H. injection H as -> ->. left.
    apply score_try_ok in Htry. cbv zeta in Htry.
    apply ScoreResult_new_ok in Htry as (_ & _ & _ & ->). simpl.
    split; [reflexivity | apply py_min_comm].
  - unfold st_bind, st_get, st_lift. intros H.
    destruct (ScoreResult_new _ _ _ _ _ _) as [r1|] eqn:Hnew in H; [|discriminate].
    injection H as -> ->.
    apply ScoreResult_new_ok in Hnew as (_ & _ & _ & ->). right. simpl. auto.
Qed.

Lemma confidence_of_score_witness :
  exists r p',
    FraudDetector_score Sample.good_env Sample.vector Sample.fresh = (Ok r, p')
    /\ model_used r = "ensemble"
    /\ confidence r = py_min 1 (score r * dec 12 10).
Proof.
  destruct (FraudDetector_score Sample.good_env Sample.vector Sample.fresh)
    as [[r|e] p'] eqn:H; [|vm_compute in H; discriminate].
  exists r, p'. split; [reflexivity|].
  destruct (confidence_of_score _ _ _ _ _ H) as [Hens | (Hfb & _)]; [exact Hens|].
  vm_compute in H. injection H as <- _. discriminate.
Defined.

(** ** The history store *)




Lemma filter_none {A} (P : A -> Prop) `{!forall x, Decision (P x)} (l : list A) :
  Forall (fun x => ~ P x) l -> filter P l = [].
Proof.
  induction 1 as [|x l Hx _ IH]; [reflexivity|].
  now rewrite filter_cons_False.
Qed.

(** C9 (violated).  For a merchant without a transaction the query of
    [get_merchant_stats] divides [0::float] by [COUNT( * ) = 0]:
    PostgreSQL raises, and so does the method; no zeros are returned. *)
Theorem get_merchant_stats_without_rows_raises (db : Database) (merchant : string) :
  (forall k t, transactions db !! k = Some t -> merchant_id t <> merchant) ->
  get_merchant_stats {| pool := Some db |} merchant = Raise DivisionByZeroError.
Proof.
  intros Hnone. unfold get_merchant_stats, acquire. simpl.
  rewrite (filter_none (fun t => merchant_id t = merchant)); [reflexivity|].
  apply Forall_forall. intros t Ht.
  apply list_elem_of_fmap in Ht as ([k t'] & -> & Hkt).
  apply elem_of_map_to_list in Hkt. simpl. eauto.
Qed.

Lemma get_merchant_stats_without_rows_raises_witness :
  get_merchant_stats {| pool := Some Sample.empty_db |} "TEST_MERCH"
  = Raise DivisionByZeroError.
Proof.
  apply get_merchant_stats_without_rows_raises.
  intros k t H. simpl in H. rewrite lookup_empty in H. discriminate.
Defined.

(** ** Velocity features *)

Lemma recent_recent (a b : Z) (H : list HistoryRow) :
  (b <= a)%Z -> recent a (recent b H) = recent a H.
Proof.
  intros Hba. unfold recent. induction H as [|x H IH]; [reflexivity|].
  rewrite (filter_cons (fun txn => (b <= h_ts txn)%Z)).
  destruct (decide (b <= h_ts x)%Z) as [Hb|Hb].
  - rewrite !filter_cons. destruct (decide (a <= h_ts x)%Z); now rewrite IH.
  - rewrite IH, filter_cons_False; [reflexivity | lia].
Qed.

Lemma recent_length_mono (a b : Z) (H : list HistoryRow) :
  (b <= a)%Z -> (length (recent a H) <= length (recent b H))%nat.
Proof.
  intros Hba. rewrite <- (recent_recent a b H Hba). apply length_filter.
Qed.

Lemma recent_subset (a b : Z) (H : list HistoryRow) (x : HistoryRow) :
  (b <= a)%Z -> x ∈ recent a H -> x ∈ recent b H.
Proof.
  intros Hba. rewrite <- (recent_recent a b H Hba).
  unfold recent at 1. rewrite list_elem_of_filter. tauto.
Qed.

Lemma distinct_merchants_mono (l1 l2 : list HistoryRow) :
  (forall x, x ∈ l1 -> x ∈ l2) ->
  (distinct_merchants l1 <= distinct_merchants l2)%Z.
Proof.
  intros Hsub. unfold distinct_merchants. apply inj_le, subseteq_size.
  intros m. rewrite !elem_of_list_to_set, !list_elem_of_fmap.
  intros (x & -> & Hx). eauto.
Qed.

Lemma size_list_to_set_le (l : list string) :
  (size (list_to_set l : gset string) <= length l)%nat.
Proof.
  induction l as [|x l IH].
  - reflexivity.
  - rewrite list_to_set_cons, size_union_alt, size_singleton. simpl.
    assert (Hd : (size (list_to_set l ∖ {[x]} : gset string)
                  <= size (list_to_set l : gset string))%nat).
    { apply subseteq_size. apply subseteq_difference_l. reflexivity. }
    lia.
Qed.

Lemma distinct_merchants_le_count (l : list HistoryRow) :
  (distinct_merchants l <= Z.of_nat (length l))%Z.
Proof.
  unfold distinct_merchants. apply inj_le.
  rewrite <- (length_fmap h_merchant_id l). apply size_list_to_set_le.
Qed.


(** ** The feature engineer *)



Lemma assemble_features_velocity L key T H M fv :
  assemble_features L key T H M = Ok fv ->
  let v := _calculate_velocity_features T H in
  txn_count_5m fv = v_txn_count_5m v
  /\ txn_count_1h fv = v_txn_count_1h v
  /\ txn_count_24h fv = v_txn_count_24h v
  /\ distinct_merchants_5m fv = v_distinct_merchants_5m v
  /\ distinct_merchants_1h fv = v_distinct_merchants_1h v
  /\ distinct_merchants_24h fv = v_distinct_merchants_24h v.
Proof.
  unfold assemble_features, FeatureVector_new, exc_bind.
  destruct (_calculate_amount_features L T H); [|discriminate].
  destruct (pydantic_bool "device_change" _); [|discriminate].
  destruct (pydantic_bool "ip_change" _); [|discriminate].
  intros E. injection E as <-. repeat split.
Qed.

(** The two ways [engineer_features] ends: with the vector assembled
    from what the store returned, or with the default features. *)
Lemma engineer_features_cases L key utcnow T db fe :
  let r := engineer_features L key utcnow T db fe in
  (exists H M fv, assemble_features L key T H M = Ok fv /\ fst r = Ok fv
                  /\ fst (engineer_features_try L key utcnow T db fe) = Ok fv)
  \/ (fst r = _get_default_features L T
      /\ exists e, fst (engineer_features_try L key utcnow T db fe) = Raise e).
Proof.
  unfold engineer_features, st_try.
  destruct (engineer_features_try L key utcnow T db fe) as [[fv|e] fe1] eqn:Htry.
  - left. revert Htry.
    unfold engineer_features_try, st_bind, st_lift.
    destruct (get_customer_history db utcnow (customer_id T) 24) as [H|];
      [|discriminate].
    destruct (_get_merchant_stats (merchant_id T) db fe) as [[M|] fe2];
      [|discriminate].
    intros E. injection E as E _. exists H, M, fv. auto.
  - right. simpl. eauto.
Qed.

Lemma math_log_valid L T :
  Transaction_valid T = true ->
  math_log L (amount T + 1)%Qc = Ok (ln L (amount T + 1)%Qc).
Proof.
  unfold Transaction_valid. rewrite !andb_true_iff. intros [[Hpos _] _].
  unfold math_log.
  replace (Qc_ltb 0 (amount T + 1)%Qc) with true; [reflexivity|].
  symmetry. apply Qc_ltb_lt. apply Qc_ltb_lt in Hpos.
  apply Qcplus_pos_nonneg; [exact Hpos | apply Qc_leb_le; reflexivity].
Qed.

Lemma default_features_valid L T :
  Transaction_valid T = true ->
  exists fv, _get_default_features L T = Ok fv
    /\ empty_history_defaults fv /\ transaction_fields L T fv
    /\ merchant_id_encoded fv = dec 1 2 /\ mcc_encoded fv = dec 1 2
    /\ country_encoded fv = dec 1 2.
Proof.
  intros Hv. unfold _get_default_features. rewrite (math_log_valid L T Hv). simpl.
  eexists. split; [reflexivity|]. unfold empty_history_defaults, transaction_fields.
  simpl. repeat split.
Qed.

(** C4 fails on the encodings: for the first transaction of a merchant
    the statistics query raises, and the vector returned has
    [merchant_id_encoded = 0.5], not the hash of the merchant. *)
Lemma default_features_counterexample :
  exists e fe1 fv,
    engineer_features_try Sample.libs hashseed_0 Sample.utcnow Sample.current
      {| pool := Some Sample.empty_db |} FeatureEngineer_init = (Raise e, fe1)
    /\ engineer_features Sample.libs hashseed_0 Sample.utcnow Sample.current
         {| pool := Some Sample.empty_db |} FeatureEngineer_init = (Ok fv, fe1)
    /\ merchant_id_encoded fv <> hash_encode hashseed_0 (merchant_id Sample.current).
Proof.
  destruct (engineer_features Sample.libs hashseed_0 Sample.utcnow Sample.current
              {| pool := Some Sample.empty_db |} FeatureEngineer_init)
    as [[fv|e] fe1] eqn:H; [|vm_compute in H; discriminate].
  exists DivisionByZeroError, fe1, fv.
  vm_compute in H. injection H as <- <-.
  split; [vm_compute; reflexivity|]. split; [reflexivity|].
  intros C. apply (f_equal this) in C. vm_compute in C. discriminate.
Qed.

(** C4, amended.  For a valid transaction [engineer_features] always
    returns a vector.  When its [try] block raised, the vector holds
    the empty-history defaults, the fields computed from the
    transaction alone (the channel flags among them), and the constant
    0.5 for each of the three encodings. *)
Theorem default_features_on_failure
    (L : Libs) (key : HashKey) (utcnow : Z) (T : Transaction)
    (db : DatabaseManager) (fe : FeatureEngineer) :
  Transaction_valid T = true ->
  exists fv fe',
    engineer_features L key utcnow T db fe = (Ok fv, fe')
    /\ (forall e fe1,
          engineer_features_try L key utcnow T db fe = (Raise e, fe1) ->
          fe' = fe1
          /\ empty_history_defaults fv
          /\ transaction_fields L T fv
          /\ merchant_id_encoded fv = dec 1 2
          /\ mcc_encoded fv = dec 1 2
          /\ country_encoded fv = dec 1 2).
Proof.
  intros Hv. unfold engineer_features, st_try.
  destruct (engineer_features_try L key utcnow T db fe) as [[fv|e] fe1].
  - exists fv, fe1. split; [reflexivity|]. discriminate.
  - destruct (default_features_valid L T Hv) as (fv & Hfv & Hrest).
    exists fv, fe1. unfold st_lift. rewrite Hfv. split; [reflexivity|].
    intros e' fe2 E. injection E as _ <-. auto.
Qed.

Lemma default_features_on_failure_witness :
  exists fv fe',
    engineer_features Sample.libs hashseed_0 Sample.utcnow Sample.current
      {| pool := Some Sample.empty_db |} FeatureEngineer_init = (Ok fv, fe')
    /\ empty_history_defaults fv
    /\ channel_card_present fv = true
    /\ merchant_id_encoded fv = dec 1 2.
Proof.
  destruct (default_features_on_failure Sample.libs hashseed_0 Sample.utcnow
              Sample.current {| pool := Some Sample.empty_db |}
              FeatureEngineer_init eq_refl) as (fv & fe' & Hrun & Hdefault).
  exists fv, fe'. split; [exact Hrun|].
  destruct (Hdefault DivisionByZeroError FeatureEngineer_init)
    as (_ & Hempty & Htxn & Hm & _); [vm_compute; reflexivity|].
  split; [exact Hempty|]. split; [|exact Hm].
  destruct Htxn as (_ & _ & _ & _ & _ & Hcp & _). exact Hcp.
Defined.

(** C5 fails when no time has passed: for a second purchase at the
    place and instant of the previous one the speed is 0.0, not null. *)
Lemma speed_counterexample :
  (hours_between (ts Sample.simultaneous) (ts Sample.earlier) <= 0)%Qc
  /\ g_speed_from_last_txn
       (_calculate_geo_features Sample.libs Sample.simultaneous Sample.history)
     = Some 0%Qc
  /\ g_speed_from_last_txn
       (_calculate_geo_features Sample.libs Sample.simultaneous Sample.history)
     <> None.
Proof.
  split; [apply Qc_leb_le; reflexivity|].
  assert (H : g_speed_from_last_txn
                (_calculate_geo_features Sample.libs Sample.simultaneous Sample.history)
              = Some 0%Qc).
  { vm_compute. reflexivity. }
  split; [exact H|]. rewrite H. discriminate.
Qed.

Lemma truthy_float_some (x : Qc) : x <> 0%Qc -> truthy_float (Some x) = true.
Proof.
  intros Hx. unfold truthy_float.
  destruct (Qc_eq_bool x 0) eqn:E; [|reflexivity].
  apply Qc_eq_bool_correct in E. contradiction.
Qed.

(** C5, amended.  With a non-empty history, [speed_from_last_txn] is
    null whenever one of the four coordinates is missing.  When the
    four are present and not zero and the geodesic distance [d] is
    computed, it is [d] divided by the hours elapsed if time has
    passed, and 0.0 (not null) if it has not; when the geodesic call
    raises, it is null. *)
Theorem speed_from_last_txn_cases
    (L : Libs) (T : Transaction) (last_txn : HistoryRow) (rest : list HistoryRow) :
  let g := _calculate_geo_features L T (last_txn :: rest) in
  let time_diff := hours_between (ts T) (h_ts last_txn) in
  ((lat T = None \/ lon T = None \/ h_lat last_txn = None \/ h_lon last_txn = None) ->
   g_speed_from_last_txn g = None)
  /\ (forall tlat tlon hlat hlon d,
        lat T = Some tlat -> lon T = Some tlon ->
        h_lat last_txn = Some hlat -> h_lon last_txn = Some hlon ->
        tlat <> 0%Qc -> tlon <> 0%Qc -> hlat <> 0%Qc -> hlon <> 0%Qc ->
        geodesic_km L (hlat, hlon) (tlat, tlon) = Ok d ->
        ((0 < time_diff)%Qc -> g_speed_from_last_txn g = Some (d / time_diff)%Qc)
        /\ ((time_diff <= 0)%Qc -> g_speed_from_last_txn g = Some 0%Qc))
  /\ (forall tlat tlon hlat hlon e,
        lat T = Some tlat -> lon T = Some tlon ->
        h_lat last_txn = Some hlat -> h_lon last_txn = Some hlon ->
        geodesic_km L (hlat, hlon) (tlat, tlon) = Raise e ->
        g_speed_from_last_txn g = None).
Proof.
  intros g time_diff. subst g. unfold _calculate_geo_features. simpl.
  split; [|split].
  - intros [H|[H|[H|H]]]; rewrite H; simpl;
      repeat match goal with
             | |- context [truthy_float ?o] => destruct (truthy_float o); simpl
             | |- context [match ?o with Some _ => _ | None => _ end] =>
                 destruct o; simpl
             end; reflexivity.
  - intros tlat tlon hlat hlon d -> -> -> -> Htlat Htlon Hhlat Hhlon ->.
    rewrite !truthy_float_some by assumption. simpl. fold time_diff. split.
    + intros Hpos. apply Qc_ltb_lt in Hpos. now rewrite Hpos.
    + intros Hle. apply Qc_ltb_ge in Hle. now rewrite Hle.
  - intros tlat tlon hlat hlon e -> -> -> -> ->.
    now destruct (truthy_float (Some tlat) && truthy_float (Some tlon)
                  && truthy_float (Some hlat) && truthy_float (Some hlon)).
Qed.

(** The second scenario of the specification: New York, then London
    ten minutes later, is a speed of 33 420 km/h. *)
Example speed_impossible_travel :
  g_speed_from_last_txn
    (_calculate_geo_features Sample.libs Sample.same_device Sample.history)
  = Some (dec 33420 1).
Proof. vm_compute. reflexivity. Qed.

(** ** [device_change] and [ip_change] *)

(** What the chained [and] of [_calculate_device_features] evaluates
    to: [False] when the two identifiers are equal, else the current
    identifier when it is falsy, else the previous identifier. *)
Lemma changed_cases (last_value current : option string) :
  changed last_value current =
    if bool_decide (last_value = current) then PyBool false
    else if truthy_str current then py_of_str last_value
         else py_of_str current.
Proof.
  unfold changed, py_and.
  destruct (decide (last_value = current)) as [->|Hne].
  - rewrite bool_decide_eq_false_2 by auto. simpl.
    now rewrite bool_decide_eq_true_2.
  - rewrite bool_decide_eq_true_2 by auto.
    rewrite (bool_decide_eq_false_2 _ Hne). simpl.
    destruct current as [c|]; simpl; [|reflexivity].
    now destruct (negb (String.eqb c "")).
Qed.

(** pydantic accepts it as [True] only when the previous identifier
    spells one of six words. *)
Lemma changed_true_only_for_a_word (field : string) (last_value current : option string) :
  pydantic_bool field (changed last_value current) = Ok true ->
  exists s, last_value = Some s
    /\ str_in (str_lower s) ["1"; "on"; "t"; "true"; "y"; "yes"] = true.
Proof.
  rewrite changed_cases.
  destruct (bool_decide (last_value = current)); [discriminate|].
  destruct (truthy_str current) eqn:Hc.
  - destruct last_value as [s|]; cbn [py_of_str pydantic_bool]; [|discriminate].
    destruct (str_in (str_lower s) ["1"; "on"; "t"; "true"; "y"; "yes"]) eqn:Hs;
      [eauto|].
    destruct (str_in (str_lower s) ["0"; "off"; "f"; "false"; "n"; "no"]);
      discriminate.
  - destruct current as [c|]; simpl in *; [|discriminate].
    destruct (String.eqb c "") eqn:E; [|discriminate].
    apply String.eqb_eq in E. subst c. discriminate.
Qed.


(** ** Determinism and the hash key *)




(** ** Velocity features, continued *)

Lemma velocity_monotone_helper (T : Transaction) (H : list HistoryRow) :
  let v := _calculate_velocity_features T H in
  velocity_monotone (v_txn_count_5m v) (v_txn_count_1h v) (v_txn_count_24h v)
    (v_distinct_merchants_5m v) (v_distinct_merchants_1h v)
    (v_distinct_merchants_24h v).
Proof.
  simpl. unfold velocity_monotone.
  assert (H51 : (ts T - 1 * hour_us <= ts T - 5 * minute_us)%Z)
    by (unfold hour_us, minute_us; lia).
  assert (H124 : (ts T - 24 * hour_us <= ts T - 1 * hour_us)%Z)
    by (unfold hour_us; lia).
  repeat split.
  - apply inj_le, recent_length_mono, H51.
  - apply inj_le, recent_length_mono, H124.
  - apply distinct_merchants_mono. intros x. now apply recent_subset.
  - apply distinct_merchants_mono. intros x. now apply recent_subset.
  - apply distinct_merchants_le_count.
  - apply distinct_merchants_le_count.
  - apply distinct_merchants_le_count.
Qed.

(** C10.  The velocity features grow with the window, and in each
    window there are at most as many distinct merchants as
    transactions: for what [_calculate_velocity_features] computes from
    any transaction and history, and for every vector
    [engineer_features] returns.  The reason is that the transactions
    of a shorter window are among those of a longer one. *)
Theorem velocity_features_monotone :
  (forall (T : Transaction) (H : list HistoryRow),
     let v := _calculate_velocity_features T H in
     velocity_monotone (v_txn_count_5m v) (v_txn_count_1h v) (v_txn_count_24h v)
       (v_distinct_merchants_5m v) (v_distinct_merchants_1h v)
       (v_distinct_merchants_24h v))
  /\ (forall L key utcnow T db fe fv fe',
        engineer_features L key utcnow T db fe = (Ok fv, fe') ->
        velocity_monotone (txn_count_5m fv) (txn_count_1h fv) (txn_count_24h fv)
          (distinct_merchants_5m fv) (distinct_merchants_1h fv)
          (distinct_merchants_24h fv))
  /\ (forall (T : Transaction) (H : list HistoryRow) (x : HistoryRow),
        (x ∈ recent (ts T - 5 * minute_us) H -> x ∈ recent (ts T - 1 * hour_us) H)
        /\ (x ∈ recent (ts T - 1 * hour_us) H -> x ∈ recent (ts T - 24 * hour_us) H)).
Proof.
  split; [exact velocity_monotone_helper|]. split.
  - intros L key utcnow T db fe fv fe' Hrun.
    destruct (engineer_features_cases L key utcnow T db fe)
      as [(H & M & fv0 & Ha & Hr & _) | (Hr & _)]; rewrite Hrun in Hr; simpl in Hr.
    + injection Hr as <-.
      destruct (assemble_features_velocity _ _ _ _ _ _ Ha)
        as (-> & -> & -> & -> & -> & ->).
      apply velocity_monotone_helper.
    + unfold _get_default_features, exc_bind in Hr.
      destruct (math_log L (amount T + 1)%Qc); [|discriminate].
      injection Hr as ->. simpl. unfold velocity_monotone. lia.
  - intros T H x. split; apply recent_subset; unfold hour_us, minute_us; lia.
Qed.

(** The third scenario of the specification in small: one earlier
    transaction ten minutes ago counts in the hour and the day, not in
    the last five minutes. *)
Example velocity_of_sample :
  _calculate_velocity_features Sample.current Sample.history
  = {| v_txn_count_5m := 0; v_txn_count_1h := 1; v_txn_count_24h := 1;
       v_distinct_merchants_5m := 0; v_distinct_merchants_1h := 1;
       v_distinct_merchants_24h := 1 |}.
Proof. vm_compute. reflexivity. Qed.

(* ===================================================================== *)
(** * Further properties of the code                                      *)
(* ===================================================================== *)

(** ** Sorting in descending order *)

Lemma insert_desc_perm {A} (leb : A -> A -> bool) (x : A) (l : list A) :
  insert_desc leb x l ≡ₚ x :: l.
Proof.
  induction l as [|y r IH]; simpl; [reflexivity|].
  destruct (leb y x); [reflexivity|].
  rewrite IH. apply perm_swap.
Qed.

Lemma sort_desc_perm {A} (leb : A -> A -> bool) (l : list A) :
  sort_desc leb l ≡ₚ l.
Proof.
  induction l as [|x l IH]; simpl; [reflexivity|].
  rewrite insert_desc_perm. now rewrite IH.
Qed.

Lemma sort_desc_elem_of {A} (leb : A -> A -> bool) (l : list A) (x : A) :
  x ∈ sort_desc leb l <-> x ∈ l.
Proof. now rewrite sort_desc_perm. Qed.

Lemma sort_desc_length {A} (leb : A -> A -> bool) (l : list A) :
  length (sort_desc leb l) = length l.
Proof. now rewrite sort_desc_perm. Qed.


Lemma insert_desc_sorted {A} (leb : A -> A -> bool) (x : A) (l : list A) :
  leb_total leb -> leb_trans leb ->
  StronglySorted (fun a b => leb b a = true) l ->
  StronglySorted (fun a b => leb b a = true) (insert_desc leb x l).
Proof.
  intros Htot Htr. induction 1 as [|y r Hr IH Hy]; simpl.
  - repeat constructor.
  - destruct (leb y x) eqn:Hyx.
    + constructor; [now constructor|].
      constructor; [exact Hyx|].
      eapply Forall_impl; [exact Hy|]. intros z Hz. now apply (Htr z y x).
    + constructor; [exact IH|].
      rewrite insert_desc_perm. constructor; [now apply Htot | exact Hy].
Qed.

Lemma sort_desc_sorted {A} (leb : A -> A -> bool) (l : list A) :
  leb_total leb -> leb_trans leb ->
  StronglySorted (fun a b => leb b a = true) (sort_desc leb l).
Proof.
  intros Htot Htr. induction l as [|x l IH]; simpl; [constructor|].
  now apply insert_desc_sorted.
Qed.

(** The sort is stable: a list that is already in order is left alone. *)
Lemma insert_desc_head {A} (leb : A -> A -> bool) (x : A) (l : list A) :
  Forall (fun y => leb y x = true) l -> insert_desc leb x l = x :: l.
Proof. destruct 1 as [|y r Hy _]; simpl; [reflexivity|]. now rewrite Hy. Qed.

Lemma sort_desc_of_sorted {A} (leb : A -> A -> bool) (l : list A) :
  StronglySorted (fun a b => leb b a = true) l -> sort_desc leb l = l.
Proof.
  induction 1 as [|x l Hl IH Hx]; simpl; [reflexivity|].
  rewrite IH. now apply insert_desc_head.
Qed.

Lemma StronglySorted_of_key {A B} (f : A -> B) (R : B -> B -> Prop) (l : list A) :
  StronglySorted (fun a b => R (f a) (f b)) l -> StronglySorted R (f <$> l).
Proof.
  induction 1 as [|x l Hl IH Hx]; simpl; constructor; [exact IH|].
  apply Forall_fmap. exact Hx.
Qed.

Lemma StronglySorted_mono {A} (R S : A -> A -> Prop) (l : list A) :
  (forall a b, R a b -> S a b) -> StronglySorted R l -> StronglySorted S l.
Proof.
  intros HRS. induction 1 as [|x l Hl IH Hx]; constructor; [exact IH|].
  eapply Forall_impl; [exact Hx|]. intros y. apply HRS.
Qed.

Lemma Z_leb_total {A} (key : A -> Z) : leb_total (fun a b => (key a <=? key b)%Z).
Proof. intros a b H. apply Z.leb_le. apply Z.leb_gt in H. lia. Qed.

Lemma Z_leb_trans {A} (key : A -> Z) : leb_trans (fun a b => (key a <=? key b)%Z).
Proof. intros a b c H1 H2. apply Z.leb_le. apply Z.leb_le in H1, H2. lia. Qed.

(** ** The history store, continued *)



Lemma insert_do_nothing_keeps {V} (k k' : string) (v w : V) (m : gmap string V) :
  m !! k' = Some w -> insert_do_nothing k v m !! k' = Some w.
Proof.
  intros Hk. unfold insert_do_nothing. destruct (m !! k) eqn:E; [exact Hk|].
  rewrite lookup_insert_ne; [exact Hk|]. intros ->. congruence.
Qed.


(** The rows [get_customer_history] selects. *)
Lemma history_rows_elem_of (db : Database) (utcnow : Z) (customer : string)
    (hours : Z) (t : Transaction) :
  t ∈ filter (fun t => customer_id t = customer /\ (utcnow - hours * hour_us <= ts t)%Z)
        (snd <$> map_to_list (transactions db))
  <-> (exists k, transactions db !! k = Some t)
      /\ customer_id t = customer /\ (utcnow - hours * hour_us <= ts t)%Z.
Proof.
  rewrite list_elem_of_filter, list_elem_of_fmap. split.
  - intros (Hp & [k t'] & -> & Hkt). apply elem_of_map_to_list in Hkt.
    split; [eauto | exact Hp].
  - intros ((k & Hk) & Hp). split; [exact Hp|].
    exists (k, t). split; [reflexivity|]. now apply elem_of_map_to_list.
Qed.

(** X2.  On a connected store [get_customer_history] returns the rows
    of the customer's transactions whose timestamp is not older than
    [hours] before the clock reading, each joined with its score: every
    such transaction is in the result, nothing else is, there are as
    many rows as such transactions, and the rows are in non-increasing
    order of timestamp. *)
Theorem customer_history_is_the_window
    (db : Database) (utcnow : Z) (customer : string) (hours : Z) :
  exists H,
    get_customer_history {| pool := Some db |} utcnow customer hours = Ok H
    /\ StronglySorted (fun a b => (h_ts b <= h_ts a)%Z) H
    /\ (forall k t,
          transactions db !! k = Some t -> customer_id t = customer ->
          (utcnow - hours * hour_us <= ts t)%Z ->
          history_row db t ∈ H)
    /\ (forall r,
          r ∈ H ->
          exists k t,
            transactions db !! k = Some t /\ r = history_row db t
            /\ customer_id t = customer /\ (utcnow - hours * hour_us <= h_ts r)%Z
            /\ h_score r = score <$> scores db !! txn_id t)
    /\ length H
       = length (filter (fun t => customer_id t = customer
                                  /\ (utcnow - hours * hour_us <= ts t)%Z)
                        (snd <$> map_to_list (transactions db))).
Proof.
  eexists. split; [reflexivity|]. split; [|split; [|split]].
  - apply (StronglySorted_of_key (history_row db)
             (fun a b => (h_ts b <= h_ts a)%Z)). simpl.
    eapply StronglySorted_mono;
      [|apply (sort_desc_sorted (fun a b : Transaction => (ts a <=? ts b)%Z));
        [apply Z_leb_total | apply Z_leb_trans]].
    intros a b Hab. now apply Z.leb_le.
  - intros k t Hk Hc Hw. apply list_elem_of_fmap. exists t. split; [reflexivity|].
    apply sort_desc_elem_of, history_rows_elem_of. eauto.
  - intros r Hr. apply list_elem_of_fmap in Hr as (t & -> & Ht).
    apply sort_desc_elem_of, history_rows_elem_of in Ht as ((k & Hk) & Hc & Hw).
    exists k, t. auto.
  - now rewrite length_fmap, sort_desc_length.
Qed.

Lemma Qc_of_Z_le (a b : Z) : (a <= b)%Z -> (Qc_of_Z a <= Qc_of_Z b)%Qc.
Proof.
  intros H. unfold Qcle, Qc_of_Z. simpl. unfold Qle. simpl. lia.
Qed.

Lemma Qc_of_Z_pos (n : Z) : (0 < n)%Z -> (0 < Qc_of_Z n)%Qc.
Proof.
  intros H. unfold Qclt, Qc_of_Z. simpl. unfold Qlt. simpl. lia.
Qed.

Lemma Qc_of_Z_inj (a b : Z) : Qc_of_Z a = Qc_of_Z b -> a = b.
Proof.
  intros H. apply (f_equal this) in H. unfold Qc_of_Z in H. simpl in H.
  injection H. lia.
Qed.

Lemma Qc_of_Z_eq_0 (a : Z) : Qc_of_Z a = 0%Qc <-> a = 0%Z.
Proof.
  split; [|intros ->; apply Qc_is_canon; reflexivity].
  intros H. apply (f_equal this) in H. unfold Qc_of_Z in H. simpl in H.
  injection H. lia.
Qed.

Lemma Qc_div_le_1 (x y : Qc) : (0 < y -> x <= y -> x / y <= 1)%Qc.
Proof.
  intros Hy Hxy. apply (Qcmult_lt_0_le_reg_r _ _ y Hy).
  unfold Qcdiv. rewrite <- Qcmult_assoc, Qcmult_inv_l, Qcmult_1_r, Qcmult_1_l.
  - exact Hxy.
  - intros ->. now apply Qclt_not_eq in Hy.
Qed.

Lemma Qc_div_eq_0 (x y : Qc) : y <> 0%Qc -> (x / y = 0 <-> x = 0)%Qc.
Proof.
  intros Hy. split.
  - intros H. apply (f_equal (fun q => (q * y)%Qc)) in H.
    unfold Qcdiv in H.
    rewrite <- Qcmult_assoc, Qcmult_inv_l, Qcmult_1_r, Qcmult_0_l in H by exact Hy.
    exact H.
  - intros ->. unfold Qcdiv. apply Qcmult_0_l.
Qed.

Lemma float_or_zero_some (x : Qc) : float_or_zero (Some x) = x.
Proof.
  unfold float_or_zero. destruct (Qc_eq_bool x 0) eqn:E; [|reflexivity].
  symmetry. now apply Qc_eq_bool_correct.
Qed.

(** The rows of a merchant. *)
Lemma merchant_rows_elem_of (db : Database) (merchant : string) (t : Transaction) :
  t ∈ filter (fun t => merchant_id t = merchant) (snd <$> map_to_list (transactions db))
  <-> (exists k, transactions db !! k = Some t) /\ merchant_id t = merchant.
Proof.
  rewrite list_elem_of_filter, list_elem_of_fmap. split.
  - intros (Hp & [k t'] & -> & Hkt). apply elem_of_map_to_list in Hkt. eauto.
  - intros ((k & Hk) & Hp). split; [exact Hp|].
    exists (k, t). split; [reflexivity|]. now apply elem_of_map_to_list.
Qed.

(** With a row of the merchant the division of the query is defined. *)
Lemma get_merchant_stats_returns (db : Database) (merchant : string)
    (k : string) (t : Transaction) :
  transactions db !! k = Some t -> merchant_id t = merchant ->
  let rows := filter (fun t => merchant_id t = merchant)
                     (snd <$> map_to_list (transactions db)) in
  let frauds := filter (fun t => is_fraud t = Some true) rows in
  (1 <= Z.of_nat (length rows))%Z
  /\ get_merchant_stats {| pool := Some db |} merchant
     = Ok {| total_transactions := Z.of_nat (length rows);
             avg_amount := float_or_zero (sql_avg (amount <$> rows));
             fraud_count := Z.of_nat (length frauds);
             fraud_rate := (Qc_of_Z (Z.of_nat (length frauds))
                            / Qc_of_Z (Z.of_nat (length rows)))%Qc |}.
Proof.
  intros Hk Hm rows frauds.
  assert (Hin : t ∈ rows) by (apply merchant_rows_elem_of; eauto).
  assert (Hlen : (1 <= Z.of_nat (length rows))%Z).
  { destruct rows; [inversion Hin | simpl; lia]. }
  split; [exact Hlen|].
  unfold get_merchant_stats, acquire. cbn [pool exc_bind]. fold rows. fold frauds.
  unfold sql_float_div.
  destruct (Qc_eq_bool _ 0) eqn:E.
  - apply Qc_eq_bool_correct, Qc_of_Z_eq_0 in E. lia.
  - cbn [exc_bind]. now rewrite float_or_zero_some.
Qed.

(** X3.  For a merchant with at least one stored transaction
    [get_merchant_stats] returns: the count is at least 1, the number
    of frauds lies between 0 and the count, the fraud rate is their
    quotient, lies in [0, 1], and is zero exactly when no transaction
    of the merchant is marked as fraud. *)
Theorem get_merchant_stats_with_rows (db : Database) (merchant : string)
    (k : string) (t : Transaction) :
  transactions db !! k = Some t -> merchant_id t = merchant ->
  exists st,
    get_merchant_stats {| pool := Some db |} merchant = Ok st
    /\ (1 <= total_transactions st)%Z
    /\ (0 <= fraud_count st <= total_transactions st)%Z
    /\ fraud_rate st
       = (Qc_of_Z (fraud_count st) / Qc_of_Z (total_transactions st))%Qc
    /\ (0 <= fraud_rate st <= 1)%Qc
    /\ (fraud_rate st = 0%Qc <-> fraud_count st = 0%Z).
Proof.
  intros Hk Hm.
  destruct (get_merchant_stats_returns db merchant k t Hk Hm) as (Hlen & ->).
  eexists. split; [reflexivity|].
  cbn [total_transactions fraud_count fraud_rate].
  set (rows := filter (fun t => merchant_id t = merchant) _) in *.
  set (frauds := filter (fun t => is_fraud t = Some true) rows).
  assert (Hf : (Z.of_nat (length frauds) <= Z.of_nat (length rows))%Z)
    by (apply inj_le, length_filter).
  split; [exact Hlen|]. split; [lia|]. split; [reflexivity|].
  split; [split|].
  - apply Qc_div_nonneg; apply Qc_of_Z_nonneg; lia.
  - apply Qc_div_le_1; [apply Qc_of_Z_pos; lia | now apply Qc_of_Z_le].
  - rewrite Qc_div_eq_0; [apply Qc_of_Z_eq_0|].
    intros C. apply Qc_of_Z_eq_0 in C. lia.
Qed.

Lemma get_merchant_stats_with_rows_witness :
  exists st,
    get_merchant_stats {| pool := Some Sample.db_with_earlier |} "TEST_MERCH" = Ok st
    /\ (1 <= total_transactions st)%Z /\ fraud_rate st = 0%Qc.
Proof.
  destruct (get_merchant_stats_with_rows Sample.db_with_earlier "TEST_MERCH"
              "txn-1" Sample.earlier) as (st & Hst & Htot & _ & _ & _ & Hzero);
    [vm_compute; reflexivity | reflexivity |].
  exists st. split; [exact Hst|]. split; [exact Htot|].
  apply Hzero. vm_compute in Hst. injection Hst as <-. reflexivity.
Defined.



(** The fields of an engineered vector that do not depend on the
    history: on either way out of [engineer_features] they are
    computed from the transaction alone, or are constants. *)
Lemma assemble_features_fields L key T H M fv :
  assemble_features L key T H M = Ok fv ->
  hour_of_day fv = hour (ts T) /\ day_of_week fv = weekday (ts T)
  /\ is_weekend fv = (5 <=? weekday (ts T))%Z /\ is_holiday fv = false
  /\ channel_card_present fv = ChannelType_eqb (channel T) CARD_PRESENT
  /\ channel_web fv = ChannelType_eqb (channel T) WEB
  /\ channel_app fv = ChannelType_eqb (channel T) APP
  /\ distance_from_home fv = 0%Qc /\ mcc_fraud_rate fv = dec 1 100
  /\ device_rarity_score fv = 1%Qc /\ ip_rarity_score fv = 1%Qc.
Proof.
  unfold assemble_features, FeatureVector_new, exc_bind.
  destruct (_calculate_amount_features L T H); [|discriminate].
  destruct (pydantic_bool "device_change" _); [|discriminate].
  destruct (pydantic_bool "ip_change" _); [|discriminate].
  intros E. injection E as <-. cbn.
  repeat split; destruct H; reflexivity.
Qed.

Lemma engineer_features_fields L key utcnow T db fe fv fe' :
  engineer_features L key utcnow T db fe = (Ok fv, fe') ->
  hour_of_day fv = hour (ts T) /\ day_of_week fv = weekday (ts T)
  /\ is_weekend fv = (5 <=? weekday (ts T))%Z /\ is_holiday fv = false
  /\ channel_card_present fv = ChannelType_eqb (channel T) CARD_PRESENT
  /\ channel_web fv = ChannelType_eqb (channel T) WEB
  /\ channel_app fv = ChannelType_eqb (channel T) APP
  /\ distance_from_home fv = 0%Qc /\ mcc_fraud_rate fv = dec 1 100
  /\ device_rarity_score fv = 1%Qc /\ ip_rarity_score fv = 1%Qc.
Proof.
  intros Hrun.
  destruct (engineer_features_cases L key utcnow T db fe)
    as [(H & M & fv0 & Ha & Hr & _) | (Hr & _)]; rewrite Hrun in Hr; simpl in Hr.
  - injection Hr as <-. exact (assemble_features_fields _ _ _ _ _ _ Ha).
  - unfold _get_default_features, exc_bind in Hr.
    destruct (math_log L (amount T + 1)%Qc); [|discriminate].
    injection Hr as ->. cbn. repeat split.
Qed.

(** X5.  In every vector [engineer_features] returns, whichever way
    it was built, the hour lies in 0..23 and the day of the week in
    0..6, [is_weekend] holds exactly on days 5 and 6, at most one
    channel flag is set, the flags determine the channel of the
    transaction, and none is set exactly for a [phone] transaction. *)
Theorem engineered_time_and_channel
    (L : Libs) (key : HashKey) (utcnow : Z) (T : Transaction)
    (db : DatabaseManager) (fe fe' : FeatureEngineer) (fv : FeatureVector) :
  engineer_features L key utcnow T db fe = (Ok fv, fe') ->
  (0 <= hour_of_day fv <= 23)%Z
  /\ (0 <= day_of_week fv <= 6)%Z
  /\ (is_weekend fv = true <-> (5 <= day_of_week fv)%Z)
  /\ channel_of_flags (channel_card_present fv) (channel_web fv) (channel_app fv)
     = channel T
  /\ (Z.b2z (channel_card_present fv) + Z.b2z (channel_web fv)
      + Z.b2z (channel_app fv) <= 1)%Z
  /\ (channel T = PHONE
      <-> channel_card_present fv = false /\ channel_web fv = false
          /\ channel_app fv = false).
Proof.
  intros Hrun.
  destruct (engineer_features_fields _ _ _ _ _ _ _ _ Hrun)
    as (-> & -> & -> & _ & -> & -> & -> & _).
  split; [|split; [|split; [|split; [|split]]]].
  - unfold hour. pose proof (Z.mod_pos_bound (ts T / hour_us) 24). lia.
  - unfold weekday. pose proof (Z.mod_pos_bound (ts T / (24 * hour_us) + 3) 7). lia.
  - apply Z.leb_le.
  - now destruct (channel T).
  - now destruct (channel T).
  - destruct (channel T); simpl; split; try discriminate; try tauto;
      intros (? & ? & ?); discriminate.
Qed.

Lemma engineered_time_and_channel_witness :
  exists fv fe',
    engineer_features Sample.libs hashseed_0 Sample.utcnow Sample.current
      {| pool := Some Sample.empty_db |} FeatureEngineer_init = (Ok fv, fe')
    /\ (0 <= hour_of_day fv <= 23)%Z
    /\ channel_of_flags (channel_card_present fv) (channel_web fv) (channel_app fv)
       = CARD_PRESENT.
Proof.
  destruct (engineer_features Sample.libs hashseed_0 Sample.utcnow Sample.current
              {| pool := Some Sample.empty_db |} FeatureEngineer_init)
    as [[fv|e] fe'] eqn:H; [|vm_compute in H; discriminate].
  destruct (engineered_time_and_channel _ _ _ _ _ _ _ _ H) as (Hh & _ & _ & Hc & _).
  exists fv, fe'. split; [reflexivity|]. split; [exact Hh | exact Hc].
Defined.

(** X6.  Five features are never computed: in every vector
    [engineer_features] returns, the distance from home is 0, the
    holiday flag is off, the fraud rate of the category code is 0.01
    and both rarity scores are 1.  As the device anomaly is a rarity
    score above 0.8, every explanation of a score of such a vector
    reports [device_anomaly]. *)
Theorem engineered_constants
    (L : Libs) (key : HashKey) (utcnow : Z) (T : Transaction)
    (db : DatabaseManager) (fe fe' : FeatureEngineer) (fv : FeatureVector) :
  engineer_features L key utcnow T db fe = (Ok fv, fe') ->
  distance_from_home fv = 0%Qc
  /\ is_holiday fv = false
  /\ mcc_fraud_rate fv = dec 1 100
  /\ device_rarity_score fv = 1%Qc
  /\ ip_rarity_score fv = 1%Qc
  /\ (forall ensemble_score if_score ae_score,
        exists top counterfactuals high_amount high_velocity geographic_anomaly
               suspicious_merchant,
          _generate_explanation fv ensemble_score if_score ae_score
          = Explained ensemble_score if_score ae_score top counterfactuals
              (MkRiskFactors high_amount high_velocity geographic_anomaly
                             suspicious_merchant true)).
Proof.
  intros Hrun.
  destruct (engineer_features_fields _ _ _ _ _ _ _ _ Hrun)
    as (_ & _ & _ & Hh & _ & _ & _ & Hd & Hm & Hdev & Hip).
  repeat (split; [assumption|]).
  intros e i a. unfold _generate_explanation. rewrite Hdev.
  repeat eexists.
Qed.

Lemma engineered_constants_witness :
  exists fv fe',
    engineer_features Sample.libs hashseed_0 Sample.utcnow Sample.same_device
      {| pool := Some Sample.db_with_earlier |} FeatureEngineer_init = (Ok fv, fe')
    /\ device_rarity_score fv = 1%Qc /\ distance_from_home fv = 0%Qc.
Proof.
  destruct (engineer_features Sample.libs hashseed_0 Sample.utcnow Sample.same_device
              {| pool := Some Sample.db_with_earlier |} FeatureEngineer_init)
    as [[fv|e] fe'] eqn:H; [|vm_compute in H; discriminate].
  destruct (engineered_constants _ _ _ _ _ _ _ _ H) as (Hd & _ & _ & Hr & _).
  exists fv, fe'. split; [reflexivity|]. split; [exact Hr | exact Hd].
Defined.

(** X7.  The cache of merchant statistics is filled once and never
    refreshed.  A cached merchant is answered from the cache without a
    query, so also without a connection; a query that raises leaves the
    cache as it was; a call that returns has cached what it returns,
    touched no other entry, and every later call for that merchant
    returns the same statistics whatever the store then holds. *)
Theorem merchant_stats_cache_is_never_refreshed
    (merchant : string) (db : DatabaseManager) (fe : FeatureEngineer) :
  (forall st,
     merchant_stats_cache fe !! merchant = Some st ->
     _get_merchant_stats merchant db fe = (Ok st, fe))
  /\ (forall e,
        merchant_stats_cache fe !! merchant = None ->
        get_merchant_stats db merchant = Raise e ->
        _get_merchant_stats merchant db fe = (Raise e, fe))
  /\ (forall st fe',
        _get_merchant_stats merchant db fe = (Ok st, fe') ->
        merchant_stats_cache fe' !! merchant = Some st
        /\ (forall other, other <> merchant ->
              merchant_stats_cache fe' !! other = merchant_stats_cache fe !! other)
        /\ customer_home_locations fe' = customer_home_locations fe
        /\ (forall db2, _get_merchant_stats merchant db2 fe' = (Ok st, fe'))).
Proof.
  unfold _get_merchant_stats, st_bind, st_get, st_lift, st_ret, st_put.
  split; [|split].
  - intros st ->. reflexivity.
  - intros e -> ->. reflexivity.
  - intros st fe'.
    destruct (merchant_stats_cache fe !! merchant) as [st0|] eqn:Hc.
    + intros E. injection E as <- <-. rewrite Hc. repeat split.
    + destruct (get_merchant_stats db merchant) as [st1|]; [|discriminate].
      intros E. injection E as <- <-. simpl. rewrite lookup_insert_eq.
      repeat split. intros other Hne. now apply lookup_insert_ne.
Qed.

Lemma Qc_leb_total {A} (key : A -> Qc) : leb_total (fun a b => Qc_leb (key a) (key b)).
Proof.
  intros a b H. apply Qc_leb_le.
  destruct (Qclt_le_dec (key a) (key b)) as [Hlt|Hle]; [|exact Hle].
  apply Qclt_le_weak, Qc_leb_le in Hlt. congruence.
Qed.

Lemma Qc_leb_trans {A} (key : A -> Qc) : leb_trans (fun a b => Qc_leb (key a) (key b)).
Proof.
  intros a b c H1 H2. apply Qc_leb_le. apply Qc_leb_le in H1, H2.
  eapply Qcle_trans; eassumption.
Qed.

(** X8.  The explanation lists exactly three contributing features:
    the first three of the six contributions put in non-increasing
    order, so none of the three left out outranks one of the three
    listed.  The sort is stable: when the six are already in order,
    the first three are listed as they stand. *)
Theorem explanation_top_features
    (f : FeatureVector) (ensemble_score if_score ae_score : Qc) :
  exists top rest counterfactuals risk_factors,
    _generate_explanation f ensemble_score if_score ae_score
    = Explained ensemble_score if_score ae_score top counterfactuals risk_factors
    /\ length top = 3%nat
    /\ (top ++ rest)%list ≡ₚ feature_contributions f
    /\ StronglySorted ranks_before (top ++ rest)%list
    /\ (forall x y, x ∈ top -> y ∈ rest -> ranks_before x y)
    /\ (StronglySorted ranks_before (feature_contributions f) ->
        top = take 3 (feature_contributions f)).
Proof.
  set (leb := fun a b : string * Qc => Qc_leb (snd a) (snd b)).
  set (sorted := sort_desc leb (feature_contributions f)).
  assert (Hsorted : StronglySorted ranks_before sorted).
  { eapply StronglySorted_mono;
      [|apply (sort_desc_sorted leb); [apply Qc_leb_total | apply Qc_leb_trans]].
    intros x y H. now apply Qc_leb_le. }
  exists (take 3 sorted), (drop 3 sorted). do 2 eexists.
  split; [reflexivity|]. rewrite take_drop.
  split; [|split; [|split; [|split]]].
  - unfold sorted. rewrite length_take, sort_desc_length. reflexivity.
  - apply sort_desc_perm.
  - exact Hsorted.
  - intros x y Hx Hy. rewrite <- (take_drop 3 sorted) in Hsorted.
    eapply StronglySorted_app_1_elem_of; eassumption.
  - intros H. subst sorted. rewrite sort_desc_of_sorted; [reflexivity|].
    eapply StronglySorted_mono; [|exact H].
    intros x y Hxy. now apply Qc_leb_le.
Qed.

(** X9.  The counterfactuals follow three of the five risk factors,
    one suggestion each for a high amount, a high velocity and a
    geographic anomaly, and nothing else: a suspicious merchant and a
    device anomaly never add one.  The risk factors are the threshold
    tests of the source. *)
Theorem counterfactuals_follow_risk_factors
    (f : FeatureVector) (ensemble_score if_score ae_score : Qc) :
  exists top counterfactuals high_amount high_velocity geographic_anomaly
         suspicious_merchant device_anomaly,
    _generate_explanation f ensemble_score if_score ae_score
    = Explained ensemble_score if_score ae_score top counterfactuals
        (MkRiskFactors high_amount high_velocity geographic_anomaly
                       suspicious_merchant device_anomaly)
    /\ ("Reduce transaction amount" ∈ counterfactuals <-> high_amount = true)
    /\ ("Reduce transaction frequency" ∈ counterfactuals <-> high_velocity = true)
    /\ ("Use card in home country" ∈ counterfactuals <-> geographic_anomaly = true)
    /\ (forall c, c ∈ counterfactuals ->
          c ∈ ["Reduce transaction amount"; "Reduce transaction frequency";
               "Use card in home country"])
    /\ Z.of_nat (length counterfactuals)
       = (Z.b2z high_amount + Z.b2z high_velocity + Z.b2z geographic_anomaly)%Z
    /\ (high_amount = true <-> (dec 2 1 < amount_z_score f)%Qc)
    /\ (high_velocity = true <-> (5 < txn_count_1h f)%Z)
    /\ geographic_anomaly = country_change f
    /\ (suspicious_merchant = true <-> (dec 1 10 < merchant_fraud_rate f)%Qc)
    /\ (device_anomaly = true <-> (dec 8 10 < device_rarity_score f)%Qc).
Proof.
  do 7 eexists. split; [reflexivity|].
  rewrite !Qc_ltb_lt, Z.ltb_lt.
  assert (Hcf : forall a v c : bool,
            let cf := ((if a then ["Reduce transaction amount"] else [])
                       ++ (if v then ["Reduce transaction frequency"] else [])
                       ++ (if c then ["Use card in home country"] else []))%list in
            ("Reduce transaction amount" ∈ cf <-> a = true)
            /\ ("Reduce transaction frequency" ∈ cf <-> v = true)
            /\ ("Use card in home country" ∈ cf <-> c = true)
            /\ (forall x, x ∈ cf ->
                  x ∈ ["Reduce transaction amount"; "Reduce transaction frequency";
                       "Use card in home country"])
            /\ Z.of_nat (length cf) = (Z.b2z a + Z.b2z v + Z.b2z c)%Z).
  { intros [] [] []; cbn; repeat split; try reflexivity; intros;
      repeat match goal with
             | H : _ ∈ _ |- _ => rewrite ?elem_of_cons, ?elem_of_nil in H; revert H
             end;
      rewrite ?elem_of_cons, ?elem_of_nil;
      intuition (try discriminate; auto). }
  destruct (Hcf (Qc_ltb (dec 2 1) (amount_z_score f)) (5 <? txn_count_1h f)%Z
                (country_change f)) as (H1 & H2 & H3 & H4 & H5).
  rewrite Qc_ltb_lt in H1. rewrite Z.ltb_lt in H2.
  repeat (split; [assumption|]). repeat split; tauto.
Qed.

Section Hoare.
Context {A B : Type}.

Lemma preserves_bind (I : Process -> Prop) (c : ST Process A) (k : A -> ST Process B) :
  preserves I c -> (forall a, preserves I (k a)) -> preserves I (st_bind c k).
Proof.
  intros Hc Hk p Hp. unfold st_bind. specialize (Hc p Hp).
  destruct (c p) as [[a|e] p1]; simpl in *; [now apply Hk | exact Hc].
Qed.

Lemma preserves_try (I : Process -> Prop) (c : ST Process A)
    (h : exception -> ST Process A) :
  preserves I c -> (forall e, preserves I (h e)) -> preserves I (st_try c h).
Proof.
  intros Hc Hh p Hp. unfold st_try. specialize (Hc p Hp).
  destruct (c p) as [[a|e] p1]; simpl in *; [exact Hc | now apply Hh].
Qed.

(** What the first step establishes and the rest preserves holds at
    the end; so does what the rest establishes. *)
Lemma establishes_bind_l (Q : Process -> Prop) (c : ST Process A)
    (k : A -> ST Process B) :
  establishes Q c -> (forall a, preserves Q (k a)) -> establishes Q (st_bind c k).
Proof.
  intros Hc Hk p b p'. unfold st_bind.
  destruct (c p) as [[a|e] p1] eqn:E; [|discriminate].
  intros H. specialize (Hk a p1 (Hc _ _ _ E)). now rewrite H in Hk.
Qed.

Lemma establishes_bind_r (Q : Process -> Prop) (c : ST Process A)
    (k : A -> ST Process B) :
  (forall a, establishes Q (k a)) -> establishes Q (st_bind c k).
Proof.
  intros Hk p b p'. unfold st_bind.
  destruct (c p) as [[a|e] p1]; [|discriminate]. apply Hk.
Qed.

Lemma establishes_try (Q : Process -> Prop) (c : ST Process A)
    (h : exception -> ST Process A) :
  establishes Q c -> (forall e, establishes Q (h e)) -> establishes Q (st_try c h).
Proof.
  intros Hc Hh p a p'. unfold st_try.
  destruct (c p) as [[a1|e] p1] eqn:E.
  - intros H. injection H as <- <-. eapply Hc, E.
  - apply Hh.
Qed.

(** A sequence raises as soon as one of its steps does. *)
Lemma raises_bind (I : Process -> Prop) (c : ST Process A) (k : A -> ST Process B)
    (p : Process) :
  I p -> preserves I c ->
  (forall a p1, c p = (Ok a, p1) -> I p1 ->
     exists e p2, k a p1 = (Raise e, p2) /\ I p2) ->
  exists e p2, st_bind c k p = (Raise e, p2) /\ I p2.
Proof.
  intros Hp Hc Hk. unfold st_bind. specialize (Hc p Hp).
  destruct (c p) as [[a|e] p1]; simpl in Hc; [now apply Hk | eauto].
Qed.

End Hoare.

Lemma preserves_and {A} (I J : Process -> Prop) (c : ST Process A) :
  preserves I c -> preserves J c -> preserves (fun p => I p /\ J p) c.
Proof. intros HI HJ p [Hi Hj]. split; [now apply HI | now apply HJ]. Qed.

(** The steps of loading and training that are single assignments,
    library calls or writes to the disk. *)
Ltac preserves_step :=
  let p := fresh "p" in
  let Hp := fresh "Hp" in
  intros p Hp;
  unfold has_isolation_forest, has_autoencoder, has_scaler, loaded_is,
    autoencoder_pth_is, isolation_forest_joblib_is in *;
  unfold set_isolation_forest, set_autoencoder, set_scaler, set_model_loaded,
    dump_isolation_forest, dump_autoencoder, dump_scaler,
    st_bind, st_lift, st_ret, st_get;
  try match goal with |- context [dump ?E] => destruct (dump E) as [[]|] end;
  simpl; solve [exact Hp | now eexists].

Ltac preserves :=
  repeat first
    [ apply preserves_bind; [|intros ?]
    | apply preserves_try; [|intros ?]
    | match goal with
      | |- preserves _ (match ?x with _ => _ end) => destruct x
      end
    | assumption
    | preserves_step ].

Lemma establishes_set_isolation_forest m :
  establishes has_isolation_forest (set_isolation_forest m).
Proof. intros p a p' H. injection H as _ <-. now eexists. Qed.
Lemma establishes_set_autoencoder m :
  establishes has_autoencoder (set_autoencoder m).
Proof. intros p a p' H. injection H as _ <-. now eexists. Qed.
Lemma establishes_set_scaler m : establishes has_scaler (set_scaler m).
Proof. intros p a p' H. injection H as _ <-. now eexists. Qed.

Lemma establishes_train_isolation_forest E :
  establishes has_isolation_forest (_train_isolation_forest E).
Proof.
  unfold _train_isolation_forest. apply establishes_try; [|intros e].
  - apply establishes_bind_r. intros m. apply establishes_bind_l.
    + apply establishes_set_isolation_forest.
    + intros []. preserves.
  - apply establishes_bind_r. intros m. apply establishes_set_isolation_forest.
Qed.

Lemma establishes_train_autoencoder E :
  establishes has_autoencoder (_train_autoencoder E).
Proof.
  unfold _train_autoencoder. apply establishes_try; [|intros e].
  - do 5 (apply establishes_bind_r; intros ?). apply establishes_bind_l.
    + apply establishes_set_autoencoder.
    + intros []. preserves.
  - apply establishes_bind_r. intros m. apply establishes_bind_l.
    + apply establishes_set_autoencoder.
    + intros []. preserves.
Qed.

Lemma establishes_train_autoencoder_scaler E :
  establishes has_scaler (_train_autoencoder E).
Proof.
  unfold _train_autoencoder. apply establishes_try; [|intros e].
  - apply establishes_bind_r. intros s. apply establishes_bind_l.
    + apply establishes_set_scaler.
    + intros []. preserves.
  - do 3 (apply establishes_bind_r; intros ?). apply establishes_set_scaler.
Qed.

Lemma preserves_train_isolation_forest_slot E I :
  I = has_autoencoder \/ I = has_scaler \/ (exists b, I = loaded_is b)
  \/ (exists x, I = autoencoder_pth_is x) ->
  preserves I (_train_isolation_forest E).
Proof.
  intros [-> | [-> | [[b ->] | [x ->]]]]; unfold _train_isolation_forest; preserves.
Qed.

Lemma preserves_train_autoencoder_slot E I :
  I = has_isolation_forest \/ (exists b, I = loaded_is b) ->
  preserves I (_train_autoencoder E).
Proof.
  intros [-> | [b ->]]; unfold _train_autoencoder; preserves.
Qed.

Lemma establishes_load_isolation_forest E :
  establishes has_isolation_forest (load_models E).
Proof.
  unfold load_models, _train_models. apply establishes_try; [|intros e].
  - do 2 (apply establishes_bind_r; intros ?). apply establishes_bind_l.
    + destruct (isolation_forest_joblib _).
      * apply establishes_bind_r. intros m. apply establishes_set_isolation_forest.
      * apply establishes_train_isolation_forest.
    + intros []. preserves; apply preserves_train_autoencoder_slot; auto.
  - apply establishes_bind_l; [apply establishes_train_isolation_forest|].
    intros []. apply preserves_train_autoencoder_slot; auto.
Qed.

Lemma establishes_load_autoencoder E :
  establishes has_autoencoder (load_models E).
Proof.
  unfold load_models, _train_models. apply establishes_try; [|intros e].
  - do 4 (apply establishes_bind_r; intros ?). apply establishes_bind_l.
    + destruct (autoencoder_pth _).
      * apply establishes_bind_r. intros m. apply establishes_set_autoencoder.
      * apply establishes_train_autoencoder.
    + intros []. preserves.
  - apply establishes_bind_r. intros []. apply establishes_train_autoencoder.
Qed.

Lemma establishes_load_scaler E : establishes has_scaler (load_models E).
Proof.
  unfold load_models, _train_models. apply establishes_try; [|intros e].
  - do 6 (apply establishes_bind_r; intros ?). apply establishes_bind_l.
    + destruct (scaler_joblib _);
        apply establishes_bind_r; intros m; apply establishes_set_scaler.
    + intros []. preserves.
  - apply establishes_bind_r. intros []. apply establishes_train_autoencoder_scaler.
Qed.

Lemma preserves_train_models_loaded E b : preserves (loaded_is b) (_train_models E).
Proof.
  unfold _train_models. apply preserves_bind; [|intros ?].
  - apply preserves_train_isolation_forest_slot; eauto 6.
  - apply preserves_train_autoencoder_slot; eauto.
Qed.

(** X10.  When [load_models] returns, the detector has a forest, a
    network and a scaler, whether they were loaded, trained or built
    as the fallback of a failed training. *)
Theorem load_models_sets_every_model (E : Env) (p p' : Process) :
  load_models E p = (Ok tt, p') ->
  has_isolation_forest p' /\ has_autoencoder p' /\ has_scaler p'.
Proof.
  intros H. split; [|split].
  - exact (establishes_load_isolation_forest E _ _ _ H).
  - exact (establishes_load_autoencoder E _ _ _ H).
  - exact (establishes_load_scaler E _ _ _ H).
Qed.

Lemma load_models_sets_every_model_witness :
  exists p',
    load_models Sample.good_env Sample.fresh = (Ok tt, p')
    /\ has_isolation_forest p' /\ has_autoencoder p' /\ has_scaler p'.
Proof.
  destruct (load_models Sample.good_env Sample.fresh) as [[[]|e] p'] eqn:H;
    [|vm_compute in H; discriminate].
  exists p'. split; [reflexivity|].
  exact (load_models_sets_every_model _ _ _ H).
Defined.

Lemma raises_weaken {A} (I J : Process -> Prop) (r : exc A * Process) :
  (forall p, I p -> J p) ->
  (exists e p1, r = (Raise e, p1) /\ I p1) -> exists e p1, r = (Raise e, p1) /\ J p1.
Proof. intros HIJ (e & p1 & H & Hp). eauto. Qed.

Ltac from_get H := unfold st_get in H; injection H as H ?; subst.

(** When the artifact directory cannot be made, or the file of the
    forest or of the network is there and cannot be loaded, the [try]
    block of [load_models] raises before it sets [model_loaded]. *)
Lemma load_models_raising_step (E : Env) (p : Process) (e : exception) (b : bool) :
  loaded_is b p ->
  makedirs E = Raise e \/ isolation_forest_joblib (disk p) = Some (Raise e)
  \/ autoencoder_pth (disk p) = Some (Raise e) ->
  loaded_is b (snd (load_models E p)).
Proof.
  intros Hb Hbad. unfold load_models, st_try.
  match goal with
  | |- context [match ?body p with _ => _ end] =>
      assert (Hbody : exists e1 p1, body p = (Raise e1, p1) /\ loaded_is b p1)
  end.
  { destruct Hbad as [Hmk | [Hif | Hae]].
    - unfold st_bind, st_lift. rewrite Hmk. eauto.
    - apply (raises_weaken
               (fun p => loaded_is b p /\ isolation_forest_joblib_is (Some (Raise e)) p));
        [tauto|].
      apply raises_bind; [now split | apply preserves_and; preserves|].
      intros [] p1 _ HI.
      apply raises_bind; [exact HI | apply preserves_and; preserves|].
      intros p0 p2 Hget [Hl Hf]. from_get Hget.
      unfold isolation_forest_joblib_is in Hf. rewrite Hf.
      exists e, p2. now split.
    - apply (raises_weaken
               (fun p => loaded_is b p /\ autoencoder_pth_is (Some (Raise e)) p));
        [tauto|].
      apply raises_bind; [now split | apply preserves_and; preserves|].
      intros [] p1 _ HI.
      apply raises_bind; [exact HI | apply preserves_and; preserves|].
      intros p0 p2 Hget HI2. from_get Hget.
      apply raises_bind; [exact HI2 | |].
      { apply preserves_and; (destruct (isolation_forest_joblib _);
          [preserves | apply preserves_train_isolation_forest_slot; eauto 6]). }
      intros [] p3 _ HI3.
      apply raises_bind; [exact HI3 | apply preserves_and; preserves|].
      intros p0 p4 Hget [Hl Hf]. from_get Hget.
      unfold autoencoder_pth_is in Hf. rewrite Hf.
      exists e, p4. now split. }
  destruct Hbody as (e1 & p1 & -> & Hp1). now apply preserves_train_models_loaded.
Qed.

(** X11.  [model_loaded] is set only at the end of the [try] block of
    [load_models].  When the artifact directory cannot be made, or the
    file of the forest or of the network is present and cannot be
    loaded, the models are trained anew and [model_loaded] is left as
    it was: a detector that was not loaded still fails its health
    check. *)
Theorem unreadable_artifact_leaves_detector_unloaded
    (E : Env) (p : Process) (e : exception) :
  makedirs E = Raise e \/ isolation_forest_joblib (disk p) = Some (Raise e)
  \/ autoencoder_pth (disk p) = Some (Raise e) ->
  let p' := snd (load_models E p) in
  model_loaded (self p') = model_loaded (self p)
  /\ (model_loaded (self p) = false ->
      FraudDetector_health_check (self p') = false).
Proof.
  intros Hbad p'.
  assert (H : model_loaded (self p') = model_loaded (self p))
    by (apply (load_models_raising_step E p e); [reflexivity | exact Hbad]).
  split; [exact H|]. intros Hf. unfold FraudDetector_health_check.
  now rewrite H, Hf.
Qed.

Lemma unreadable_artifact_leaves_detector_unloaded_witness :
  FraudDetector_health_check (self (snd (load_models Sample.bad_env Sample.fresh)))
  = false.
Proof.
  apply (unreadable_artifact_leaves_detector_unloaded Sample.bad_env Sample.fresh
           OSError); [left; reflexivity | reflexivity].
Defined.

(** X12.  The first start over an empty artifact directory, when
    every library call succeeds, trains the three models, saves them
    and marks the detector loaded; a second detector started over the
    directory so filled loads the same three models without training
    (whatever training would do then), and both pass the health
    check. *)
Theorem first_start_trains_and_saves
    (E E2 : Env) (m0 m1 : IsolationForest) (s0 s1 : StandardScaler)
    (a0 a1 : Autoencoder) :
  makedirs E = Ok tt -> dump E = Ok tt ->
  new_isolation_forest E = Ok m0 -> fit_isolation_forest E m0 = Ok m1 ->
  new_scaler E = Ok s0 -> fit_scaler E s0 = Ok s1 ->
  new_autoencoder E 34 = Ok a0 -> train_autoencoder E a0 = Ok a1 ->
  makedirs E2 = Ok tt ->
  let empty := {| isolation_forest_joblib := None; autoencoder_pth := None;
                  scaler_joblib := None |} in
  let files := {| isolation_forest_joblib := Some (Ok m1);
                  autoencoder_pth := Some (Ok a1);
                  scaler_joblib := Some (Ok s1) |} in
  let d := {| isolation_forest := Some m1; autoencoder := Some a1;
              scaler := Some s1; self_threshold := dec 95 100;
              model_loaded := true |} in
  load_models E {| self := FraudDetector_init; disk := empty |}
    = (Ok tt, {| self := d; disk := files |})
  /\ load_models E2 {| self := FraudDetector_init; disk := files |}
     = (Ok tt, {| self := d; disk := files |})
  /\ FraudDetector_health_check d = true.
Proof.
  intros Hmk Hdump Hm0 Hm1 Hs0 Hs1 Ha0 Ha1 Hmk2 empty files d.
  split; [|split].
  - unfold load_models, _train_isolation_forest, _train_autoencoder,
      dump_isolation_forest, dump_autoencoder, dump_scaler,
      st_try, st_bind, st_lift, st_get.
    repeat (first [ rewrite Hmk | rewrite Hdump | rewrite Hm0 | rewrite Hm1
                  | rewrite Hs0 | rewrite Hs1 | rewrite Ha0 | rewrite Ha1 ];
            simpl).
    reflexivity.
  - unfold load_models, st_try, st_bind, st_lift, st_get. rewrite Hmk2.
    reflexivity.
  - reflexivity.
Qed.

Lemma first_start_trains_and_saves_witness :
  exists p',
    load_models Sample.good_env Sample.fresh = (Ok tt, p')
    /\ model_loaded (self p') = true
    /\ load_models Sample.unfit_env
         {| self := FraudDetector_init; disk := disk p' |} = (Ok tt, p').
Proof.
  destruct (first_start_trains_and_saves Sample.good_env Sample.unfit_env
              {| score_samples := fun _ => Raise NotFittedError |} Sample.forest
              {| transform := fun _ => Raise NotFittedError |} Sample.std_scaler
              Sample.net Sample.net
              eq_refl eq_refl eq_refl eq_refl eq_refl eq_refl eq_refl eq_refl eq_refl)
    as (H1 & H2 & _).
  eexists. split; [exact H1|]. split; [reflexivity | exact H2].
Defined.

Lemma ensemble_above (i a : Qc) :
  (i <= 1 -> a <= 1 -> dec 95 100 < ensemble i a ->
   dec 7 8 < i /\ dec 11 12 < a /\ 1 < ensemble i a * dec 12 10)%Qc.
Proof.
  unfold ensemble, dec, Qcle, Qclt, Qcplus, Qcmult, Q2Qc. cbn [this].
  rewrite !Qred_correct. intros Hi Ha H. repeat split; lra.
Qed.

Lemma py_min_le_r (a b : Qc) : (py_min a b <= b)%Qc.
Proof. rewrite py_min_comm. apply py_min_le_l. Qed.

Lemma py_min_above (x : Qc) : (1 < x)%Qc -> py_min x 1 = 1%Qc.
Proof.
  intros H. unfold py_min. apply Qc_ltb_lt in H. now rewrite H.
Qed.

(** A sub-score above one half comes from a model that answered. *)
Lemma isolation_forest_score_high (d : FraudDetector) (arr : list Qc) (c : Qc) :
  (dec 1 2 <= c -> c < _isolation_forest_score d arr ->
   exists forest s,
     isolation_forest d = Some forest /\ score_samples forest arr = Ok s
     /\ c < - s)%Qc.
Proof.
  intros Hc. unfold _isolation_forest_score.
  destruct (isolation_forest d) as [forest|];
    [|intros H; destruct (Qclt_not_le _ _ H Hc)].
  destruct (score_samples forest arr) as [s|] eqn:Es;
    [|intros H; destruct (Qclt_not_le _ _ H Hc)].
  intros H. exists forest, s. split; [reflexivity|]. split; [exact Es|].
  unfold py_max in H. destruct (Qc_ltb 0 (py_min 1 (- s))) eqn:E.
  - eapply Qclt_le_trans; [exact H | apply py_min_le_r].
  - destruct (Qclt_not_le _ _ H). eapply Qcle_trans; [|exact Hc].
    apply Qc_leb_le. reflexivity.
Qed.

Lemma autoencoder_score_high (d : FraudDetector) (arr : list Qc) (c : Qc) :
  (dec 1 2 <= c -> c < _autoencoder_score d arr ->
   exists net sc normalized reconstructed,
     autoencoder d = Some net /\ scaler d = Some sc
     /\ transform sc arr = Ok normalized
     /\ forward net normalized = Ok reconstructed
     /\ length reconstructed = length normalized)%Qc.
Proof.
  intros Hc. unfold _autoencoder_score.
  destruct (autoencoder d) as [net|];
    [|intros H; destruct (Qclt_not_le _ _ H Hc)].
  destruct (scaler d) as [sc|];
    [|intros H; destruct (Qclt_not_le _ _ H Hc)].
  destruct (transform sc arr) as [n|] eqn:En; cbn [exc_bind];
    [|intros H; destruct (Qclt_not_le _ _ H Hc)].
  destruct (forward net n) as [r|] eqn:Er; cbn [exc_bind];
    [|intros H; destruct (Qclt_not_le _ _ H Hc)].
  unfold mse_loss. destruct (length r =? length n)%nat eqn:El; cbn [negb];
    [|intros H; destruct (Qclt_not_le _ _ H Hc)].
  intros _. exists net, sc, n, r. apply Nat.eqb_eq in El. auto 6.
Qed.

(** X13.  What an alert takes.  In a state a detector process can
    reach the threshold is 0.95, so a result that is an alert is the
    ensemble's, has confidence 1, and both sub-scores are high: above
    7/8 for the forest and above 11/12 for the network.  Neither is the
    0.5 of a missing or failing model: the forest is there and
    answered with an anomaly score below -7/8, the network and the
    scaler are there and answered. *)
Theorem alert_needs_both_models
    (E : Env) (f : FeatureVector) (p p' : Process) (r : ScoreResult) :
  reachable p ->
  FraudDetector_score E f p = (Ok r, p') ->
  is_alert r = true ->
  let arr := _features_to_array f in
  model_used r = "ensemble"
  /\ confidence r = 1%Qc
  /\ (dec 7 8 < _isolation_forest_score (self p') arr)%Qc
  /\ (dec 11 12 < _autoencoder_score (self p') arr)%Qc
  /\ (exists forest s,
        isolation_forest (self p') = Some forest
        /\ score_samples forest arr = Ok s /\ (dec 7 8 < - s)%Qc)
  /\ (exists net sc normalized reconstructed,
        autoencoder (self p') = Some net /\ scaler (self p') = Some sc
        /\ transform sc arr = Ok normalized
        /\ forward net normalized = Ok reconstructed
        /\ length reconstructed = length normalized).
Proof.
  intros Hreach Hrun Halert arr.
  unfold FraudDetector_score, st_try in Hrun.
  destruct (FraudDetector_score_try E f p) as [[r0|e] p1] eqn:Htry.
  - injection Hrun as -> ->.
    pose proof (keeps_score_try E f p) as Hthr. rewrite Htry in Hthr. simpl in Hthr.
    rewrite (reachable_threshold p Hreach) in Hthr.
    apply score_try_ok in Htry. cbv zeta in Htry. rewrite Hthr in Htry.
    apply ScoreResult_new_ok in Htry as (_ & _ & _ & ->). simpl in *.
    apply Qc_ltb_lt in Halert.
    destruct (ensemble_above _ _ (proj2 (isolation_forest_score_bounds (self p') arr))
                (proj2 (autoencoder_score_bounds (self p') arr)) Halert)
      as (Hi & Ha & Hc).
    split; [reflexivity|]. split; [now apply py_min_above|].
    split; [exact Hi|]. split; [exact Ha|]. split.
    + apply isolation_forest_score_high; [apply Qc_leb_le; reflexivity | exact Hi].
    + apply (autoencoder_score_high _ _ (dec 11 12));
        [apply Qc_leb_le; reflexivity | exact Ha].
  - unfold st_bind, st_get, st_lift in Hrun.
    destruct (ScoreResult_new _ _ _ _ _ _) as [r1|] eqn:Hnew in Hrun; [|discriminate].
    injection Hrun as -> ->.
    apply ScoreResult_new_ok in Hnew as (_ & _ & _ & ->). discriminate.
Qed.

Lemma alert_needs_both_models_witness :
  exists r p',
    FraudDetector_score Alarm.env Sample.vector Sample.fresh = (Ok r, p')
    /\ is_alert r = true /\ confidence r = 1%Qc /\ model_used r = "ensemble".
Proof.
  destruct (FraudDetector_score Alarm.env Sample.vector Sample.fresh)
    as [[r|e] p'] eqn:H; [|vm_compute in H; discriminate].
  assert (Ha : is_alert r = true)
    by (vm_compute in H; injection H as <- _; reflexivity).
  destruct (alert_needs_both_models _ _ _ _ _ (reachable_init _) H Ha)
    as (Hm & Hc & _).
  exists r, p'. auto.
Defined.

(** ** The feature engineer, continued *)

(** X14.  The first transaction at a merchant is scored on the default
    features.  On a connected store that holds no transaction of the
    merchant, and with no cached statistics for it, the statistics
    query raises and [engineer_features] answers with the default
    vector of the transaction, whatever the customer's history is; the
    failure is not cached. *)
Theorem new_merchant_gets_default_features
    (L : Libs) (key : HashKey) (utcnow : Z) (T : Transaction)
    (db : Database) (fe : FeatureEngineer) :
  merchant_stats_cache fe !! merchant_id T = None ->
  (forall k t, transactions db !! k = Some t -> merchant_id t <> merchant_id T) ->
  engineer_features L key utcnow T {| pool := Some db |} fe
  = (_get_default_features L T, fe).
Proof.
  intros Hcache Hnone.
  assert (Hstats : get_merchant_stats {| pool := Some db |} (merchant_id T)
                   = Raise DivisionByZeroError).
  { unfold get_merchant_stats, acquire. cbn [pool exc_bind].
    rewrite (filter_none (fun t => merchant_id t = merchant_id T)); [reflexivity|].
    apply Forall_forall. intros t Ht.
    apply list_elem_of_fmap in Ht as ([k t'] & -> & Hkt).
    apply elem_of_map_to_list in Hkt. simpl. eauto. }
  unfold engineer_features, st_try, engineer_features_try, st_bind, st_lift.
  cbn [get_customer_history acquire pool exc_bind].
  unfold _get_merchant_stats, st_bind, st_get, st_lift. rewrite Hcache, Hstats.
  reflexivity.
Qed.

Lemma new_merchant_gets_default_features_witness :
  engineer_features Sample.libs hashseed_0 Sample.utcnow Sample.current
    {| pool := Some Sample.empty_db |} FeatureEngineer_init
  = (_get_default_features Sample.libs Sample.current, FeatureEngineer_init).
Proof.
  apply new_merchant_gets_default_features.
  - reflexivity.
  - intros k t H. simpl in H. rewrite lookup_empty in H. discriminate.
Defined.





(** ** The alerts *)



Lemma AlertStatus_round_trip (s : AlertStatus) :
  AlertStatus_of_value (AlertStatus_value s) = Ok s.
Proof. now destruct s. Qed.

Lemma varchar_status (s : AlertStatus) :
  varchar 20 (AlertStatus_value s) = Ok (AlertStatus_value s).
Proof. now destruct s. Qed.




(** The three ways [store_alert] ends: it raises and changes nothing,
    it finds the identifier taken and changes nothing, or it adds the
    row. *)
Lemma store_alert_cases (a : Alert) (st : Storage) :
  (exists e, store_alert a st = (Raise e, st))
  \/ (store_alert a st = (Ok tt, st)
      /\ exists id, varchar 36 (alert_id a) = Ok id /\ is_Some (alerts st !! id))
  \/ (exists db id txn sc,
        pool (manager st) = Some db
        /\ varchar 36 (alert_id a) = Ok id
        /\ varchar 36 (alert_txn_id a) = Ok txn
        /\ decimal_10_4 (alert_score a) = Ok sc
        /\ alerts st !! id = None
        /\ is_Some (transactions db !! txn)
        /\ store_alert a st
           = (Ok tt,
              {| manager := manager st;
                 alerts := <[id := {| row_alert_id := id; row_txn_id := txn;
                                      row_score := sc;
                                      row_timestamp := timestamp a;
                                      row_status := AlertStatus_value (status a);
                                      row_explanation := Some (alert_explanation a);
                                      row_analyst_notes := None;
                                      row_resolution := None |}]> (alerts st) |})).
Proof.
  unfold store_alert, acquire.
  destruct (pool (manager st)) as [db|]; cbn [exc_bind]; [|eauto].
  destruct (varchar 36 (alert_id a)) as [id|]; cbn [exc_bind]; [|eauto].
  destruct (varchar 36 (alert_txn_id a)) as [txn|]; cbn [exc_bind]; [|eauto].
  destruct (decimal_10_4 (alert_score a)) as [sc|]; cbn [exc_bind]; [|eauto].
  rewrite varchar_status. cbn [exc_bind].
  destruct (alerts st !! id) as [old|] eqn:Hid.
  - right. left. destruct st. split; [reflexivity|]. exists id. rewrite Hid. eauto.
  - destruct (transactions db !! txn) eqn:Ht; [|eauto].
    right. right. exists db, id, txn, sc. rewrite Ht. eauto 10.
Qed.

(** X16.  An alert, once stored, is never changed.  [store_alert]
    leaves the manager and every row of [alerts] as they are, so a
    second call under an identifier already taken changes nothing,
    whatever status, notes or score the alert then carries; it adds at
    most one row, under the alert's identifier, without notes and
    without resolution; and when it raises nothing is stored. *)
Theorem store_alert_never_updates (a : Alert) (st : Storage) :
  let st' := snd (store_alert a st) in
  manager st' = manager st
  /\ (forall k row, alerts st !! k = Some row -> alerts st' !! k = Some row)
  /\ (forall k row,
        alerts st !! k = None -> alerts st' !! k = Some row ->
        fst (store_alert a st) = Ok tt
        /\ varchar 36 (alert_id a) = Ok k
        /\ row_alert_id row = k
        /\ row_timestamp row = timestamp a
        /\ row_status row = AlertStatus_value (status a)
        /\ row_explanation row = Some (alert_explanation a)
        /\ row_analyst_notes row = None /\ row_resolution row = None)
  /\ (fst (store_alert a st) <> Ok tt -> st' = st).
Proof.
  destruct (store_alert_cases a st)
    as [[e ->] | [[-> _] | (db & id & txn & sc & _ & Hid & _ & _ & Hfresh & _ & ->)]];
    cbn [fst snd manager alerts].
  - repeat split; intros; try assumption; congruence.
  - repeat split; intros; try assumption; congruence.
  - split; [reflexivity|]. split; [|split; [|congruence]].
    + intros k row Hk. rewrite lookup_insert_ne; [exact Hk|]. congruence.
    + intros k row Hk Hrow.
      destruct (decide (id = k)) as [->|Hne].
      * rewrite lookup_insert_eq in Hrow. injection Hrow as <-. cbn. auto 10.
      * rewrite lookup_insert_ne in Hrow by exact Hne. congruence.
Qed.



Lemma store_transaction_in_cases (t : Transaction) (f : FeatureVector)
    (sr : ScoreResult) (st : Storage) :
  alerts (snd (store_transaction_in t f sr st)) = alerts st
  /\ forall db, pool (manager st) = Some db ->
       exists db', pool (manager (snd (store_transaction_in t f sr st))) = Some db'
         /\ forall k, is_Some (transactions db !! k) -> is_Some (transactions db' !! k).
Proof.
  unfold store_transaction_in, store_transaction, acquire.
  destruct (pool (manager st)) as [db|] eqn:Hp; cbn.
  - split; [reflexivity|]. intros db0 E. injection E as <-.
    eexists. split; [reflexivity|]. cbn. intros k [v Hk].
    exists v. now apply insert_do_nothing_keeps.
  - split; [reflexivity|]. intros db0 E. congruence.
Qed.

(** Every row of a store the application built is well formed. *)
Lemma storable_rows (st : Storage) :
  storable st -> forall k row, alerts st !! k = Some row -> alert_row_ok st k row.
Proof.
  induction 1 as [dm | t f sr st _ IH | a st _ IH]; intros k row Hk.
  - cbn in Hk. rewrite lookup_empty in Hk. discriminate.
  - destruct (store_transaction_in_cases t f sr st) as (Ha & Hp).
    rewrite Ha in Hk.
    destruct (IH k row Hk) as (H1 & H2 & H3 & H4 & H5 & db & Hdb & Ht).
    destruct (Hp db Hdb) as (db' & Hdb' & Hgrow).
    unfold alert_row_ok. eauto 12.
  - destruct (store_alert_cases a st)
      as [[e He] | [[He _] | (db & id & txn & sc & Hp & _ & _ & _ & _ & Ht & He)]];
      rewrite He in *; cbn [snd] in *; [now apply IH | now apply IH |].
    cbn [alerts] in Hk. destruct (decide (id = k)) as [->|Hne].
    + rewrite lookup_insert_eq in Hk. injection Hk as <-.
      unfold alert_row_ok. cbn. eauto 12.
    + rewrite lookup_insert_ne in Hk by exact Hne.
      destruct (IH k row Hk) as (H1 & H2 & H3 & H4 & H5 & H6).
      unfold alert_row_ok. cbn. auto 10.
Qed.

Lemma Alert_of_row_ok (st : Storage) (k : string) (row : AlertRow) :
  alert_row_ok st k row ->
  exists a, Alert_of_row row = Ok a
    /\ alert_id a = k /\ alert_txn_id a = row_txn_id row
    /\ timestamp a = row_timestamp row
    /\ analyst_notes a = None /\ resolution a = None.
Proof.
  intros (H1 & [s H2] & _ & H4 & H5 & _). unfold Alert_of_row.
  rewrite H2, AlertStatus_round_trip. cbn [exc_bind]. eexists.
  split; [reflexivity|]. cbn. auto.
Qed.

(** X18.  In a store built by the application (any number of stored
    transactions and alerts), while connected, [get_alert] returns for
    every identifier: [None] exactly when no alert is stored under it,
    otherwise an alert with this identifier, on a stored transaction,
    with neither notes nor resolution.  Reading a status never fails,
    since only the four values are ever written. *)
Theorem stored_alerts_are_well_formed (st : Storage) (db : Database) (id : string) :
  storable st -> pool (manager st) = Some db -> has_nul id = false ->
  exists found,
    get_alert st id = Ok found
    /\ (found = None <-> alerts st !! id = None)
    /\ (forall a, found = Some a ->
          alert_id a = id
          /\ analyst_notes a = None /\ resolution a = None
          /\ is_Some (transactions db !! alert_txn_id a)).
Proof.
  intros Hst Hpool Hnul. unfold get_alert, acquire, text_param.
  rewrite Hpool, Hnul. cbn [exc_bind].
  destruct (alerts st !! id) as [row|] eqn:Hrow.
  - pose proof (storable_rows st Hst id row Hrow) as Hok.
    destruct (Alert_of_row_ok st id row Hok) as (a & -> & Hid & Htxn & _ & Hn & Hr).
    cbn [exc_bind]. eexists. split; [reflexivity|]. split; [split; discriminate|].
    intros a' E. injection E as <-.
    destruct Hok as (_ & _ & _ & _ & _ & db' & Hdb' & Ht).
    rewrite Hpool in Hdb'. injection Hdb' as <-. rewrite Htxn. auto.
  - exists None. split; [reflexivity|]. split; [tauto|]. discriminate.
Qed.

Lemma stored_alerts_are_well_formed_witness :
  exists a,
    get_alert (snd (store_alert Desk.alert Desk.storage)) "alert-1" = Ok (Some a)
    /\ analyst_notes a = None.
Proof.
  destruct (stored_alerts_are_well_formed (snd (store_alert Desk.alert Desk.storage))
              Sample.db_with_earlier "alert-1")
    as (found & Hget & Hnone & Hsome).
  - apply storable_alert, storable_empty.
  - vm_compute. reflexivity.
  - reflexivity.
  - destruct found as [a|].
    + exists a. split; [exact Hget|]. now destruct (Hsome a eq_refl) as (_ & Hn & _).
    + exfalso. destruct Hnone as [Hnone _]. specialize (Hnone eq_refl).
      vm_compute in Hnone. discriminate.
Defined.

Lemma exc_mapM_Forall2 {A B} (f : A -> exc B) (l : list A) (l' : list B) :
  exc_mapM f l = Ok l' -> Forall2 (fun x y => f x = Ok y) l l'.
Proof.
  revert l'. induction l as [|x r IH]; intros l'; simpl.
  - intros E. injection E as <-. constructor.
  - destruct (f x) as [y|] eqn:Ex; cbn [exc_bind]; [|discriminate].
    destruct (exc_mapM f r) as [ys|]; cbn [exc_bind]; [|discriminate].
    intros E. injection E as <-. constructor; [exact Ex | now apply IH].
Qed.

Lemma exc_mapM_returns {A B} (f : A -> exc B) (l : list A) :
  Forall (fun x => exists y, f x = Ok y) l -> exists l', exc_mapM f l = Ok l'.
Proof.
  induction 1 as [|x r [y Hy] _ [ys IH]]; simpl; [eauto|].
  rewrite Hy, IH. cbn [exc_bind]. eauto.
Qed.

Lemma StronglySorted_Forall2 {A B} (rel : A -> B -> Prop)
    (R : A -> A -> Prop) (S : B -> B -> Prop) (l : list A) (l' : list B) :
  (forall x y x' y', rel x x' -> rel y y' -> R x y -> S x' y') ->
  Forall2 rel l l' -> StronglySorted R l -> StronglySorted S l'.
Proof.
  intros HRS. induction 1 as [|x x' l l' Hx Hl IH]; intros Hs; [constructor|].
  apply StronglySorted_inv in Hs as [Hs Hall]. constructor; [now apply IH|].
  clear IH Hs. induction Hl as [|y y' l l' Hy Hl IH]; [constructor|].
  apply Forall_cons in Hall as [Hxy Hall]. constructor; [|now apply IH].
  eapply HRS; eassumption.
Qed.

Lemma row_count_param_ok (n : Z) :
  (0 <= n < 2 ^ 63)%Z -> row_count_param n = Ok (Z.to_nat n).
Proof.
  intros H. unfold row_count_param.
  destruct (n <? - 2 ^ 63)%Z eqn:E1; [apply Z.ltb_lt in E1; lia|].
  destruct (2 ^ 63 <=? n)%Z eqn:E2; [apply Z.leb_le in E2; lia|].
  destruct (n <? 0)%Z eqn:E3; [apply Z.ltb_lt in E3; lia|]. reflexivity.
Qed.

Lemma row_count_param_negative (n : Z) :
  (n < 0)%Z -> exists e, row_count_param n = Raise e.
Proof.
  intros H. unfold row_count_param.
  destruct (_ || _); [eauto|].
  destruct (n <? 0)%Z eqn:E3; [eauto | apply Z.ltb_ge in E3; lia].
Qed.

(** X19.  Paging.  In a store built by the application, while
    connected, for a limit and an offset that are not negative
    [get_alerts] returns a page: its length is the limit, or what is
    left of the alerts since [since] past the offset (their number is
    what [get_alert_count] returns); its alerts are stored ones, not
    older than [since], in non-increasing order of timestamp, without
    notes or resolution. *)
Theorem alerts_are_paged (st : Storage) (db : Database) (since limit offset : Z) :
  storable st -> pool (manager st) = Some db ->
  (0 <= limit < 2 ^ 63)%Z -> (0 <= offset < 2 ^ 63)%Z ->
  exists page total,
    get_alerts st since limit offset = Ok page
    /\ get_alert_count st since = Ok total
    /\ Z.of_nat (length page) = Z.min limit (Z.max 0 (total - offset))
    /\ StronglySorted (fun a b => (timestamp b <= timestamp a)%Z) page
    /\ (forall a, a ∈ page ->
          (since <= timestamp a)%Z
          /\ (exists row, alerts st !! alert_id a = Some row
                          /\ Alert_of_row row = Ok a)
          /\ analyst_notes a = None /\ resolution a = None).
Proof.
  intros Hst Hpool Hlimit Hoffset.
  unfold get_alerts, get_alert_count, acquire. rewrite Hpool. cbn [exc_bind].
  rewrite (row_count_param_ok _ Hlimit), (row_count_param_ok _ Hoffset).
  cbn [exc_bind].
  set (leb := fun a b : AlertRow => (row_timestamp a <=? row_timestamp b)%Z).
  set (rows := sort_desc leb (alerts_since st since)).
  set (sel := take (Z.to_nat limit) (drop (Z.to_nat offset) rows)).
  assert (Hrows : forall row, row ∈ rows ->
            (since <= row_timestamp row)%Z
            /\ exists k, alerts st !! k = Some row).
  { intros row Hrow. apply sort_desc_elem_of in Hrow.
    unfold alerts_since in Hrow.
    apply list_elem_of_filter in Hrow as (Hsince & Hrow).
    apply list_elem_of_fmap in Hrow as ([k row'] & -> & Hk).
    apply elem_of_map_to_list in Hk. eauto. }
  assert (Hsel : forall row, row ∈ sel -> row ∈ rows).
  { intros row Hrow. subst sel.
    eapply subseteq_drop, subseteq_take, Hrow. }
  assert (Hsorted : StronglySorted (fun a b => (row_timestamp b <= row_timestamp a)%Z) sel).
  { assert (Hs : StronglySorted (fun a b => (row_timestamp b <= row_timestamp a)%Z) rows).
    { eapply StronglySorted_mono;
        [|apply (sort_desc_sorted leb); [apply Z_leb_total | apply Z_leb_trans]].
      intros x y H. now apply Z.leb_le. }
    rewrite <- (take_drop (Z.to_nat offset) rows) in Hs.
    apply StronglySorted_app_1_r in Hs.
    rewrite <- (take_drop (Z.to_nat limit) (drop (Z.to_nat offset) rows)) in Hs.
    now apply StronglySorted_app_1_l in Hs. }
  destruct (exc_mapM_returns Alert_of_row sel) as (page & Hpage).
  { apply Forall_forall. intros row Hrow.
    destruct (Hrows row (Hsel row Hrow)) as (_ & k & Hk).
    destruct (Alert_of_row_ok st k row (storable_rows st Hst k row Hk)) as (a & Ha & _).
    eauto. }
  rewrite Hpage. apply exc_mapM_Forall2 in Hpage.
  exists page. eexists. split; [reflexivity|]. split; [reflexivity|].
  split; [|split].
  - rewrite <- (Forall2_length _ _ _ Hpage). subst sel.
    rewrite length_take, length_drop. subst rows. rewrite sort_desc_length. lia.
  - eapply StronglySorted_Forall2; [| exact Hpage | exact Hsorted].
    intros x y x' y' Hx Hy Hxy. cbn in Hxy.
    unfold Alert_of_row, exc_bind in Hx, Hy.
    destruct (AlertStatus_of_value (row_status x)); [|discriminate].
    destruct (AlertStatus_of_value (row_status y)); [|discriminate].
    injection Hx as <-. injection Hy as <-. exact Hxy.
  - intros a Ha.
    apply list_elem_of_lookup in Ha as [i Hi].
    destruct (Forall2_lookup_r _ _ _ _ _ Hpage Hi) as (row & Hrow & Hra).
    apply list_elem_of_lookup_2 in Hrow.
    destruct (Hrows row (Hsel row Hrow)) as (Hsince & k & Hk).
    destruct (Alert_of_row_ok st k row (storable_rows st Hst k row Hk))
      as (a' & Ha' & Hid & _ & Hts & Hn & Hr).
    rewrite Hra in Ha'. injection Ha' as <-.
    rewrite Hts, Hid. eauto 10.
Qed.

Lemma alerts_are_paged_witness :
  exists page,
    get_alerts (snd (store_alert Desk.alert Desk.storage)) 0 100 0 = Ok page
    /\ length page = 1%nat.
Proof.
  destruct (alerts_are_paged (snd (store_alert Desk.alert Desk.storage))
              Sample.db_with_earlier 0 100 0)
    as (page & total & Hpage & Htotal & Hlen & _).
  - apply storable_alert, storable_empty.
  - vm_compute. reflexivity.
  - lia.
  - lia.
  - exists page. split; [exact Hpage|].
    vm_compute in Htotal. injection Htotal as <-. lia.
Defined.

(** ** The producer and the application *)

Lemma KafkaProducer_connect_raises (environ : option string) (self : KafkaProducer) :
  KafkaProducer_connect environ self = (Raise TypeError, self).
Proof. reflexivity. Qed.

(** X20.  The producer never sends.  The name [KafkaProducer] in
    [connect] is the class of the module, whose constructor takes no
    serializer: in every state of a producer [connect] raises a
    [TypeError] and leaves it as it was, [send_transaction] raises and
    leaves it as it was, and [health_check] answers [False].  What the
    constructor does return, for the one keyword it takes, has no
    producer. *)
Theorem kafka_producer_never_sends (environ : option string) (self : KafkaProducer) :
  KafkaProducer_connect environ self = (Raise TypeError, self)
  /\ (exists e, fst (KafkaProducer_send_transaction environ self) = Raise e)
  /\ snd (KafkaProducer_send_transaction environ self) = self
  /\ KafkaProducer_health_check environ self = (Ok false, self)
  /\ (forall keywords servers p,
        KafkaProducer_new environ keywords servers = Ok p ->
        producer p = None /\ forall k, k ∈ keywords -> k = "bootstrap_servers").
Proof.
  split; [reflexivity|].
  assert (Hnew : forall keywords servers p,
            KafkaProducer_new environ keywords servers = Ok p ->
            producer p = None /\ forall k, k ∈ keywords -> k = "bootstrap_servers").
  { intros keywords servers q. unfold KafkaProducer_new, bind_keywords, exc_bind.
    destruct (forallb _ keywords) eqn:E; [|discriminate].
    intros H. injection H as <-. split; [reflexivity|].
    intros k Hk. rewrite forallb_forall in E. apply list_elem_of_In, E in Hk.
    unfold str_in in Hk. cbn in Hk. rewrite orb_false_r in Hk.
    now apply String.eqb_eq in Hk. }
  unfold KafkaProducer_send_transaction, KafkaProducer_health_check, st_try,
    st_bind, st_get, st_lift, st_ret.
  destruct self as [s [p|]]; cbn; eauto 6.
Qed.

(** ** The handler [score_transaction] *)








(** X22.  The request model checks no coordinate, the transaction
    model does: a request that FastAPI accepts but whose latitude or
    longitude is out of range is answered 500 with the validation
    error of [Transaction], before anything is scored, stored or
    queued. *)
Theorem score_request_coordinates_unchecked
    (W : World) (request : ScoreRequest) (app : App) :
  ScoreRequest_valid request = true ->
  in_range (dec (-90) 1) (dec 90 1) (req_lat request) = false
  \/ in_range (dec (-180) 1) (dec 180 1) (req_lon request) = false ->
  exists field,
    (field = "lat" \/ field = "lon")
    /\ score_transaction W request app
       = (Status500 (ValidationError field), set_background_tasks [] app).
Proof.
  intros Hreq Hbad. unfold ScoreRequest_valid in Hreq.
  apply andb_true_iff in Hreq as [Hamount Hcur].
  unfold score_transaction, score_transaction_try, st_bind, st_lift, Transaction_new.
  cbn [Transaction_of_request amount currency lat lon].
  rewrite Hamount, Hcur. cbn [negb].
  destruct (in_range (dec (-90) 1) (dec 90 1) (req_lat request)) eqn:Elat; cbn [negb].
  - destruct Hbad as [Hbad|Hbad]; [discriminate|]. rewrite Hbad. cbn [negb].
    exists "lon". auto.
  - exists "lat". auto.
Qed.

Lemma score_request_coordinates_unchecked_witness :
  score_transaction Service.world Service.far_north Service.app
  = (Status500 (ValidationError "lat"), Service.app).
Proof.
  destruct (score_request_coordinates_unchecked Service.world Service.far_north
              Service.app) as (field & Hfield & Hrun);
    [reflexivity | left; reflexivity |].
  rewrite Hrun. destruct Hfield as [-> | ->]; [reflexivity|].
  vm_compute in Hrun. discriminate.
Defined.

Lemma run_tasks_raises (W : World) (tasks : list (string * Message))
    (self : KafkaProducer) :
  tasks <> [] ->
  exists e, run_tasks W tasks self = (Raise e, self).
Proof.
  destruct tasks as [|task rest]; [congruence|]. intros _. cbn [run_tasks].
  unfold st_bind, KafkaProducer_send_transaction, st_bind, st_get, st_lift, st_ret.
  destruct self as [s [p|]]; cbn; eauto.
Qed.

(** X23.  Nothing reaches the broker.  [startup_event] always raises:
    once [load_models] is through, connecting the producer fails; the
    store and the producer are as before.  And the tasks a request
    left behind end with the first of them raising, the producer
    still unconnected. *)
Theorem nothing_is_published (W : World) (app : App) :
  (exists e app',
     startup_event W app = (Raise e, app')
     /\ fraud_detector app' = snd (load_models (env W) (fraud_detector app))
     /\ kafka_producer app' = kafka_producer app
     /\ storage app' = storage app)
  /\ (background_tasks app <> [] ->
      exists e,
        run_background_tasks W app = (Raise e, set_background_tasks [] app)).
Proof.
  split.
  - unfold startup_event, st_bind, on_detector, on_producer.
    destruct (load_models (env W) (fraud_detector app)) as [[[]|e] p]; cbn; eauto 8.
  - intros Htasks. unfold run_background_tasks.
    destruct (run_tasks_raises W _ (kafka_producer app) Htasks) as (e & ->).
    exists e. now destruct app.
Qed.

(** X24.  The handler of [GET /alerts].  A negative limit or offset
    is not refused by the handler: the query raises.  When it returns,
    the list echoes the limit and the offset, holds at most [limit]
    alerts and at most [total] of them, each not older than [since],
    which is 24 hours before the clock reading when none is given;
    [total] is the count since then. *)
Theorem alerts_endpoint (utcnow : Z) (since : option Z) (limit offset : Z) (app : App) :
  ((limit < 0)%Z \/ (offset < 0)%Z ->
   exists e, app_get_alerts utcnow since limit offset app = Raise e)
  /\ (forall l,
        app_get_alerts utcnow since limit offset app = Ok l ->
        list_limit l = limit /\ list_offset l = offset
        /\ (Z.of_nat (length (list_alerts l)) <= limit)%Z
        /\ (Z.of_nat (length (list_alerts l)) <= list_total l)%Z
        /\ get_alert_count (storage app) (default (utcnow - 24 * hour_us) since)
           = Ok (list_total l)
        /\ forall a, a ∈ list_alerts l ->
             (default (utcnow - 24 * hour_us) since <= timestamp a)%Z).
Proof.
  unfold app_get_alerts, get_alerts, get_alert_count.
  set (s := default (utcnow - 24 * hour_us) since).
  split.
  - intros Hneg. destruct (acquire (manager (storage app))); cbn [exc_bind]; [|eauto].
    destruct Hneg as [Hneg|Hneg].
    + destruct (row_count_param_negative _ Hneg) as (e & ->). cbn. eauto.
    + destruct (row_count_param limit); cbn [exc_bind]; [|eauto].
      destruct (row_count_param_negative _ Hneg) as (e & ->). cbn. eauto.
  - intros l. destruct (acquire (manager (storage app))); cbn [exc_bind]; [|discriminate].
    destruct (row_count_param limit) as [n|] eqn:El; cbn [exc_bind]; [|discriminate].
    destruct (row_count_param offset) as [m|] eqn:Eo; cbn [exc_bind]; [|discriminate].
    set (rows := sort_desc _ (alerts_since (storage app) s)).
    destruct (exc_mapM Alert_of_row (take n (drop m rows))) as [page|] eqn:Hpage;
      cbn [exc_bind]; [|discriminate].
    intros E. injection E as <-. cbn.
    apply exc_mapM_Forall2 in Hpage.
    assert (Hn : limit = Z.of_nat n).
    { unfold row_count_param in El. destruct (_ || _); [discriminate|].
      destruct (limit <? 0)%Z eqn:E0; [discriminate|]. injection El as <-.
      apply Z.ltb_ge in E0. lia. }
    pose proof (Forall2_length _ _ _ Hpage) as Hlen.
    rewrite length_take, length_drop in Hlen. unfold rows in Hlen.
    rewrite sort_desc_length in Hlen.
    split; [reflexivity|]. split; [reflexivity|]. split; [lia|]. split; [lia|].
    split; [reflexivity|].
    intros x Hx. apply list_elem_of_lookup in Hx as [i Hi].
    destruct (Forall2_lookup_r _ _ _ _ _ Hpage Hi) as (row & Hrow & Hra).
    apply list_elem_of_lookup_2, subseteq_take, subseteq_drop in Hrow.
    apply sort_desc_elem_of in Hrow. unfold alerts_since in Hrow.
    apply list_elem_of_filter in Hrow as [Hsince _].
    unfold Alert_of_row, exc_bind in Hra.
    destruct (AlertStatus_of_value (row_status row)); [|discriminate].
    injection Hra as <-. exact Hsince.
Qed.

(** ** The explanation engine *)

Lemma Qc_abs_nonneg (x : Qc) : (0 <= Qc_abs x)%Qc.
Proof.
  unfold Qc_abs. destruct (Qc_ltb x 0) eqn:E.
  - apply Qc_ltb_lt in E. apply Qclt_le_weak in E.
    rewrite <- (Qcopp_involutive 0). apply Qcopp_le_compat. exact E.
  - now apply Qc_ltb_ge in E.
Qed.

Lemma Qc_abs_pos (x : Qc) : x <> 0%Qc -> (0 < Qc_abs x)%Qc.
Proof.
  intros Hx. destruct (Qcle_lt_or_eq _ _ (Qc_abs_nonneg x)) as [H|H]; [exact H|].
  exfalso. apply Hx. unfold Qc_abs in H. destruct (Qc_ltb x 0); [|now symmetry].
  rewrite <- (Qcopp_involutive x), <- H. reflexivity.
Qed.

Lemma Qc_div_pos (x y : Qc) : (0 < x -> 0 < y -> 0 < x / y)%Qc.
Proof.
  unfold Qclt, Qcdiv, Qcmult, Qcinv, Q2Qc. cbn [this]. intros Hx Hy.
  rewrite !Qred_correct. apply Qmult_lt_0_compat; [assumption|].
  now apply Qinv_lt_0_compat.
Qed.

Lemma Qc_minus_neq_0 (x y : Qc) : x <> y -> (x - y)%Qc <> 0%Qc.
Proof.
  intros Hne H. apply Hne.
  rewrite <- (Qcplus_0_l y), <- H. unfold Qcminus.
  now rewrite <- Qcplus_assoc, (Qcplus_comm (- y)), Qcplus_opp_r, Qcplus_0_r.
Qed.

Lemma Qc_eq_bool_false (x y : Qc) : Qc_eq_bool x y = false -> x <> y.
Proof.
  unfold Qc_eq_bool. destruct (Qcanon.Qc_eq_dec x y); [discriminate | auto].
Qed.

(** The capped deviation lies in [0, 1] and vanishes exactly inside
    the range. *)
Lemma capped_deviation (v lo hi : Qc) :
  (lo <= hi)%Qc ->
  let d := py_min 1 (range_deviation v lo hi) in
  (0 <= d)%Qc /\ (d <= 1)%Qc /\ (d = 0%Qc <-> (lo <= v)%Qc /\ (v <= hi)%Qc).
Proof.
  intros Hlh d.
  assert (Hpos : forall x, (0 < x)%Qc ->
            (0 < py_min 1 x)%Qc).
  { intros x Hx. unfold py_min. destruct (Qc_ltb x 1); [exact Hx|].
    apply Qc_ltb_lt. reflexivity. }
  assert (Hcase : (0 < range_deviation v lo hi)%Qc /\ ~ ((lo <= v)%Qc /\ (v <= hi)%Qc)
                  \/ range_deviation v lo hi = 0%Qc /\ (lo <= v)%Qc /\ (v <= hi)%Qc).
  { unfold range_deviation. destruct (Qc_ltb v lo) eqn:E1.
    - left. apply Qc_ltb_lt in E1. split.
      + destruct (Qc_eq_bool lo 0) eqn:E0; [apply Qc_ltb_lt; reflexivity|].
        apply Qc_div_pos; apply Qc_abs_pos.
        * apply Qc_minus_neq_0. intros ->. now apply Qclt_not_eq in E1.
        * now apply Qc_eq_bool_false.
      + intros [H _]. now apply Qclt_not_le in E1.
    - apply Qc_ltb_ge in E1. destruct (Qc_ltb hi v) eqn:E2.
      + left. apply Qc_ltb_lt in E2. split.
        * destruct (Qc_eq_bool hi 0) eqn:E0; [apply Qc_ltb_lt; reflexivity|].
          apply Qc_div_pos; apply Qc_abs_pos.
          -- apply Qc_minus_neq_0. intros ->. now apply Qclt_not_eq in E2.
          -- now apply Qc_eq_bool_false.
        * intros [_ H]. now apply Qclt_not_le in E2.
      + right. apply Qc_ltb_ge in E2. auto. }
  subst d. destruct Hcase as [[Hd Hout] | [Hd Hin]].
  - split; [apply Qclt_le_weak, Hpos, Hd|]. split; [apply py_min_le_l|].
    split; [|tauto]. intros H0. exfalso.
    specialize (Hpos _ Hd). rewrite H0 in Hpos. now apply Qclt_not_eq in Hpos.
  - rewrite Hd. change (py_min 1 0%Qc) with 0%Qc.
    split; [apply Qcle_refl|]. split; [apply Qc_leb_le; reflexivity|]. tauto.
Qed.

Lemma dict_get_elem_of {V} (d : list (string * V)) (k : string) (v : V) :
  NoDup (fst <$> d) -> (k, v) ∈ d -> dict_get d k = Some v.
Proof.
  unfold dict_get. induction d as [|[k' v'] d IH]; intros Hnd Hin.
  - now apply elem_of_nil in Hin.
  - cbn [fmap list_fmap fst] in Hnd. apply NoDup_cons in Hnd as [Hk' Hnd].
    apply elem_of_cons in Hin as [E|Hin].
    + injection E as <- <-. rewrite filter_cons_True by reflexivity. reflexivity.
    + rewrite filter_cons_False; [now apply IH|].
      cbn. intros ->. apply Hk'. apply list_elem_of_fmap. now exists (k, v).
Qed.

Lemma dict_get_Some {V} (d : list (string * V)) (k : string) (v : V) :
  dict_get d k = Some v -> (k, v) ∈ d.
Proof.
  unfold dict_get. intros H.
  destruct (filter (fun kv => fst kv = k) d) as [|[k' v'] r] eqn:E; [discriminate|].
  injection H as <-.
  assert (Hin : (k', v') ∈ filter (fun kv => fst kv = k) d)
    by (rewrite E; apply list_elem_of_here).
  apply list_elem_of_filter in Hin as [Hk Hin]. cbn in Hk. now subst k'.
Qed.

Lemma features_dict_NoDup (f : FeatureVector) : NoDup (fst <$> _features_to_dict f).
Proof. apply (bool_decide_unpack _). vm_compute. exact I. Qed.

Lemma normal_ranges_ordered (k : string) (lo hi : Qc) :
  dict_get normal_ranges k = Some (lo, hi) -> (lo <= hi)%Qc.
Proof.
  intros H. apply dict_get_Some in H. unfold normal_ranges in H.
  repeat (apply elem_of_cons in H as [H|H];
          [injection H as -> -> ->; apply Qc_leb_le; reflexivity|]).
  now apply elem_of_nil in H.
Qed.

(** What the loop of [_calculate_feature_importance] appends. *)
Lemma importance_scores_elem_of (f : FeatureVector) (x : ImportanceScore) :
  x ∈ mbind importance_of (_features_to_dict f) ->
  dict_get (_features_to_dict f) (feature x) = Some (value x)
  /\ dict_get normal_ranges (feature x) = Some (normal_range x)
  /\ deviation x
     = py_min 1 (range_deviation (value x) (fst (normal_range x))
                                 (snd (normal_range x)))
  /\ contribution x = (deviation x * dec 100 1)%Qc.
Proof.
  intros Hx. apply list_elem_of_bind in Hx as ([k v] & Hx & Hitem).
  unfold importance_of in Hx. cbn [fst snd] in Hx.
  destruct (dict_get normal_ranges k) as [[lo hi]|] eqn:Hr;
    [|now apply elem_of_nil in Hx].
  apply list_elem_of_singleton in Hx. subst x. cbn.
  split; [|auto]. apply dict_get_elem_of; [apply features_dict_NoDup | exact Hitem].
Qed.

Lemma importance_names (f : FeatureVector) :
  feature <$> mbind importance_of (_features_to_dict f) ≡ₚ fst <$> normal_ranges.
Proof.
  change (feature <$> mbind importance_of (_features_to_dict f))
    with ["amount_z_score"; "amount_rolling_std_1h"; "txn_count_1h"; "txn_count_24h";
          "distance_from_home"; "speed_from_last_txn"; "merchant_fraud_rate";
          "device_rarity_score"; "ip_rarity_score"].
  apply NoDup_Permutation.
  - apply (bool_decide_unpack _). vm_compute. exact I.
  - apply (bool_decide_unpack _). vm_compute. exact I.
  - intros x. cbn. rewrite !elem_of_cons, !elem_of_nil. tauto.
Qed.

(** X25.  The feature importance always ranks the same nine features,
    those with a normal range, by non-increasing contribution.  Each
    entry carries the value of its feature and its range; its
    deviation lies in [0, 1] and is zero exactly when the value is
    inside the range, and its contribution is a hundred times the
    deviation. *)
Theorem feature_importance_ranks_nine (f : FeatureVector) :
  let ranking := _calculate_feature_importance f in
  feature <$> ranking ≡ₚ fst <$> normal_ranges
  /\ length ranking = 9%nat
  /\ StronglySorted (fun a b => (contribution b <= contribution a)%Qc) ranking
  /\ forall x, x ∈ ranking ->
       dict_get (_features_to_dict f) (feature x) = Some (value x)
       /\ dict_get normal_ranges (feature x) = Some (normal_range x)
       /\ (0 <= deviation x)%Qc /\ (deviation x <= 1)%Qc
       /\ contribution x = (deviation x * dec 100 1)%Qc
       /\ (deviation x = 0%Qc
           <-> (fst (normal_range x) <= value x)%Qc
               /\ (value x <= snd (normal_range x))%Qc).
Proof.
  intros ranking. subst ranking. unfold _calculate_feature_importance.
  set (scores := mbind importance_of (_features_to_dict f)).
  set (leb := fun a b : ImportanceScore => Qc_leb (contribution a) (contribution b)).
  assert (Hnames : feature <$> sort_desc leb scores ≡ₚ fst <$> normal_ranges).
  { rewrite sort_desc_perm. apply importance_names. }
  assert (Hlen : length (sort_desc leb scores) = 9%nat).
  { rewrite <- (length_fmap feature), Hnames. reflexivity. }
  rewrite take_ge by (rewrite Hlen; lia).
  split; [exact Hnames|]. split; [exact Hlen|]. split.
  - eapply StronglySorted_mono;
      [|apply (sort_desc_sorted leb); [apply Qc_leb_total | apply Qc_leb_trans]].
    intros a b H. now apply Qc_leb_le.
  - intros x Hx. apply sort_desc_elem_of in Hx.
    destruct (importance_scores_elem_of f x Hx) as (Hv & Hr & Hd & Hc).
    split; [exact Hv|]. split; [exact Hr|].
    destruct (normal_range x) as [lo hi] eqn:Erange. cbn [fst snd] in *.
    destruct (capped_deviation (value x) lo hi (normal_ranges_ordered _ _ _ Hr))
      as (H0 & H1 & Hiff).
    rewrite Hc, Hd. auto.
Qed.

Lemma day_name_cases (day : Z) :
  ((-7 <= day <= 6)%Z ->
   exists name,
     list_index ["Monday"; "Tuesday"; "Wednesday"; "Thursday"; "Friday";
                 "Saturday"; "Sunday"] day = Ok name
     /\ ["Monday"; "Tuesday"; "Wednesday"; "Thursday"; "Friday"; "Saturday"; "Sunday"]
          !! Z.to_nat (day mod 7) = Some name)
  /\ ((day < -7 \/ 6 < day)%Z ->
      list_index ["Monday"; "Tuesday"; "Wednesday"; "Thursday"; "Friday";
                  "Saturday"; "Sunday"] day = Raise IndexError).
Proof.
  split.
  - intros H.
    assert (Hd : day = -7 \/ day = -6 \/ day = -5 \/ day = -4 \/ day = -3
                 \/ day = -2 \/ day = -1 \/ day = 0 \/ day = 1 \/ day = 2
                 \/ day = 3 \/ day = 4 \/ day = 5 \/ day = 6) by lia.
    repeat (destruct Hd as [-> | Hd]; [eexists; split; reflexivity|]).
    subst day. eexists. split; reflexivity.
  - intros H. unfold list_index. cbn [length].
    destruct (day <? 0)%Z eqn:E.
    + apply Z.ltb_lt in E. destruct H as [H|H]; [|lia].
      destruct (day + Z.of_nat 7 <? 0)%Z eqn:E2; [reflexivity|].
      apply Z.ltb_ge in E2. lia.
    + apply Z.ltb_ge in E. destruct H as [H|H]; [lia|].
      destruct (day <? 0)%Z eqn:E2; [reflexivity|].
      rewrite lookup_ge_None_2; [reflexivity|]. cbn [length]. lia.
Qed.

(** X26.  [generate_explanation] never raises, and the day of the week
    decides which of its two answers it gives: for a day from -7 to 6
    the comprehensive explanation, made of what its helpers return;
    for any other day, the name of the day cannot be looked up and the
    answer is the one of the [except] clause. *)
Theorem generate_explanation_fails_on_the_day_only
    (f : FeatureVector) (score_result : ScoreResult) :
  ((-7 <= day_of_week f <= 6)%Z ->
   exists timeline,
     _analyze_timeline_patterns f = Ok timeline
     /\ generate_explanation f score_result
        = Comprehensive
            {| sb_ensemble_score := score score_result;
               sb_threshold := threshold score_result;
               sb_is_alert := is_alert score_result;
               sb_confidence := confidence score_result |}
            (_calculate_feature_importance f)
            (_generate_counterfactuals f score_result)
            (_analyze_risk_factors f) timeline
            (_generate_recommendations f score_result))
  /\ ((day_of_week f < -7 \/ 6 < day_of_week f)%Z ->
      generate_explanation f score_result
      = Failed "Failed to generate explanation" (score score_result)
          (is_alert score_result)).
Proof.
  unfold generate_explanation, _analyze_timeline_patterns, _analyze_day_pattern.
  destruct (day_name_cases (day_of_week f)) as [Hin Hout]. split.
  - intros H. destruct (Hin H) as (name & -> & _). cbn [exc_bind]. eauto.
  - intros H. rewrite (Hout H). reflexivity.
Qed.

(** X27.  The analysis of the hour and of the day.  The risk of an
    hour is low from 6 to 22, medium from 0 to 5 and at 23, and high
    only for an hour that is none of a day; the hour is usual exactly
    when its risk is low, and the risk factors list an unusual hour
    exactly when it is not usual.  When the analysis of the day
    returns, the day lies between -7 and 6, its name is the one at the
    day modulo 7, and it is a weekend day, of medium risk, exactly
    from 5 on. *)
Theorem timeline_analysis_cases (f : FeatureVector) :
  let h := _analyze_hour_pattern (hour_of_day f) in
  (ha_risk_level h = "Low" <-> (6 <= hour_of_day f <= 22)%Z)
  /\ (ha_risk_level h = "Medium"
      <-> (0 <= hour_of_day f <= 5)%Z \/ hour_of_day f = 23)
  /\ (ha_risk_level h = "High" <-> (hour_of_day f < 0)%Z \/ (23 < hour_of_day f)%Z)
  /\ (ha_is_usual h = true <-> ha_risk_level h = "Low")
  /\ ((exists item, item ∈ low_risk (_analyze_risk_factors f)
                    /\ factor item = "Unusual hour")
      <-> ha_is_usual h = false)
  /\ (forall d,
        _analyze_day_pattern (day_of_week f) = Ok d ->
        (-7 <= day_of_week f <= 6)%Z
        /\ ["Monday"; "Tuesday"; "Wednesday"; "Thursday"; "Friday"; "Saturday";
            "Sunday"] !! Z.to_nat (day_of_week f mod 7) = Some (da_day_name d)
        /\ (da_is_weekend d = true <-> (5 <= day_of_week f)%Z)
        /\ (da_risk_level d = "Medium" <-> (5 <= day_of_week f)%Z)).
Proof.
  intros h. subst h. unfold _analyze_hour_pattern, _analyze_risk_factors.
  cbn [ha_risk_level ha_is_usual low_risk].
  set (hr := hour_of_day f).
  assert (Hitem : forall (b : bool) (rest : list RiskItem),
            Forall (fun item => factor item <> "Unusual hour") rest ->
            ((exists item,
                item ∈ ((if b then [ {| factor := "Unusual hour";
                                        item_value := Num (Qc_of_Z hr);
                                        item_threshold := Str "6-22" |} ]
                         else []) ++ rest)%list
                /\ factor item = "Unusual hour") <-> b = true)).
  { intros b rest Hrest. rewrite Forall_forall in Hrest. split.
    - intros (item & Hin & Hf). apply elem_of_app in Hin as [Hin|Hin].
      + destruct b; [reflexivity | now apply elem_of_nil in Hin].
      + now destruct (Hrest item Hin).
    - intros ->. eexists. split; [apply elem_of_app; left; apply list_elem_of_here|].
      reflexivity. }
  split; [|split; [|split; [|split; [|split]]]].
  - destruct (6 <=? hr)%Z eqn:E1, (hr <=? 22)%Z eqn:E2; cbn [andb];
      try (apply Z.leb_le in E1); try (apply Z.leb_le in E2);
      try (apply Z.leb_gt in E1); try (apply Z.leb_gt in E2);
      (split; [|intros ?]); try reflexivity; try lia;
      destruct (_ || _); discriminate.
  - destruct (6 <=? hr)%Z eqn:E1, (hr <=? 22)%Z eqn:E2,
             (22 <=? hr)%Z eqn:E3, (hr <=? 23)%Z eqn:E4,
             (0 <=? hr)%Z eqn:E5, (hr <=? 5)%Z eqn:E6; cbn [andb orb];
      rewrite ?Z.leb_le, ?Z.leb_gt in *;
      (split; [intros ?|intros ?]); try reflexivity; try discriminate; lia.
  - destruct (6 <=? hr)%Z eqn:E1, (hr <=? 22)%Z eqn:E2,
             (22 <=? hr)%Z eqn:E3, (hr <=? 23)%Z eqn:E4,
             (0 <=? hr)%Z eqn:E5, (hr <=? 5)%Z eqn:E6; cbn [andb orb];
      rewrite ?Z.leb_le, ?Z.leb_gt in *;
      (split; [intros ?|intros ?]); try reflexivity; try discriminate; lia.
  - destruct ((6 <=? hr)%Z && (hr <=? 22)%Z); [tauto|].
    split; [discriminate|]. destruct (_ || _); discriminate.
  - rewrite Hitem.
    + destruct (6 <=? hr)%Z eqn:E1, (hr <=? 22)%Z eqn:E2,
               (hr <? 6)%Z eqn:E3, (22 <? hr)%Z eqn:E4; cbn [andb orb];
        rewrite ?Z.leb_le, ?Z.leb_gt, ?Z.ltb_lt, ?Z.ltb_ge in *;
        (split; [intros ?|intros ?]); try reflexivity; try discriminate; lia.
    + destruct (is_weekend f); repeat constructor. discriminate.
  - intros d Hd. unfold _analyze_day_pattern in Hd.
    destruct (day_name_cases (day_of_week f)) as [Hin Hout].
    destruct (Z_le_dec (-7) (day_of_week f)) as [Hlo|Hlo];
      [destruct (Z_le_dec (day_of_week f) 6) as [Hhi|Hhi]|].
    + destruct (Hin (conj Hlo Hhi)) as (name & Hname & Hlookup).
      rewrite Hname in Hd. cbn [exc_bind] in Hd. injection Hd as <-.
      cbn [da_day_name da_is_weekend da_risk_level].
      split; [lia|]. split; [exact Hlookup|]. split; [apply Z.leb_le|].
      destruct (day_of_week f <? 5)%Z eqn:E;
        rewrite ?Z.ltb_lt, ?Z.ltb_ge in E; split; try discriminate; try lia; auto.
    + rewrite Hout in Hd by lia. discriminate.
    + rewrite Hout in Hd by lia. discriminate.
Qed.

(** X28.  The recommendations are never empty and at most six.  The
    sentence that the transaction appears normal is given exactly when
    the result is no alert and none of the four tests on the features
    holds, and then it is the only one; the advice to review the
    transaction is given exactly for an alert, and then comes first. *)
Theorem recommendations_are_never_empty (f : FeatureVector) (score_result : ScoreResult) :
  let recommendations := _generate_recommendations f score_result in
  recommendations <> []
  /\ (length recommendations <= 6)%nat
  /\ ("Transaction appears normal - continue monitoring" ∈ recommendations
      <-> is_alert score_result = false
          /\ (amount_z_score f <= dec 2 1)%Qc
          /\ (txn_count_1h f <= 5)%Z
          /\ country_change f = false
          /\ (merchant_fraud_rate f <= dec 1 10)%Qc)
  /\ ("Transaction appears normal - continue monitoring" ∈ recommendations ->
      recommendations = ["Transaction appears normal - continue monitoring"])
  /\ (is_alert score_result = true <->
      "Review this transaction manually" ∈ recommendations)
  /\ (is_alert score_result = true ->
      take 2 recommendations
      = ["Review this transaction manually";
         "Contact customer for verification if necessary"]).
Proof.
  intros recommendations. subst recommendations. unfold _generate_recommendations.
  rewrite <- !Qc_ltb_ge, <- Z.ltb_ge.
  destruct (is_alert score_result), (Qc_ltb (dec 2 1) (amount_z_score f)),
           (5 <? txn_count_1h f)%Z, (country_change f),
           (Qc_ltb (dec 1 10) (merchant_fraud_rate f));
    cbn [app];
    (split; [discriminate|]); (split; [cbn; lia|]);
    rewrite ?elem_of_cons, ?elem_of_nil;
    repeat split; intros; try reflexivity; try discriminate;
    intuition (try discriminate; auto).
Qed.

(** X29.  What the engine says of every engineered vector.  For a
    vector [engineer_features] returned, the explanation is the
    comprehensive one; the hour is never of high risk and the season
    always of low risk; and, as the two rarity scores are the constant
    1 and the distance from home the constant 0, the device
    verification is always suggested, the unusual device is always a
    medium risk, both rarity scores always contribute 100 and the
    distance from home always contributes 0. *)
Theorem engineered_vector_explained
    (L : Libs) (key : HashKey) (utcnow : Z) (T : Transaction)
    (db : DatabaseManager) (fe fe' : FeatureEngineer) (fv : FeatureVector)
    (score_result : ScoreResult) :
  engineer_features L key utcnow T db fe = (Ok fv, fe') ->
  exists breakdown importance counterfactuals risk timeline recommendations,
    generate_explanation fv score_result
    = Comprehensive breakdown importance counterfactuals risk timeline recommendations
    /\ ha_risk_level (hour_analysis timeline) <> "High"
    /\ sa_risk_level (seasonal_analysis timeline) = "Low"
    /\ (exists c, c ∈ counterfactuals /\ cf_type c = "device_verification")
    /\ (exists item, item ∈ medium_risk risk /\ factor item = "Unusual device")
    /\ (forall x, x ∈ importance ->
          (feature x = "device_rarity_score" \/ feature x = "ip_rarity_score" ->
           contribution x = dec 100 1)
          /\ (feature x = "distance_from_home" -> contribution x = 0%Qc)).
Proof.
  intros Hrun.
  destruct (engineer_features_fields _ _ _ _ _ _ _ _ Hrun)
    as (Hh & Hd & _ & Hhol & _ & _ & _ & Hdist & _ & Hdev & Hip).
  assert (Hday : (-7 <= day_of_week fv <= 6)%Z).
  { rewrite Hd. unfold weekday.
    pose proof (Z.mod_pos_bound (ts T / (24 * hour_us) + 3) 7). lia. }
  assert (Hhour : (0 <= hour_of_day fv <= 23)%Z).
  { rewrite Hh. unfold hour. pose proof (Z.mod_pos_bound (ts T / hour_us) 24). lia. }
  unfold generate_explanation, _analyze_timeline_patterns, _analyze_day_pattern.
  destruct (day_name_cases (day_of_week fv)) as [Hin _].
  destruct (Hin Hday) as (name & -> & _). cbn [exc_bind].
  do 6 eexists. split; [reflexivity|].
  cbn [hour_analysis seasonal_analysis _analyze_seasonal_pattern sa_risk_level].
  split; [|split; [|split; [|split]]].
  - unfold _analyze_hour_pattern. cbn [ha_risk_level].
    destruct (6 <=? hour_of_day fv)%Z eqn:E1, (hour_of_day fv <=? 22)%Z eqn:E2,
             (22 <=? hour_of_day fv)%Z eqn:E3, (hour_of_day fv <=? 23)%Z eqn:E4,
             (0 <=? hour_of_day fv)%Z eqn:E5, (hour_of_day fv <=? 5)%Z eqn:E6;
      cbn [andb orb]; try discriminate;
      rewrite ?Z.leb_le, ?Z.leb_gt in *; lia.
  - now rewrite Hhol.
  - unfold _generate_counterfactuals. rewrite Hdev.
    change (Qc_ltb (dec 8 10) 1%Qc) with true.
    eexists. split;
      [rewrite !elem_of_app; do 4 right; apply list_elem_of_here | reflexivity].
  - unfold _analyze_risk_factors. cbn [medium_risk]. rewrite Hdev.
    change (Qc_ltb (dec 7 10) 1%Qc) with true.
    eexists. split;
      [rewrite !elem_of_app; do 2 right; apply list_elem_of_here | reflexivity].
  - intros x Hx. unfold _calculate_feature_importance in Hx.
    apply subseteq_take, sort_desc_elem_of in Hx.
    destruct (importance_scores_elem_of fv x Hx) as (Hv & Hr & Hdv & Hc).
    split.
    + intros [Hf|Hf]; rewrite Hf in Hv, Hr; cbn in Hv, Hr;
        injection Hv as Hv; injection Hr as Hr;
        rewrite Hc, Hdv, <- Hv, <- Hr; cbn [fst snd];
        [rewrite Hdev | rewrite Hip]; vm_compute; reflexivity.
    + intros Hf. rewrite Hf in Hv, Hr. cbn in Hv, Hr.
      injection Hv as Hv. injection Hr as Hr.
      rewrite Hc, Hdv, <- Hv, <- Hr. cbn [fst snd]. rewrite Hdist.
      vm_compute. reflexivity.
Qed.

Lemma engineered_vector_explained_witness :
  exists fv breakdown importance counterfactuals risk timeline recommendations,
    fst (engineer_features Sample.libs hashseed_0 Sample.utcnow Sample.same_device
           {| pool := Some Sample.db_with_earlier |} FeatureEngineer_init) = Ok fv
    /\ generate_explanation fv Sample.default_result
       = Comprehensive breakdown importance counterfactuals risk timeline
           recommendations
    /\ exists c, c ∈ counterfactuals /\ cf_type c = "device_verification".
Proof.
  destruct (engineer_features Sample.libs hashseed_0 Sample.utcnow Sample.same_device
              {| pool := Some Sample.db_with_earlier |} FeatureEngineer_init)
    as [[fv|e] fe'] eqn:H; [|vm_compute in H; discriminate].
  destruct (engineered_vector_explained _ _ _ _ _ _ _ _ Sample.default_result H)
    as (b & i & c & r & t & rec & Hgen & _ & _ & Hdev & _).
  exists fv, b, i, c, r, t, rec. split; [reflexivity|]. split; [exact Hgen | exact Hdev].
Defined.
